(** * Surgical-report text parser and validator (app.py)

    A shallow embedding of the three pure pieces of [app.py]:
    - [guardar_en_txt]: the text written to the intermediate TXT artifact;
    - [convertir_a_json]: the line-oriented loop that turns that text into
      a section -> field -> value tree;
    - [validar_datos]: the completeness check run on the tree.

    Python strings are sequences of Unicode code points, dictionaries are
    insertion-ordered, and an indexing [d[k]] on a missing key raises
    [KeyError]; all three are modelled as such. *)

From Stdlib Require Import List NArith Bool Arith Lia String Ascii QArith.
Import ListNotations.

Local Open Scope N_scope.
Local Open Scope list_scope.

(* ===================================================================== *)
(** ** Python strings *)
(* ===================================================================== *)

Module PyStr.

(** A [str] is a list of code points. *)
Definition char := N.
Definition str := list char.

(** ASCII literals of the source are written with Rocq string literals. *)
Definition py (s : string) : str :=
  List.map N_of_ascii (list_ascii_of_string s).

Definition nl : char := 10.
Definition colon : char := 58.

Fixpoint str_eqb (a b : str) : bool :=
  match a, b with
  | [], [] => true
  | x :: a', y :: b' => (x =? y) && str_eqb a' b'
  | _, _ => false
  end.

(** Truth value of a string: [bool(s)] is [False] only for [""]. *)
Definition no_vacia (s : str) : bool :=
  match s with [] => false | _ :: _ => true end.

(** [str.isspace] on one code point (CPython's [_PyUnicode_IsWhitespace]). *)
Definition isspace (c : char) : bool :=
  ((9 <=? c) && (c <=? 13)) || ((28 <=? c) && (c <=? 32))
  || (c =? 133) || (c =? 160) || (c =? 5760)
  || ((8192 <=? c) && (c <=? 8202))
  || (c =? 8232) || (c =? 8233) || (c =? 8239) || (c =? 8287) || (c =? 12288).

Fixpoint lstrip (s : str) : str :=
  match s with
  | [] => []
  | c :: s' => if isspace c then lstrip s' else s
  end.

Definition rstrip (s : str) : str := rev (lstrip (rev s)).

(** [s.strip()] *)
Definition strip (s : str) : str := rstrip (lstrip s).

(** [s.startswith(p)] *)
Fixpoint startswith (p s : str) : bool :=
  match p, s with
  | [], _ => true
  | _ :: _, [] => false
  | x :: p', y :: s' => (x =? y) && startswith p' s'
  end.

(** [p in s] for strings: [p] occurs as a contiguous substring of [s]. *)
Fixpoint contiene (p s : str) : bool :=
  startswith p s ||
  match s with
  | [] => false
  | _ :: s' => contiene p s'
  end.

(** [s.split(sep)] for a one-character separator. *)
Fixpoint split (sep : char) (s : str) : list str :=
  match s with
  | [] => [[]]
  | c :: s' =>
      if c =? sep then [] :: split sep s'
      else match split sep s' with
           | [] => [[c]]
           | l :: ls => (c :: l) :: ls
           end
  end.

(** [s.split(sep, 1)] for a one-character separator: at most one cut,
    at the first occurrence. *)
Fixpoint split1 (sep : char) (s : str) : list str :=
  match s with
  | [] => [[]]
  | c :: s' =>
      if c =? sep then [[]; s']
      else match split1 sep s' with
           | l :: ls => (c :: l) :: ls
           | [] => [[c]]
           end
  end.

(** [sep.join(parts)] *)
Fixpoint join (sep : str) (parts : list str) : str :=
  match parts with
  | [] => []
  | [p] => p
  | p :: rest => p ++ sep ++ join sep rest
  end.

End PyStr.
Import PyStr.

(* ===================================================================== *)
(** ** Python dictionaries and exceptions *)
(* ===================================================================== *)

Module PyDict.

(** Insertion-ordered dictionary with string keys. *)
Definition dict (V : Type) := list (str * V).

Definition keys {V} (d : dict V) : list str := List.map fst d.

(** [d.get(k)]: the value stored under [k], if any. *)
Fixpoint dict_get {V} (k : str) (d : dict V) : option V :=
  match d with
  | [] => None
  | (k', v) :: d' => if str_eqb k k' then Some v else dict_get k d'
  end.

(** [k in d] *)
Definition dict_in {V} (k : str) (d : dict V) : bool :=
  match dict_get k d with Some _ => true | None => false end.

(** [d[k] = v]: replaces the value in place when [k] is already a key,
    appends a new entry otherwise. *)
Fixpoint dict_set {V} (k : str) (v : V) (d : dict V) : dict V :=
  match d with
  | [] => [(k, v)]
  | (k', v') :: d' =>
      if str_eqb k k' then (k', v) :: d' else (k', v') :: dict_set k v d'
  end.

(** Truth value of a dictionary: [bool(d)] is [False] only for [{}]. *)
Definition no_vacio {V} (d : dict V) : bool :=
  match d with [] => false | _ :: _ => true end.

End PyDict.
Import PyDict.

Inductive excepcion : Type :=
| KeyError (k : str)
| ValueError.

(** The outcome of running a piece of Python: a value, or a raised
    exception. *)
Inductive resultado (A : Type) : Type :=
| Ok (a : A)
| Raise (e : excepcion).
Arguments Ok {A} a.
Arguments Raise {A} e.

Definition bind {A B} (m : resultado A) (f : A -> resultado B) : resultado B :=
  match m with
  | Ok a => f a
  | Raise e => Raise e
  end.

Notation "x <- m ;; k" := (bind m (fun x => k))
  (at level 61, m at next level, right associativity).

(** [d[k]] as an expression. *)
Definition dict_index {V} (k : str) (d : dict V) : resultado V :=
  match dict_get k d with
  | Some v => Ok v
  | None => Raise (KeyError k)
  end.

(** [a, b = xs]: unpacking into exactly two targets. *)
Definition unpack2 {A} (xs : list A) : resultado (A * A) :=
  match xs with
  | [a; b] => Ok (a, b)
  | _ => Raise ValueError
  end.

(* ===================================================================== *)
(** ** Constants of the source *)
(* ===================================================================== *)

Definition DATOS_BASICOS : str := py "DATOS_BASICOS".
Definition IDENTIFICACION : str := py "IDENTIFICACION".
Definition EQUIPO_QUIRURGICO : str := py "EQUIPO_QUIRURGICO".
Definition DIAGNOSTICOS : str := py "DIAGNOSTICOS".
Definition INTERVENCION : str := py "INTERVENCION".
Definition PROCEDIMIENTOS : str := py "PROCEDIMIENTOS".
Definition DESCRIPCION_QUIRURGICA : str := py "DESCRIPCION_QUIRURGICA".
Definition CONTEO_MATERIAL : str := py "CONTEO_MATERIAL".
Definition DATOS_PROFESIONAL : str := py "DATOS_PROFESIONAL".

(** The list literal of lines 270-272 and 317-321. *)
Definition secciones_requeridas : list str :=
  [DATOS_BASICOS; IDENTIFICACION; EQUIPO_QUIRURGICO;
   DIAGNOSTICOS; INTERVENCION; PROCEDIMIENTOS;
   DESCRIPCION_QUIRURGICA; CONTEO_MATERIAL; DATOS_PROFESIONAL].

Definition Hallazgos_operatorios : str := py "Hallazgos_operatorios".
(** "Detalle_quirúrgico": the accented letter is U+00FA. *)
Definition Detalle_quirurgico : str := py "Detalle_quir" ++ [250] ++ py "rgico".
(** "Página": the accented letter is U+00E1. *)
Definition Pagina : str := py "P" ++ [225] ++ py "gina".
Definition Impreso_el : str := py "Impreso el".
Definition Ingreso : str := py "Ingreso".

(* ===================================================================== *)
(** ** guardar_en_txt (lines 238-246) *)
(* ===================================================================== *)

(** The content of the TXT file after the loop of line 242: every
    [f.write(dato + '\n\n')] appends to what was written before. *)
Definition guardar_en_txt (datos : list str) : str :=
  fold_left (fun f dato => f ++ (dato ++ [nl; nl])) datos [].

(* ===================================================================== *)
(** ** convertir_a_json (lines 255-304) *)
(* ===================================================================== *)

(** The four variables of the loop. *)
Record estado : Type := mkEstado {
  datos_json : dict (dict str);
  seccion_actual : option str;
  subseccion_actual : option str;
  temp_dict : dict str
}.

(** Lines 255-258. *)
Definition inicial : estado :=
  mkEstado [] None None [].

(** Truth value of a variable holding [None] or a string. *)
Definition verdadero (o : option str) : bool :=
  match o with
  | Some s => no_vacia s
  | None => false
  end.

(** [linea in [...]] of line 270. *)
Definition es_seccion (linea : str) : bool :=
  existsb (str_eqb linea) secciones_requeridas.

(** The test of line 266, on the stripped line. *)
Definition omitida (linea : str) : bool :=
  negb (no_vacia linea) || contiene Pagina linea || contiene Impreso_el linea.

(** [datos_json[seccion_actual] = temp_dict] guarded by
    [if seccion_actual and temp_dict] (lines 273-274 and 303-304). *)
Definition guardar_seccion (st : estado) : dict (dict str) :=
  match seccion_actual st with
  | Some s =>
      if no_vacia s && no_vacio (temp_dict st)
      then dict_set s (temp_dict st) (datos_json st)
      else datos_json st
  | None => datos_json st
  end.

Definition con_temp (st : estado) (t : dict str) : estado :=
  mkEstado (datos_json st) (seccion_actual st) (subseccion_actual st) t.

Definition abrir (st : estado) (sub valor : str) : estado :=
  mkEstado (datos_json st) (seccion_actual st) (Some sub)
           (dict_set sub valor (temp_dict st)).

(** [temp_dict[subseccion_actual] += "\n" + linea] (lines 293 and 300). *)
Definition acumular (st : estado) (sub linea : str) : resultado estado :=
  anterior <- dict_index sub (temp_dict st) ;;
  Ok (con_temp st (dict_set sub (anterior ++ [nl] ++ linea) (temp_dict st))).

(** One iteration of the loop of lines 262-300. *)
Definition procesar_linea (st : estado) (linea0 : str) : resultado estado :=
  let linea := strip linea0 in
  if omitida linea then Ok st
  else if es_seccion linea then
    Ok (mkEstado (guardar_seccion st) (Some linea) None [])
  else if verdadero (seccion_actual st) && contiene [colon] linea then
    par <- unpack2 (List.map strip (split1 colon linea)) ;;
    let '(clave, valor) := par in
    match seccion_actual st with
    | Some s =>
        if str_eqb s DESCRIPCION_QUIRURGICA then
          if contiene Hallazgos_operatorios clave then
            Ok (abrir st Hallazgos_operatorios valor)
          else if contiene Detalle_quirurgico clave then
            Ok (abrir st Detalle_quirurgico valor)
          else
            match subseccion_actual st with
            | Some sub =>
                if no_vacia sub then acumular st sub linea
                else Ok (con_temp st (dict_set clave valor (temp_dict st)))
            | None => Ok (con_temp st (dict_set clave valor (temp_dict st)))
            end
        else Ok (con_temp st (dict_set clave valor (temp_dict st)))
    | None => Ok st
    end
  else if verdadero (seccion_actual st) && verdadero (subseccion_actual st)
          && no_vacia linea then
    match subseccion_actual st with
    | Some sub => acumular st sub linea
    | None => Ok st
    end
  else Ok st.

(** The [for] loop of line 262. *)
Fixpoint procesar_lineas (st : estado) (lineas : list str) : resultado estado :=
  match lineas with
  | [] => Ok st
  | linea :: resto =>
      st' <- procesar_linea st linea ;;
      procesar_lineas st' resto
  end.

(** The loop followed by the last commit of lines 303-304. *)
Definition analizar_lineas (lineas : list str) : resultado (dict (dict str)) :=
  st <- procesar_lineas inicial lineas ;;
  Ok (guardar_seccion st).

(** The value of [datos_json] handed to [json.dump], as a function of the
    text read from the TXT file. *)
Definition convertir_a_json (contenido : str) : resultado (dict (dict str)) :=
  analizar_lineas (split nl contenido).

(* ===================================================================== *)
(** ** validar_datos (lines 315-330) *)
(* ===================================================================== *)

(** The three [logging.warning] calls. *)
Inductive aviso : Type :=
| SeccionFaltante (seccion : str)   (* "Sección {seccion} faltante en el JSON" *)
| HallazgosFaltantes                (* "Hallazgos operatorios faltantes" *)
| HallazgosIncompletos.             (* "Hallazgos operatorios posiblemente incompletos" *)

(** A run of the validator: the warnings logged so far, and whether the
    run is still going or has raised. *)
Definition registro (A : Type) : Type := list aviso -> list aviso * resultado A.

Definition devolver {A} (a : A) : registro A := fun log => (log, Ok a).

Definition luego {A B} (m : registro A) (f : A -> registro B) : registro B :=
  fun log =>
    match m log with
    | (log', Ok a) => f a log'
    | (log', Raise e) => (log', Raise e)
    end.

Definition warning (w : aviso) : registro unit := fun log => (log ++ [w], Ok tt).

Definition evaluar {A} (r : resultado A) : registro A := fun log => (log, r).

Definition cuando (b : bool) (m : registro unit) : registro unit :=
  if b then m else devolver tt.

(** The body of the loop of line 323. *)
Definition validar_seccion (datos : dict (dict str)) (seccion : str) : registro unit :=
  if negb (dict_in seccion datos) then
    warning (SeccionFaltante seccion)
  else if str_eqb seccion DESCRIPCION_QUIRURGICA then
    luego (evaluar (dict_index seccion datos)) (fun campos =>
    luego (cuando (negb (dict_in Hallazgos_operatorios campos))
                  (warning HallazgosFaltantes)) (fun _ =>
    luego (evaluar (dict_index seccion datos)) (fun campos' =>
    luego (evaluar (dict_index Hallazgos_operatorios campos')) (fun hallazgos =>
    cuando (Nat.ltb (List.length hallazgos) 50)
           (warning HallazgosIncompletos)))))
  else devolver tt.

Fixpoint validar_secciones (datos : dict (dict str)) (secciones : list str)
  : registro unit :=
  match secciones with
  | [] => devolver tt
  | seccion :: resto =>
      luego (validar_seccion datos seccion) (fun _ =>
      validar_secciones datos resto)
  end.

(** The warnings logged by [validar_datos datos_json], and its outcome. *)
Definition validar_datos (datos : dict (dict str)) : list aviso * resultado unit :=
  validar_secciones datos secciones_requeridas [].

(* ===================================================================== *)
(** ** Vocabulary of the statements *)
(* ===================================================================== *)

(** What holds of [datos_json] at every point of the loop. *)
Record DatosOk (d : dict (dict str)) : Prop := {
  ok_keys : Forall (fun k => In k secciones_requeridas) (keys d);
  ok_no_vacios : Forall (fun e : str * dict str => snd e <> []) d;
  ok_nodup : NoDup (keys d);
  ok_campos_nodup : Forall (fun e : str * dict str => NoDup (keys (snd e))) d
}.

(** What holds of the four loop variables at every point of the loop. *)
Record Inv (st : estado) : Prop := {
  inv_sub : forall sub, subseccion_actual st = Some sub ->
      seccion_actual st = Some DESCRIPCION_QUIRURGICA /\
      (sub = Hallazgos_operatorios \/ sub = Detalle_quirurgico) /\
      In sub (keys (temp_dict st));
  inv_sec : forall s, seccion_actual st = Some s -> In s secciones_requeridas;
  inv_temp_nodup : NoDup (keys (temp_dict st));
  inv_datos : DatosOk (datos_json st)
}.

(** No line of the text is, once stripped, one of the nine section names. *)
Definition sin_encabezados (lineas : list str) : bool :=
  forallb (fun l => negb (es_seccion (strip l))) lineas.

(** No line of [lineas] is, once stripped, the name [k]. *)
Definition sin_nombre (k : str) (lineas : list str) : bool :=
  forallb (fun l => negb (str_eqb (strip l) k)) lineas.


Definition con_datos (st : estado) (d : dict (dict str)) : estado :=
  mkEstado d (seccion_actual st) (subseccion_actual st) (temp_dict st).

(** The three variables that decide what a line does. *)
Definition mismo_control (a b : estado) : Prop :=
  seccion_actual a = seccion_actual b /\
  subseccion_actual a = subseccion_actual b /\
  temp_dict a = temp_dict b.

(** Every entry of [da] is an entry of [db]. *)
Definition incluido (da db : dict (dict str)) : Prop :=
  forall s campos, dict_get s da = Some campos -> dict_get s db = Some campos.

(** Run [a] started from the initial state and run [b] from anywhere:
    until the first header [a] has recorded nothing; after it both runs
    agree on the control variables and [b] holds every entry of [a]. *)
Definition sigue (a b : estado) : Prop :=
  (seccion_actual a = None /\ datos_json a = []) \/
  (mismo_control a b /\ incluido (datos_json a) (datos_json b)).

(** The line is a [key: value] line that the loop stores as a field of
    its own (lines 295 and 297): it is not skipped, a section is active,
    and in DESCRIPCION_QUIRURGICA the key carries no multiline marker and
    no multiline field is open. Returns the key and the value. *)
Definition campo_simple (st : estado) (linea0 : str) : option (str * str) :=
  let linea := strip linea0 in
  if omitida linea || es_seccion linea then None
  else if verdadero (seccion_actual st) && contiene [colon] linea then
    match List.map strip (split1 colon linea), seccion_actual st with
    | [clave; valor], Some s =>
        if str_eqb s DESCRIPCION_QUIRURGICA then
          if contiene Hallazgos_operatorios clave
             || contiene Detalle_quirurgico clave
             || verdadero (subseccion_actual st)
          then None else Some (clave, valor)
        else Some (clave, valor)
    | _, _ => None
    end
  else None.

(** The field [campo] of the section [seccion] of a parsed tree. *)
Definition campo (r : dict (dict str)) (seccion nombre : str) : option str :=
  match dict_get seccion r with
  | Some campos => dict_get nombre campos
  | None => None
  end.

(** The warnings one iteration of the validator adds when the designated
    field is there with value [hallazgos]. *)
Definition avisos_de (datos : dict (dict str)) (hallazgos seccion : str)
  : list aviso :=
  if negb (dict_in seccion datos) then [SeccionFaltante seccion]
  else if str_eqb seccion DESCRIPCION_QUIRURGICA then
    if Nat.ltb (List.length hallazgos) 50 then [HallazgosIncompletos] else []
  else [].

Definition aviso_eq_dec (a b : aviso) : {a = b} + {a <> b}.
Proof. decide equality. apply (list_eq_dec N.eq_dec). Defined.

(* ===================================================================== *)
(** ** Sample inputs *)
(* ===================================================================== *)

Definition texto_multilinea : str :=
  DESCRIPCION_QUIRURGICA ++ [nl] ++ py "Hallazgos_operatorios: a" ++ [nl]
  ++ py "line2" ++ [nl] ++ py "line3" ++ [nl].

Definition texto_sin_hallazgos : str :=
  join [nl] [DESCRIPCION_QUIRURGICA; py "Complicaciones: ninguna"].

Definition doc_uno : str := join [nl] [DATOS_BASICOS; py "Ingreso: 111"].
Definition doc_dos : str := join [nl] [DATOS_BASICOS; py "Ingreso: 222"].

Definition texto_hallazgos_abiertos : str :=
  join [nl] [DESCRIPCION_QUIRURGICA; py "Hallazgos_operatorios: a"].

(** Case analysis over the nine names. *)
Ltac por_seccion H :=
  unfold secciones_requeridas in H; simpl in H;
  repeat (destruct H as [H|H]; [subst; vm_compute; try reflexivity|]);
  try contradiction.

(* ===================================================================== *)
(** ** Vocabulary of the further properties *)
(* ===================================================================== *)

(** The key is one of the two multiline field names. *)
Definition es_marcador (k : str) : bool :=
  str_eqb k Hallazgos_operatorios || str_eqb k Detalle_quirurgico.

(** The key contains one of the two multiline field names (the tests of
    lines 286 and 289). *)
Definition tiene_marcador (clave : str) : bool :=
  contiene Hallazgos_operatorios clave || contiene Detalle_quirurgico clave.

(** The field the tests of lines 286 and 289 select for a key. *)
Definition marcador_de (clave : str) : str :=
  if contiene Hallazgos_operatorios clave then Hallazgos_operatorios
  else Detalle_quirurgico.

(** What one iteration does to the loop variables, case by case. *)
Inductive forma_paso (st : estado) (linea0 : str) : estado -> Prop :=
| fp_nada :
    es_seccion (strip linea0) = false ->
    forma_paso st linea0 st
| fp_encabezado :
    es_seccion (strip linea0) = true ->
    forma_paso st linea0
      (mkEstado (guardar_seccion st) (Some (strip linea0)) None [])
| fp_abrir clave valor :
    es_seccion (strip linea0) = false ->
    omitida (strip linea0) = false ->
    seccion_actual st = Some DESCRIPCION_QUIRURGICA ->
    List.map strip (split1 colon (strip linea0)) = [clave; valor] ->
    tiene_marcador clave = true ->
    forma_paso st linea0 (abrir st (marcador_de clave) valor)
| fp_acumular sub anterior :
    es_seccion (strip linea0) = false ->
    omitida (strip linea0) = false ->
    subseccion_actual st = Some sub ->
    dict_get sub (temp_dict st) = Some anterior ->
    forma_paso st linea0
      (con_temp st (dict_set sub (anterior ++ nl :: strip linea0) (temp_dict st)))
| fp_campo s clave valor :
    es_seccion (strip linea0) = false ->
    omitida (strip linea0) = false ->
    seccion_actual st = Some s ->
    List.map strip (split1 colon (strip linea0)) = [clave; valor] ->
    s <> DESCRIPCION_QUIRURGICA \/
      (subseccion_actual st = None /\ tiene_marcador clave = false) ->
    forma_paso st linea0 (con_temp st (dict_set clave valor (temp_dict st))).

Definition sin_marcador (k : str) : bool := negb (tiene_marcador k).

(** A key list made of keys without any marker followed by keys that are
    exactly one of the two multiline field names. *)
Fixpoint forma_dq (ks : list str) : bool :=
  match ks with
  | [] => true
  | k :: r =>
      if es_marcador k then forallb es_marcador r
      else sin_marcador k && forma_dq r
  end.

(** What the loop keeps true of DESCRIPCION_QUIRURGICA. *)
Record InvDQ (st : estado) : Prop := {
  dq_temp : seccion_actual st = Some DESCRIPCION_QUIRURGICA ->
            forma_dq (keys (temp_dict st)) = true;
  dq_cerrada : seccion_actual st = Some DESCRIPCION_QUIRURGICA ->
               subseccion_actual st = None ->
               forallb sin_marcador (keys (temp_dict st)) = true;
  dq_datos : forall campos,
      dict_get DESCRIPCION_QUIRURGICA (datos_json st) = Some campos ->
      forma_dq (keys campos) = true
}.

(** The lines the test of line 266 lets through. *)
Definition quitar_omitidas (lineas : list str) : list str :=
  filter (fun l => negb (omitida (strip l))) lineas.

(** The key and value a line yields when it is read as a field line. *)
Definition campo_de_linea (linea0 : str) : option (str * str) :=
  let linea := strip linea0 in
  if omitida linea then None
  else if contiene [colon] linea then
    match List.map strip (split1 colon linea) with
    | [clave; valor] => Some (clave, valor)
    | _ => None
    end
  else None.

(** The successive assignments [t[clave] = valor] of the field lines. *)
Definition campos_de_lineas (lineas : list str) (t : dict str) : dict str :=
  fold_left (fun t l => match campo_de_linea l with
                        | Some (clave, valor) => dict_set clave valor t
                        | None => t
                        end) lineas t.

(** [Label: value], the shape of the field lines of the prompt
    (lines 139-215). *)
Definition linea_de (kv : str * str) : str :=
  fst kv ++ [colon; 32] ++ snd kv.

(** A section in the labelled format: its name, its field lines, a blank
    line. *)
Definition bloque (e : str * dict str) : list str :=
  fst e :: List.map linea_de (snd e) ++ [[]].

(** A tree in the labelled format. *)
Definition formatear (r : dict (dict str)) : str :=
  join [nl] (flat_map bloque r).

Definition tiene (c : char) (s : str) : bool := existsb (N.eqb c) s.

Fixpoint distintas (ks : list str) : bool :=
  match ks with
  | [] => true
  | k :: r => negb (existsb (str_eqb k) r) && distintas r
  end.

(** A field the labelled format can carry: key and value are not empty,
    have no surrounding whitespace and no newline, the key has no colon,
    and the line is not one the parser skips. *)
Definition campo_ok (kv : str * str) : bool :=
  no_vacia (fst kv) && no_vacia (snd kv)
  && str_eqb (strip (fst kv)) (fst kv) && str_eqb (strip (snd kv)) (snd kv)
  && negb (tiene colon (fst kv))
  && negb (tiene nl (fst kv)) && negb (tiene nl (snd kv))
  && negb (contiene Pagina (linea_de kv))
  && negb (contiene Impreso_el (linea_de kv)).

(** A section the labelled format can carry: one of the nine names other
    than DESCRIPCION_QUIRURGICA, with at least one field, distinct keys
    and fields as above. *)
Definition seccion_ok (e : str * dict str) : bool :=
  es_seccion (fst e) && negb (str_eqb (fst e) DESCRIPCION_QUIRURGICA)
  && no_vacio (snd e) && distintas (keys (snd e)) && forallb campo_ok (snd e).

Definition registro_ok (r : dict (dict str)) : bool :=
  distintas (keys r) && forallb seccion_ok r.

(** The warning of line 325, when it is logged. *)
Definition faltante (datos : dict (dict str)) (seccion : str) : list aviso :=
  if dict_in seccion datos then [] else [SeccionFaltante seccion].

(** The sections checked before and after DESCRIPCION_QUIRURGICA. *)
Definition antes_dq : list str :=
  [DATOS_BASICOS; IDENTIFICACION; EQUIPO_QUIRURGICO;
   DIAGNOSTICOS; INTERVENCION; PROCEDIMIENTOS].

Definition despues_dq : list str := [CONTEO_MATERIAL; DATOS_PROFESIONAL].

(** The warning of line 330, when it is logged. *)
Definition incompleto (hallazgos : str) : list aviso :=
  if Nat.ltb (List.length hallazgos) 50 then [HallazgosIncompletos] else [].

(** The stripped lines that the test of line 266 lets through. *)
Definition lineas_utiles (contenido : str) : list str :=
  quitar_omitidas (List.map strip (split nl contenido)).

(** Every key is free of colons and of surrounding whitespace. *)
Definition claves_limpias (t : dict str) : Prop :=
  forall k, In k (keys t) -> ~ In colon k /\ strip k = k.

(** A value holds a newline only under one of the two multiline names. *)
Definition saltos_en_marcadores (t : dict str) : Prop :=
  forall k v, In (k, v) t -> In nl v -> es_marcador k = true.

Record InvTexto (st : estado) : Prop := {
  tx_claves : claves_limpias (temp_dict st);
  tx_claves_datos : forall s campos,
      In (s, campos) (datos_json st) -> claves_limpias campos;
  tx_saltos : forall k v, In (k, v) (temp_dict st) -> In nl v ->
      seccion_actual st = Some DESCRIPCION_QUIRURGICA /\ es_marcador k = true;
  tx_saltos_datos : forall s campos k v,
      In (s, campos) (datos_json st) -> In (k, v) campos -> In nl v ->
      s = DESCRIPCION_QUIRURGICA /\ es_marcador k = true
}.

(** No line of [lineas], read as a field line, carries the key [k]. *)
Definition no_reasigna (k : str) (lineas : list str) : bool :=
  forallb (fun l => match campo_de_linea l with
                    | Some (clave, _) => negb (str_eqb clave k)
                    | None => true
                    end) lineas.

(** The lines are none, or start with a section header. *)
Definition empieza_encabezado (lineas : list str) : bool :=
  match lineas with
  | [] => true
  | l :: _ => es_seccion (strip l)
  end.

(* ===================================================================== *)
(** ** upload_to_gemini (lines 20-72) *)
(* ===================================================================== *)

Module Subida.

(** The exceptions of class [Exception] that can reach the handler of
    line 55 or leave the function. *)
Inductive error : Type :=
| FileNotFoundError          (* line 37 *)
| ValueError_tamano          (* line 42: "El archivo es demasiado grande" *)
| ValueError_objeto          (* line 53: "no devolvió un objeto válido" *)
| AttributeError             (* [file.uri] of line 50 on an object without it *)
| TimeoutError               (* line 61 *)
| Externa (id : N).          (* raised inside [os] or [genai] *)

(** What the code looks at in the object [genai.upload_file] returns. *)
Record objeto : Type := mkObjeto {
  es_verdadero : bool;           (* [bool(file)] *)
  display_name : option str;     (* [hasattr(file, 'display_name')] *)
  uri : option str
}.

(** What one pass through the loop meets: the answers of the file system
    and of the service, and the value of [elapsed_time] if the handler
    runs. *)
Record observacion : Type := mkObservacion {
  obs_existe : bool;                 (* [os.path.exists(path)] *)
  obs_tamano : error + N;            (* [os.path.getsize(path)] *)
  obs_subida : error + objeto;       (* [genai.upload_file(...)] *)
  obs_transcurrido : Q               (* [time.time() - start_time] *)
}.

(** The calls that act on the outside. *)
Inductive evento : Type :=
| Sube                       (* [genai.upload_file] was called *)
| Duerme (segundos : N).     (* [time.sleep(wait_time)] *)

(** How the function ends. *)
Inductive salida : Type :=
| Devuelve (file : objeto)   (* line 51 *)
| DevuelveNone               (* line 72 *)
| Lanza (e : error).

Definition max_retries : N := 3.

(** 20 MB, line 41. *)
Definition limite : N := 20 * 1024 * 1024.

Definition presente {A} (o : option A) : bool :=
  match o with Some _ => true | None => false end.

(** The [try] body, lines 36-53. *)
Definition cuerpo (o : observacion) : list evento * (error + objeto) :=
  if negb (obs_existe o) then ([], inl FileNotFoundError)
  else
    match obs_tamano o with
    | inl e => ([], inl e)
    | inr file_size =>
        if limite <? file_size then ([], inl ValueError_tamano)
        else
          match obs_subida o with
          | inl e => ([Sube], inl e)
          | inr file =>
              if es_verdadero file && presente (display_name file) then
                if presente (uri file) then ([Sube], inr file)
                else ([Sube], inl AttributeError)
              else ([Sube], inl ValueError_objeto)
          end
    end.

(** [min(2 ** retry_count, 10)], line 68. *)
Definition wait_time (retry_count : N) : N := N.min (2 ^ retry_count) 10.

(** The [while] loop of line 33, unfolded at most [fuel] times; the
    world answers pass number [retry_count] with [mundo retry_count].
    [None] stands for a loop cut short by [fuel], which is no outcome of
    the function. *)
Fixpoint bucle (fuel : nat) (mundo : N -> observacion) (timeout : Q)
    (retry_count : N) : list evento * option salida :=
  match fuel with
  | O => ([], None)
  | S fuel' =>
      if retry_count <? max_retries then
        match cuerpo (mundo retry_count) with
        | (evs, inr file) => (evs, Some (Devuelve file))
        | (evs, inl e) =>
            let retry_count' := retry_count + 1 in
            if Qlt_le_dec timeout (obs_transcurrido (mundo retry_count))
            then (evs, Some (Lanza TimeoutError))
            else if max_retries <=? retry_count' then (evs, Some (Lanza e))
            else
              let '(evs', r) := bucle fuel' mundo timeout retry_count' in
              (evs ++ Duerme (wait_time retry_count') :: evs', r)
        end
      else ([], Some DevuelveNone)
  end.

Definition upload_to_gemini (fuel : nat) (mundo : N -> observacion)
    (timeout : Q) : list evento * option salida :=
  bucle fuel mundo timeout 0.

(** The sleeps of a trace, in order. *)
Definition esperas (evs : list evento) : list N :=
  flat_map (fun ev => match ev with Duerme s => [s] | Sube => [] end) evs.

(** The number of uploads of a trace. *)
Definition subidas (evs : list evento) : nat :=
  List.length (filter (fun ev => match ev with Sube => true | _ => false end) evs).

(** The pass can reach [genai.upload_file]: the file exists and its size
    is read and within the limit. *)
Definition subible (o : observacion) : bool :=
  obs_existe o &&
  match obs_tamano o with
  | inr file_size => negb (limite <? file_size)
  | inl _ => false
  end.

(** The pass ends at the [return file] of line 51. *)
Definition exitosa (o : observacion) : option objeto :=
  match cuerpo o with
  | (_, inr file) => Some file
  | (_, inl _) => None
  end.

(** A world in which the file is never there. *)
Definition mundo_sin_archivo (k : N) : observacion :=
  mkObservacion false (inl (Externa 2)) (inl (Externa 0)) (1 # 2).

(** A world in which the service fails twice and then answers, one
    second having passed at each failure. *)
Definition mundo_tercera (k : N) : observacion :=
  mkObservacion true (inr 1000)
    (if k <? 2 then inl (Externa 503)
     else inr (mkObjeto true (Some (py "informe.pdf")) (Some (py "files/abc"))))
    1.

(** A world in which the service always fails and the clock has passed
    the limit at the second failure. *)
Definition mundo_lento (k : N) : observacion :=
  mkObservacion true (inr 1000) (inl (Externa 503)) (if k <? 1 then 5 else 31).

End Subida.

(* ===================================================================== *)
(** ** wait_for_files_active (lines 74-94) *)
(* ===================================================================== *)

Module Espera.

(** One answer of [genai.get_file(file.name)], as far as the code reads
    it: the value of [current_file.state.name], or an exception raised
    inside the [try]. *)
Inductive respuesta : Type :=
| Estado (name : str)
| Falla.

(** An entry of [files]: a falsy one, or a file with the successive
    answers the service gives about it. *)
Definition archivo : Type := option (list respuesta).

(** The calls that act on the outside, with the position of the file. *)
Inductive evento : Type :=
| Consulta (i : nat)         (* [genai.get_file] *)
| Duerme10.                  (* [time.sleep(10)] *)

Definition PROCESSING : str := py "PROCESSING".
Definition ACTIVE : str := py "ACTIVE".

(** Lines 81-88 for the file at position [i]: [Some true] when the code
    goes on to the next file, [Some false] when it returns [False],
    [None] when the answers end while it is still polling. *)
Fixpoint sondear (i : nat) (rs : list respuesta) : list evento * option bool :=
  match rs with
  | [] => ([], None)
  | Falla :: _ => ([Consulta i], Some false)
  | Estado name :: rs' =>
      if str_eqb name PROCESSING then
        let '(evs, r) := sondear i rs' in
        (Consulta i :: Duerme10 :: evs, r)
      else ([Consulta i], Some (str_eqb name ACTIVE))
  end.

(** The [for] loop of line 77 from position [i] on. *)
Fixpoint esperar_desde (i : nat) (files : list archivo)
  : list evento * option bool :=
  match files with
  | [] => ([], Some true)
  | None :: resto => esperar_desde (S i) resto
  | Some rs :: resto =>
      match sondear i rs with
      | (evs, Some true) =>
          let '(evs', r) := esperar_desde (S i) resto in (evs ++ evs', r)
      | (evs, r) => (evs, r)
      end
  end.

Definition wait_for_files_active (files : list archivo)
  : list evento * option bool :=
  esperar_desde 0 files.

(** The first answer that is not "PROCESSING". *)
Fixpoint definitiva (rs : list respuesta) : option respuesta :=
  match rs with
  | [] => None
  | Estado name :: rs' =>
      if str_eqb name PROCESSING then definitiva rs' else Some (Estado name)
  | Falla :: _ => Some Falla
  end.

(** The number of "PROCESSING" answers before it. *)
Fixpoint procesando (rs : list respuesta) : nat :=
  match rs with
  | Estado name :: rs' =>
      if str_eqb name PROCESSING then S (procesando rs') else O
  | _ => O
  end.

(** The entry lets the loop go on: it is falsy, or its first answer
    other than "PROCESSING" is "ACTIVE". *)
Definition activo (f : archivo) : Prop :=
  match f with
  | None => True
  | Some rs => definitiva rs = Some (Estado ACTIVE)
  end.

Definition dormidas (evs : list evento) : nat :=
  List.length (filter (fun ev => match ev with Duerme10 => true | _ => false end) evs).

End Espera.

(* ===================================================================== *)
(** ** Facts about strings *)
(* ===================================================================== *)

Section StrFacts.

Lemma str_eqb_eq (a b : str) : str_eqb a b = true <-> a = b.
Proof.
  revert b; induction a as [|x a IH]; intros [|y b]; simpl; split;
    try congruence; try reflexivity.
  - intros H. apply andb_true_iff in H as [Hx Hab].
    apply N.eqb_eq in Hx. apply IH in Hab. now subst.
  - intros H. injection H as -> ->.
    rewrite N.eqb_refl. simpl. now apply IH.
Qed.

Lemma str_eqb_refl (a : str) : str_eqb a a = true.
Proof. now apply str_eqb_eq. Qed.

Lemma str_eqb_neq (a b : str) : str_eqb a b = false <-> a <> b.
Proof.
  split.
  - intros H E. apply str_eqb_eq in E. congruence.
  - intros H. destruct (str_eqb a b) eqn:E; [|reflexivity].
    apply str_eqb_eq in E. contradiction.
Qed.

Lemma split_no_nil (sep : char) (s : str) : split sep s <> [].
Proof.
  destruct s as [|c s]; simpl; [discriminate|].
  destruct (c =? sep); [discriminate|].
  destruct (split sep s); discriminate.
Qed.

(** Cutting a text at a separator cuts its list of pieces. *)
Lemma split_app (sep : char) (a b : str) :
  split sep (a ++ sep :: b) = split sep a ++ split sep b.
Proof.
  induction a as [|c a IH]; simpl.
  - now rewrite N.eqb_refl.
  - destruct (c =? sep); [now rewrite IH|].
    rewrite IH. destruct (split sep a) eqn:E; [|reflexivity].
    now apply split_no_nil in E.
Qed.

Lemma contiene_char (c : char) (s : str) :
  contiene [c] s = true <-> In c s.
Proof.
  induction s as [|x s IH]; simpl.
  - split; [discriminate|tauto].
  - rewrite orb_true_iff, IH, andb_true_r, N.eqb_eq. intuition congruence.
Qed.

(** When the separator occurs, [split(sep, 1)] has exactly two pieces. *)
Lemma split1_dos (sep : char) (s : str) :
  In sep s -> exists a b, split1 sep s = [a; b] /\ s = a ++ sep :: b.
Proof.
  induction s as [|c s IH]; simpl; [tauto|].
  intros H. destruct (c =? sep) eqn:E.
  - apply N.eqb_eq in E. subst. now exists [], s.
  - destruct H as [H|H]; [subst; now rewrite N.eqb_refl in E|].
    destruct (IH H) as (a & b & -> & ->). now exists (c :: a), b.
Qed.

End StrFacts.

(* ===================================================================== *)
(** ** Facts about dictionaries *)
(* ===================================================================== *)

Section DictFacts.

Context {V : Type}.
Implicit Types (d : dict V) (k : str) (v : V).

Lemma dict_get_set_eq k v d : dict_get k (dict_set k v d) = Some v.
Proof.
  induction d as [|[k' v'] d IH]; simpl.
  - now rewrite str_eqb_refl.
  - destruct (str_eqb k k') eqn:E; simpl; now rewrite E.
Qed.

Lemma dict_get_set_neq k k' v d :
  k <> k' -> dict_get k' (dict_set k v d) = dict_get k' d.
Proof.
  intros N. induction d as [|[k0 v0] d IH]; simpl.
  - apply not_eq_sym in N. apply str_eqb_neq in N. now rewrite N.
  - destruct (str_eqb k k0) eqn:E; simpl.
    + apply str_eqb_eq in E. subst k0.
      apply not_eq_sym in N. apply str_eqb_neq in N. now rewrite N.
    + now rewrite IH.
Qed.

Lemma dict_get_set k k' v d :
  dict_get k' (dict_set k v d) = if str_eqb k' k then Some v else dict_get k' d.
Proof.
  destruct (str_eqb k' k) eqn:E.
  - apply str_eqb_eq in E. subst. apply dict_get_set_eq.
  - apply str_eqb_neq in E. apply dict_get_set_neq. congruence.
Qed.

Lemma dict_get_in k d v : dict_get k d = Some v -> In k (keys d).
Proof.
  induction d as [|[k' v'] d IH]; simpl; [discriminate|].
  destruct (str_eqb k k') eqn:E.
  - apply str_eqb_eq in E. now left.
  - intros H. right. now apply IH.
Qed.

Lemma dict_get_none k d : dict_get k d = None <-> ~ In k (keys d).
Proof.
  induction d as [|[k' v'] d IH]; simpl.
  - tauto.
  - destruct (str_eqb k k') eqn:E.
    + apply str_eqb_eq in E. split; [discriminate|]. intros H. exfalso. auto.
    + apply str_eqb_neq in E. rewrite IH. intuition congruence.
Qed.

(** Assigning to an existing key keeps the entries where they are. *)
Lemma keys_set_present k v d :
  In k (keys d) -> keys (dict_set k v d) = keys d.
Proof.
  induction d as [|[k' v'] d IH]; simpl; [tauto|].
  intros H. destruct (str_eqb k k') eqn:E; simpl; [reflexivity|].
  apply str_eqb_neq in E. f_equal. apply IH. destruct H; congruence.
Qed.

(** Assigning to a new key appends one entry. *)
Lemma keys_set_absent k v d :
  ~ In k (keys d) -> keys (dict_set k v d) = keys d ++ [k].
Proof.
  induction d as [|[k' v'] d IH]; simpl; [reflexivity|].
  intros H. destruct (str_eqb k k') eqn:E; simpl.
  - apply str_eqb_eq in E. exfalso. auto.
  - f_equal. apply IH. tauto.
Qed.

Lemma keys_set_in k k' v d :
  In k' (keys (dict_set k v d)) <-> k' = k \/ In k' (keys d).
Proof.
  induction d as [|[k0 v0] d IH]; simpl.
  - intuition congruence.
  - destruct (str_eqb k k0) eqn:E; simpl.
    + apply str_eqb_eq in E. subst. intuition congruence.
    + rewrite IH. intuition congruence.
Qed.

Lemma keys_set_nodup k v d : NoDup (keys d) -> NoDup (keys (dict_set k v d)).
Proof.
  intros H. destruct (in_dec (list_eq_dec N.eq_dec) k (keys d)) as [I|I].
  - now rewrite keys_set_present.
  - rewrite keys_set_absent by assumption.
    apply NoDup_app; [assumption | repeat constructor; tauto |].
    intros x Hx [<-|[]]. contradiction.
Qed.

Lemma dict_set_no_vacio k v d : no_vacio (dict_set k v d) = true.
Proof.
  destruct d as [|[k' v'] d]; simpl; [reflexivity|].
  now destruct (str_eqb k k').
Qed.

(** Every entry of [dict_set k v d] is the new one or was in [d]. *)
Lemma dict_set_Forall (P : str * V -> Prop) k v d :
  (forall k0, k0 = k -> P (k0, v)) -> Forall P d -> Forall P (dict_set k v d).
Proof.
  intros Hk. induction 1 as [|[k' v'] d Hx Hd IH]; simpl.
  - constructor; [now apply Hk | constructor].
  - destruct (str_eqb k k') eqn:E.
    + apply str_eqb_eq in E. constructor; [now apply Hk | assumption].
    + constructor; assumption.
Qed.

Lemma dict_get_Forall (P : str * V -> Prop) k v d :
  Forall P d -> dict_get k d = Some v -> P (k, v).
Proof.
  induction 1 as [|[k' v'] d Hx Hd IH]; simpl; [discriminate|].
  destruct (str_eqb k k') eqn:E.
  - apply str_eqb_eq in E. intros [= <-]. now subst.
  - assumption.
Qed.

(** With distinct keys, the number of entries under a key that is present
    is exactly one. *)
Lemma count_key_one k d :
  NoDup (keys d) -> In k (keys d) ->
  count_occ (list_eq_dec N.eq_dec) (keys d) k = 1%nat.
Proof.
  intros ND I. apply NoDup_count_occ' with (decA := list_eq_dec N.eq_dec) in I;
    assumption.
Qed.

End DictFacts.

(* ===================================================================== *)
(** ** Facts about the section names *)
(* ===================================================================== *)

Lemma es_seccion_in (linea : str) :
  es_seccion linea = true <-> In linea secciones_requeridas.
Proof.
  unfold es_seccion. rewrite existsb_exists. split.
  - intros (x & Hx & E). apply str_eqb_eq in E. now subst.
  - intros H. exists linea. split; [assumption | apply str_eqb_refl].
Qed.

Lemma seccion_no_vacia (s : str) :
  In s secciones_requeridas -> no_vacia s = true.
Proof. intros H. por_seccion H. Qed.

Lemma seccion_no_omitida (s : str) :
  In s secciones_requeridas -> omitida s = false.
Proof. intros H. por_seccion H. Qed.

Lemma seccion_sin_colon (s : str) :
  In s secciones_requeridas -> contiene [colon] s = false.
Proof. intros H. por_seccion H. Qed.

(* ===================================================================== *)
(** ** The invariant of the parsing loop *)
(* ===================================================================== *)

Lemma DatosOk_nil : DatosOk [].
Proof. split; simpl; constructor. Qed.

Lemma Inv_inicial : Inv inicial.
Proof.
  split; simpl; try discriminate.
  - constructor.
  - apply DatosOk_nil.
Qed.

Lemma DatosOk_set (s : str) (t : dict str) (d : dict (dict str)) :
  In s secciones_requeridas -> t <> [] -> NoDup (keys t) ->
  DatosOk d -> DatosOk (dict_set s t d).
Proof.
  intros Hs Ht Hn [K E N C]. split.
  - apply Forall_forall. intros k Hk. apply keys_set_in in Hk as [->|Hk].
    + assumption.
    + rewrite Forall_forall in K. now apply K.
  - apply dict_set_Forall; [intros; assumption | assumption].
  - now apply keys_set_nodup.
  - apply dict_set_Forall; [intros; assumption | assumption].
Qed.

Lemma no_vacio_neq {V} (t : dict V) : no_vacio t = true -> t <> [].
Proof. destruct t; simpl; congruence. Qed.

Lemma guardar_seccion_ok (st : estado) : Inv st -> DatosOk (guardar_seccion st).
Proof.
  intros [Hsub Hsec Hnd Hd]. unfold guardar_seccion.
  destruct (seccion_actual st) as [s|]; [|assumption].
  destruct (no_vacia s && no_vacio (temp_dict st)) eqn:E; [|assumption].
  apply andb_true_iff in E as [_ E].
  apply DatosOk_set; auto using no_vacio_neq.
Qed.

Lemma Inv_con_temp (st : estado) (k v : str) :
  Inv st -> Inv (con_temp st (dict_set k v (temp_dict st))).
Proof.
  intros [Hsub Hsec Hnd Hd]. split; simpl; auto.
  - intros sub E. destruct (Hsub sub E) as (A & B & C).
    repeat split; try assumption. apply keys_set_in. now right.
  - now apply keys_set_nodup.
Qed.

Lemma Inv_abrir (st : estado) (sub v : str) :
  Inv st -> seccion_actual st = Some DESCRIPCION_QUIRURGICA ->
  sub = Hallazgos_operatorios \/ sub = Detalle_quirurgico ->
  Inv (abrir st sub v).
Proof.
  intros [Hsub Hsec Hnd Hd] Hs Hk. split; simpl; auto.
  - intros sub' [= <-]. repeat split; try assumption.
    apply keys_set_in. now left.
  - now apply keys_set_nodup.
Qed.

(** Under the invariant the open field is a key of [temp_dict], so the
    [+=] of lines 293 and 300 finds it. *)
Lemma acumular_ok (st : estado) (sub linea : str) :
  Inv st -> subseccion_actual st = Some sub ->
  exists anterior,
    dict_get sub (temp_dict st) = Some anterior /\
    acumular st sub linea =
      Ok (con_temp st (dict_set sub (anterior ++ nl :: linea) (temp_dict st))).
Proof.
  intros I E. destruct (inv_sub st I sub E) as (_ & _ & K).
  destruct (dict_get sub (temp_dict st)) as [anterior|] eqn:G.
  - exists anterior. split; [reflexivity|].
    unfold acumular, dict_index. now rewrite G.
  - apply dict_get_none in G. contradiction.
Qed.

(** A line with a colon unpacks into a key and a value. *)
Lemma unpack_linea (linea : str) :
  contiene [colon] linea = true ->
  exists a b, split1 colon linea = [a; b] /\ linea = a ++ colon :: b /\
    unpack2 (List.map strip (split1 colon linea)) = Ok (strip a, strip b).
Proof.
  intros H. apply contiene_char in H.
  destruct (split1_dos colon linea H) as (a & b & E & L).
  exists a, b. rewrite E. auto.
Qed.

(** One iteration never raises and keeps the invariant. *)
Lemma procesar_linea_inv (st : estado) (linea0 : str) :
  Inv st -> exists st', procesar_linea st linea0 = Ok st' /\ Inv st'.
Proof.
  intros I. unfold procesar_linea.
  destruct (omitida (strip linea0)) eqn:Eo; [eauto|].
  destruct (es_seccion (strip linea0)) eqn:Es.
  { eexists; split; [reflexivity|]. apply es_seccion_in in Es.
    split; simpl; try discriminate.
    - now intros s [= <-].
    - constructor.
    - now apply guardar_seccion_ok. }
  destruct (verdadero (seccion_actual st) && contiene [colon] (strip linea0)) eqn:Ec.
  { apply andb_true_iff in Ec as [Ev Ec].
    destruct (unpack_linea _ Ec) as (a & b & _ & _ & ->). simpl.
    destruct (seccion_actual st) as [s|] eqn:Hs; [|discriminate].
    destruct (str_eqb s DESCRIPCION_QUIRURGICA) eqn:Ed.
    - apply str_eqb_eq in Ed. subst s.
      destruct (contiene Hallazgos_operatorios (strip a)).
      { eexists; split; [reflexivity|]. apply Inv_abrir; auto. }
      destruct (contiene Detalle_quirurgico (strip a)).
      { eexists; split; [reflexivity|]. apply Inv_abrir; auto. }
      destruct (subseccion_actual st) as [sub|] eqn:Hsub.
      + destruct (no_vacia sub).
        * destruct (acumular_ok st sub (strip linea0) I Hsub) as (ant & _ & ->).
          eexists; split; [reflexivity|]. now apply Inv_con_temp.
        * eexists; split; [reflexivity|]. now apply Inv_con_temp.
      + eexists; split; [reflexivity|]. now apply Inv_con_temp.
    - eexists; split; [reflexivity|]. now apply Inv_con_temp. }
  destruct (verdadero (seccion_actual st) && verdadero (subseccion_actual st)
            && no_vacia (strip linea0)); [|eauto].
  destruct (subseccion_actual st) as [sub|] eqn:Hsub; [|eauto].
  destruct (acumular_ok st sub (strip linea0) I Hsub) as (ant & _ & ->).
  eexists; split; [reflexivity|]. now apply Inv_con_temp.
Qed.

Lemma procesar_lineas_inv (lineas : list str) (st : estado) :
  Inv st -> exists st', procesar_lineas st lineas = Ok st' /\ Inv st'.
Proof.
  revert st. induction lineas as [|l ls IH]; intros st I; simpl.
  - eauto.
  - destruct (procesar_linea_inv st l I) as (st1 & -> & I1). simpl.
    now apply IH.
Qed.

Lemma procesar_lineas_app (a b : list str) (st : estado) :
  procesar_lineas st (a ++ b) =
  st' <- procesar_lineas st a ;; procesar_lineas st' b.
Proof.
  revert st. induction a as [|l a IH]; intros st; simpl; [reflexivity|].
  destruct (procesar_linea st l); simpl; [apply IH | reflexivity].
Qed.

(** Every run of the loop from the initial state ends in a state that
    satisfies the invariant, and the parse returns the last commit. *)
Lemma convertir_a_json_ok (contenido : str) :
  exists st, procesar_lineas inicial (split nl contenido) = Ok st /\ Inv st /\
             convertir_a_json contenido = Ok (guardar_seccion st).
Proof.
  destruct (procesar_lineas_inv (split nl contenido) inicial Inv_inicial)
    as (st & E & I).
  exists st. split; [assumption|]. split; [assumption|].
  unfold convertir_a_json, analizar_lineas. now rewrite E.
Qed.

(** Before any section header has been seen, a line that is not a header
    changes nothing. *)
Lemma procesar_linea_sin_seccion (st : estado) (linea0 : str) :
  seccion_actual st = None -> es_seccion (strip linea0) = false ->
  procesar_linea st linea0 = Ok st.
Proof.
  intros Hs He. unfold procesar_linea. rewrite He, Hs. simpl.
  now destruct (omitida (strip linea0)).
Qed.

Lemma procesar_lineas_sin_seccion (lineas : list str) (st : estado) :
  seccion_actual st = None -> sin_encabezados lineas = true ->
  procesar_lineas st lineas = Ok st.
Proof.
  induction lineas as [|l ls IH]; simpl; intros Hs H; [reflexivity|].
  apply andb_true_iff in H as [Hl Hls]. apply negb_true_iff in Hl.
  rewrite procesar_linea_sin_seccion by assumption. simpl. now apply IH.
Qed.

(* ===================================================================== *)
(** ** The validator *)
(* ===================================================================== *)

Section Validador.

Variable datos : dict (dict str).
Variable campos : dict str.
Variable hallazgos : str.
Hypothesis Hseccion : dict_get DESCRIPCION_QUIRURGICA datos = Some campos.
Hypothesis Hcampo : dict_get Hallazgos_operatorios campos = Some hallazgos.

Lemma validar_seccion_presente (seccion : str) (log : list aviso) :
  validar_seccion datos seccion log = (log ++ avisos_de datos hallazgos seccion, Ok tt).
Proof.
  unfold validar_seccion, avisos_de.
  destruct (negb (dict_in seccion datos)); [reflexivity|].
  destruct (str_eqb seccion DESCRIPCION_QUIRURGICA) eqn:E.
  - apply str_eqb_eq in E. subst seccion.
    unfold luego, evaluar, dict_index, cuando, dict_in.
    rewrite Hseccion, Hcampo. simpl.
    destruct (Nat.ltb (List.length hallazgos) 50); unfold warning, devolver.
    + reflexivity.
    + now rewrite app_nil_r.
  - unfold devolver. now rewrite app_nil_r.
Qed.

Lemma validar_secciones_presente (secciones : list str) (log : list aviso) :
  validar_secciones datos secciones log =
  (log ++ flat_map (avisos_de datos hallazgos) secciones, Ok tt).
Proof.
  revert log. induction secciones as [|s ss IH]; intros log; simpl.
  - unfold devolver. now rewrite app_nil_r.
  - unfold luego. rewrite validar_seccion_presente, IH. now rewrite app_assoc.
Qed.

Lemma cuenta_incompletos (secciones : list str) :
  count_occ aviso_eq_dec (flat_map (avisos_de datos hallazgos) secciones)
    HallazgosIncompletos =
  if Nat.ltb (List.length hallazgos) 50
  then count_occ (list_eq_dec N.eq_dec) secciones DESCRIPCION_QUIRURGICA
  else 0%nat.
Proof.
  induction secciones as [|s ss IH]; simpl.
  - now destruct (Nat.ltb _ _).
  - rewrite count_occ_app, IH. unfold avisos_de at 1.
    destruct (list_eq_dec N.eq_dec s DESCRIPCION_QUIRURGICA) as [->|N].
    + unfold dict_in. rewrite Hseccion, str_eqb_refl. simpl.
      destruct (Nat.ltb (List.length hallazgos) 50); reflexivity.
    + apply str_eqb_neq in N. rewrite N.
      destruct (negb (dict_in s datos)); simpl;
        destruct (Nat.ltb (List.length hallazgos) 50); reflexivity.
Qed.

End Validador.

(* ===================================================================== *)
(** ** The shape of one iteration *)
(* ===================================================================== *)

(** A header line commits the open section and starts a new one. *)
Lemma procesar_encabezado (st : estado) (linea0 : str) :
  es_seccion (strip linea0) = true ->
  procesar_linea st linea0 =
  Ok (mkEstado (guardar_seccion st) (Some (strip linea0)) None []).
Proof.
  intros H. unfold procesar_linea. rewrite H.
  apply es_seccion_in in H. now rewrite (seccion_no_omitida _ H).
Qed.

Lemma acumular_forma (st st' : estado) (sub linea : str) :
  acumular st sub linea = Ok st' ->
  exists anterior, dict_get sub (temp_dict st) = Some anterior /\
    st' = con_temp st (dict_set sub (anterior ++ nl :: linea) (temp_dict st)).
Proof.
  unfold acumular, dict_index.
  destruct (dict_get sub (temp_dict st)) as [anterior|]; simpl; [|discriminate].
  intros [= <-]. now exists anterior.
Qed.

(** A line that is not a header leaves [datos_json] and [seccion_actual]
    alone and never removes a key from [temp_dict]. *)
Lemma procesar_campo_forma (st st' : estado) (linea0 : str) :
  es_seccion (strip linea0) = false ->
  procesar_linea st linea0 = Ok st' ->
  datos_json st' = datos_json st /\
  seccion_actual st' = seccion_actual st /\
  (forall k, In k (keys (temp_dict st)) -> In k (keys (temp_dict st'))).
Proof.
  intros He. unfold procesar_linea. rewrite He.
  assert (T : forall k v, datos_json (con_temp st (dict_set k v (temp_dict st)))
                = datos_json st /\
              seccion_actual (con_temp st (dict_set k v (temp_dict st)))
                = seccion_actual st /\
              (forall k0, In k0 (keys (temp_dict st)) ->
                 In k0 (keys (temp_dict
                   (con_temp st (dict_set k v (temp_dict st))))))).
  { intros k v. simpl. split; [reflexivity|]. split; [reflexivity|].
    intros k0 H. apply keys_set_in. auto. }
  assert (B : forall k v, datos_json (abrir st k v) = datos_json st /\
              seccion_actual (abrir st k v) = seccion_actual st /\
              (forall k0, In k0 (keys (temp_dict st)) ->
                 In k0 (keys (temp_dict (abrir st k v))))).
  { intros k v. simpl. split; [reflexivity|]. split; [reflexivity|].
    intros k0 H. apply keys_set_in. auto. }
  assert (A : forall sub l, acumular st sub l = Ok st' ->
              datos_json st' = datos_json st /\
              seccion_actual st' = seccion_actual st /\
              (forall k, In k (keys (temp_dict st)) -> In k (keys (temp_dict st')))).
  { intros sub l H. apply acumular_forma in H as (ant & _ & ->). apply T. }
  destruct (omitida (strip linea0)); [intros [= <-]; auto|].
  destruct (verdadero (seccion_actual st) && contiene [colon] (strip linea0)).
  { destruct (unpack2 _) as [[clave valor]|]; simpl; [|discriminate].
    destruct (seccion_actual st) as [s|] eqn:Hs; [|intros [= <-]; auto].
    destruct (str_eqb s DESCRIPCION_QUIRURGICA).
    - destruct (contiene Hallazgos_operatorios clave); [intros [= <-]; apply B|].
      destruct (contiene Detalle_quirurgico clave); [intros [= <-]; apply B|].
      destruct (subseccion_actual st) as [sub|].
      + destruct (no_vacia sub); [apply A | intros [= <-]; apply T].
      + intros [= <-]; apply T.
    - intros [= <-]; apply T. }
  destruct (verdadero (seccion_actual st) && verdadero (subseccion_actual st)
            && no_vacia (strip linea0)); [|intros [= <-]; auto].
  destruct (subseccion_actual st) as [sub|]; [apply A | intros [= <-]; auto].
Qed.

(** A line that is not a header is processed without looking at
    [datos_json]. *)
Lemma procesar_campo_datos (st : estado) (d : dict (dict str)) (linea0 : str) :
  es_seccion (strip linea0) = false ->
  procesar_linea (con_datos st d) linea0 =
  st' <- procesar_linea st linea0 ;; Ok (con_datos st' d).
Proof.
  intros He. unfold procesar_linea. rewrite He. simpl.
  destruct (omitida (strip linea0)); [reflexivity|].
  destruct (verdadero (seccion_actual st) && contiene [colon] (strip linea0)).
  { destruct (unpack2 _) as [[clave valor]|]; simpl; [|reflexivity].
    destruct (seccion_actual st) as [s|]; [|reflexivity].
    destruct (str_eqb s DESCRIPCION_QUIRURGICA); [|reflexivity].
    destruct (contiene Hallazgos_operatorios clave); [reflexivity|].
    destruct (contiene Detalle_quirurgico clave); [reflexivity|].
    destruct (subseccion_actual st) as [sub|]; [|reflexivity].
    destruct (no_vacia sub); [|reflexivity].
    unfold acumular, dict_index. simpl.
    now destruct (dict_get sub (temp_dict st)). }
  destruct (verdadero (seccion_actual st) && verdadero (subseccion_actual st)
            && no_vacia (strip linea0)); [|reflexivity].
  destruct (subseccion_actual st) as [sub|]; [|reflexivity].
  unfold acumular, dict_index. simpl.
  now destruct (dict_get sub (temp_dict st)).
Qed.

(* ===================================================================== *)
(** ** Two runs of the loop over the same lines *)
(* ===================================================================== *)

Lemma mismo_control_con_datos (a b : estado) :
  mismo_control a b -> b = con_datos a (datos_json b).
Proof.
  destruct a, b. unfold mismo_control, con_datos. simpl.
  intros (-> & -> & ->). reflexivity.
Qed.

Lemma guardar_seccion_incluido (a b : estado) :
  mismo_control a b -> incluido (datos_json a) (datos_json b) ->
  incluido (guardar_seccion a) (guardar_seccion b).
Proof.
  intros (Hs & _ & Ht) Hi. unfold guardar_seccion. rewrite <- Hs, <- Ht.
  destruct (seccion_actual a) as [s|]; [|assumption].
  destruct (no_vacia s && no_vacio (temp_dict a)); [|assumption].
  intros k campos. rewrite !dict_get_set.
  destruct (str_eqb k s); [trivial | apply Hi].
Qed.

Lemma guardar_seccion_sin_seccion (a : estado) :
  seccion_actual a = None -> guardar_seccion a = datos_json a.
Proof. unfold guardar_seccion. now intros ->. Qed.

Lemma sigue_paso (a b a' : estado) (linea0 : str) :
  sigue a b -> Inv b -> procesar_linea a linea0 = Ok a' ->
  exists b', procesar_linea b linea0 = Ok b' /\ Inv b' /\ sigue a' b'.
Proof.
  intros S I Ha. destruct (procesar_linea_inv b linea0 I) as (b' & Hb & I').
  exists b'. split; [assumption|]. split; [assumption|].
  destruct (es_seccion (strip linea0)) eqn:He.
  - rewrite procesar_encabezado in Ha, Hb by assumption.
    injection Ha as <-. injection Hb as <-. right. split.
    + repeat split.
    + simpl. destruct S as [[Hs Hd]|[Hc Hi]].
      * rewrite guardar_seccion_sin_seccion, Hd by assumption.
        intros s campos. discriminate.
      * now apply guardar_seccion_incluido.
  - destruct S as [[Hs Hd]|[Hc Hi]].
    + rewrite procesar_linea_sin_seccion in Ha by assumption.
      injection Ha as <-. now left.
    + right. rewrite (mismo_control_con_datos a b Hc) in Hb.
      rewrite procesar_campo_datos, Ha in Hb by assumption. simpl in Hb.
      injection Hb as <-.
      apply procesar_campo_forma in Ha as (Hd & _ & _); [|assumption].
      split; [repeat split|]. simpl. now rewrite Hd.
Qed.

Lemma sigue_lineas (lineas : list str) (a b a' : estado) :
  sigue a b -> Inv b -> procesar_lineas a lineas = Ok a' ->
  exists b', procesar_lineas b lineas = Ok b' /\ Inv b' /\ sigue a' b'.
Proof.
  revert a b. induction lineas as [|l ls IH]; intros a b S I; simpl.
  - intros [= <-]. eauto.
  - destruct (procesar_linea a l) as [a1|] eqn:Ha; simpl; [|discriminate].
    intros Hrest.
    destruct (sigue_paso a b a1 l S I Ha) as (b1 & -> & I1 & S1). simpl.
    eapply IH; eauto.
Qed.

(** Whatever was parsed before, the entries a block of lines yields on its
    own are the entries it leaves in the final tree. *)
Lemma ultimo_gana (lineas : list str) (b : estado) (r : dict (dict str)) :
  Inv b -> analizar_lineas lineas = Ok r ->
  exists b', procesar_lineas b lineas = Ok b' /\ Inv b' /\
             incluido r (guardar_seccion b').
Proof.
  intros I. unfold analizar_lineas.
  destruct (procesar_lineas inicial lineas) as [a'|] eqn:Ha; simpl; [|discriminate].
  intros [= <-].
  destruct (sigue_lineas lineas inicial b a') as (b' & Hb & I' & S); auto.
  { now left. }
  exists b'. split; [assumption|]. split; [assumption|].
  destruct S as [[Hs Hd]|[Hc Hi]].
  - rewrite guardar_seccion_sin_seccion, Hd by assumption.
    intros s campos. discriminate.
  - now apply guardar_seccion_incluido.
Qed.



(* ===================================================================== *)
(** ** Where the keys of the tree come from *)
(* ===================================================================== *)






(* ===================================================================== *)
(** ** Field lines *)
(* ===================================================================== *)

Lemma campo_simple_paso (st : estado) (linea0 clave valor : str) :
  campo_simple st linea0 = Some (clave, valor) ->
  es_seccion (strip linea0) = false /\
  procesar_linea st linea0 =
    Ok (con_temp st (dict_set clave valor (temp_dict st))).
Proof.
  unfold campo_simple, procesar_linea.
  destruct (omitida (strip linea0)); simpl; [discriminate|].
  destruct (es_seccion (strip linea0)); simpl; [discriminate|].
  destruct (verdadero (seccion_actual st) && contiene [colon] (strip linea0));
    [|discriminate].
  destruct (List.map strip (split1 colon (strip linea0))) as [|a [|b [|c r]]];
    try discriminate.
  destruct (seccion_actual st) as [s|]; [|discriminate]. simpl.
  destruct (str_eqb s DESCRIPCION_QUIRURGICA).
  - destruct (contiene Hallazgos_operatorios a); simpl; [discriminate|].
    destruct (contiene Detalle_quirurgico a); simpl; [discriminate|].
    destruct (subseccion_actual st) as [sub|]; simpl.
    + destruct (no_vacia sub); [discriminate|]. intros [= -> ->]. auto.
    + intros [= -> ->]. auto.
  - intros [= -> ->]. auto.
Qed.

(** Lines without a header keep the section and the keys accumulated. *)
Lemma sin_encabezados_lineas (lineas : list str) (st st' : estado) :
  sin_encabezados lineas = true -> procesar_lineas st lineas = Ok st' ->
  seccion_actual st' = seccion_actual st /\
  datos_json st' = datos_json st /\
  (forall k, In k (keys (temp_dict st)) -> In k (keys (temp_dict st'))).
Proof.
  revert st. induction lineas as [|l ls IH]; intros st; simpl.
  - intros _ [= <-]. auto.
  - intros H. apply andb_true_iff in H as [Hl Hls]. apply negb_true_iff in Hl.
    destruct (procesar_linea st l) as [st1|] eqn:H1; simpl; [|discriminate].
    intros Hr. destruct (IH st1 Hls Hr) as (A & B & C).
    apply procesar_campo_forma in H1 as (D & E & F); [|assumption].
    repeat split; try congruence. auto.
Qed.

(** A line with a colon met while a multiline field is open, whose key
    carries no marker: the stripped line goes to the end of that field. *)
Lemma continuacion_paso (st : estado) (linea0 sub clave valor : str) :
  Inv st -> subseccion_actual st = Some sub ->
  omitida (strip linea0) = false ->
  List.map strip (split1 colon (strip linea0)) = [clave; valor] ->
  contiene Hallazgos_operatorios clave = false ->
  contiene Detalle_quirurgico clave = false ->
  exists anterior,
    dict_get sub (temp_dict st) = Some anterior /\
    procesar_linea st linea0 =
      Ok (con_temp st (dict_set sub (anterior ++ nl :: strip linea0) (temp_dict st))).
Proof.
  intros I Hsub Ho Hp Hh Hd.
  destruct (inv_sub st I sub Hsub) as (Hs & Hk & Hin).
  destruct (acumular_ok st sub (strip linea0) I Hsub) as (ant & Hg & Ha).
  exists ant. split; [assumption|].
  assert (Hc : contiene [colon] (strip linea0) = true).
  { apply contiene_char. destruct (in_dec N.eq_dec colon (strip linea0)) as [|N];
      [assumption|].
    exfalso. clear -Hp N. revert Hp.
    assert (S1 : forall s, ~ In colon s -> split1 colon s = [s]).
    { induction s as [|c s IH]; simpl; [reflexivity|]. intros H.
      destruct (c =? colon) eqn:E; [apply N.eqb_eq in E; tauto|].
      rewrite IH by tauto. reflexivity. }
    rewrite S1 by assumption. discriminate. }
  assert (Hns : es_seccion (strip linea0) = false).
  { destruct (es_seccion (strip linea0)) eqn:E; [|reflexivity].
    apply es_seccion_in, seccion_sin_colon in E. congruence. }
  unfold procesar_linea. rewrite Ho, Hns, Hs, Hc, Hp. simpl.
  rewrite Hh, Hd, Hsub.
  assert (Hnv : no_vacia sub = true) by (destruct Hk; subst; reflexivity).
  now rewrite Hnv.
Qed.

Lemma Inv_lineas (lineas : list str) (st st' : estado) :
  Inv st -> procesar_lineas st lineas = Ok st' -> Inv st'.
Proof.
  intros I H. destruct (procesar_lineas_inv lineas st I) as (st1 & E & I1).
  congruence.
Qed.

Lemma campo_simple_seccion (st : estado) (linea0 : str) (p : str * str) :
  campo_simple st linea0 = Some p ->
  exists s, seccion_actual st = Some s /\ no_vacia s = true.
Proof.
  unfold campo_simple.
  destruct (omitida (strip linea0) || es_seccion (strip linea0)); [discriminate|].
  destruct (verdadero (seccion_actual st) && contiene [colon] (strip linea0))
    eqn:E; [|discriminate].
  apply andb_true_iff in E as [E _].
  destruct (seccion_actual st) as [s|]; [|discriminate]. eauto.
Qed.

Lemma guardar_en_txt_desde (datos : list str) (f : str) :
  fold_left (fun f dato => f ++ (dato ++ [nl; nl])) datos f =
  f ++ List.concat (List.map (fun dato => dato ++ [nl; nl]) datos).
Proof.
  revert f. induction datos as [|d ds IH]; intros f; simpl.
  - now rewrite app_nil_r.
  - rewrite IH. now rewrite <- app_assoc.
Qed.

(* ===================================================================== *)
(** ** Properties of the validator *)
(* ===================================================================== *)

(** C1. [validar_datos] is meant to report gaps and go on, but when
    DESCRIPCION_QUIRURGICA is present without Hallazgos_operatorios it
    logs the missing field and then indexes it all the same (line 329 is
    an [if], not an [elif]): the run ends in [KeyError]. The record used
    here is the parse of a two-line text. *)
Theorem validar_datos_sin_hallazgos :
  convertir_a_json texto_sin_hallazgos =
    Ok [(DESCRIPCION_QUIRURGICA, [(py "Complicaciones", py "ninguna")])] /\
  validar_datos [(DESCRIPCION_QUIRURGICA, [(py "Complicaciones", py "ninguna")])] =
    ([SeccionFaltante DATOS_BASICOS; SeccionFaltante IDENTIFICACION;
      SeccionFaltante EQUIPO_QUIRURGICO; SeccionFaltante DIAGNOSTICOS;
      SeccionFaltante INTERVENCION; SeccionFaltante PROCEDIMIENTOS;
      HallazgosFaltantes],
     Raise (KeyError Hallazgos_operatorios)).
Proof. split; vm_compute; reflexivity. Qed.

(** C8. When DESCRIPCION_QUIRURGICA is present and holds
    Hallazgos_operatorios, the validator runs to its end, and logs the
    "possibly incomplete" warning once if the value has fewer than 50
    characters and not at all otherwise; in particular not at length 50. *)
Theorem validar_datos_umbral (datos : dict (dict str)) (campos : dict str)
    (hallazgos : str) :
  dict_get DESCRIPCION_QUIRURGICA datos = Some campos ->
  dict_get Hallazgos_operatorios campos = Some hallazgos ->
  exists log,
    validar_datos datos = (log, Ok tt) /\
    (In HallazgosIncompletos log <-> (List.length hallazgos < 50)%nat) /\
    (List.length hallazgos = 50%nat -> ~ In HallazgosIncompletos log) /\
    count_occ aviso_eq_dec log HallazgosIncompletos =
      (if Nat.ltb (List.length hallazgos) 50 then 1 else 0)%nat.
Proof.
  intros Hs Hc. exists (flat_map (avisos_de datos hallazgos) secciones_requeridas).
  assert (C : count_occ aviso_eq_dec
                (flat_map (avisos_de datos hallazgos) secciones_requeridas)
                HallazgosIncompletos =
              (if Nat.ltb (List.length hallazgos) 50 then 1 else 0)%nat).
  { rewrite (cuenta_incompletos datos campos hallazgos Hs). reflexivity. }
  split; [|split; [|split]].
  - unfold validar_datos.
    now rewrite (validar_secciones_presente datos campos hallazgos Hs Hc).
  - rewrite (count_occ_In aviso_eq_dec), C.
    destruct (Nat.ltb_spec (List.length hallazgos) 50); lia.
  - intros L. rewrite (count_occ_In aviso_eq_dec), C, L. simpl. lia.
  - exact C.
Qed.

Lemma validar_datos_umbral_witness :
  let datos := [(DESCRIPCION_QUIRURGICA, [(Hallazgos_operatorios, py "sin novedad")])] in
  dict_get DESCRIPCION_QUIRURGICA datos = Some [(Hallazgos_operatorios, py "sin novedad")] /\
  dict_get Hallazgos_operatorios [(Hallazgos_operatorios, py "sin novedad")]
    = Some (py "sin novedad") /\
  exists log,
    validar_datos datos = (log, Ok tt) /\
    (In HallazgosIncompletos log <-> (List.length (py "sin novedad") < 50)%nat) /\
    (List.length (py "sin novedad") = 50%nat -> ~ In HallazgosIncompletos log) /\
    count_occ aviso_eq_dec log HallazgosIncompletos =
      (if Nat.ltb (List.length (py "sin novedad")) 50 then 1 else 0)%nat.
Proof.
  split; [reflexivity|]. split; [reflexivity|].
  apply (validar_datos_umbral
           [(DESCRIPCION_QUIRURGICA, [(Hallazgos_operatorios, py "sin novedad")])]
           [(Hallazgos_operatorios, py "sin novedad")] (py "sin novedad"));
    reflexivity.
Defined.

(* ===================================================================== *)
(** ** Properties of the aggregator *)
(* ===================================================================== *)

(** C9, as the claim states it, fails on a single document: the file
    holds the document followed by a blank line, the join holds the
    document alone. *)
Lemma guardar_en_txt_no_es_join :
  guardar_en_txt [py "a"] = py "a" ++ [nl; nl] /\
  join [nl; nl] [py "a"] = py "a" /\
  guardar_en_txt [py "a"] <> join [nl; nl] [py "a"].
Proof. repeat split. vm_compute. discriminate. Qed.

(** C9, amended. The file holds every document followed by a double
    newline, in the order given: for a non-empty batch that is the
    documents joined by a double newline plus one trailing double
    newline, for the empty batch the empty text. *)
Theorem guardar_en_txt_terminadores (datos : list str) :
  guardar_en_txt datos = List.concat (List.map (fun dato => dato ++ [nl; nl]) datos) /\
  guardar_en_txt datos =
    match datos with
    | [] => []
    | _ :: _ => join [nl; nl] datos ++ [nl; nl]
    end.
Proof.
  assert (E : guardar_en_txt datos =
              List.concat (List.map (fun dato => dato ++ [nl; nl]) datos)).
  { unfold guardar_en_txt. now rewrite guardar_en_txt_desde. }
  split; [exact E|]. rewrite E. clear E.
  induction datos as [|d ds IH]; [reflexivity|].
  cbn [List.map List.concat]. rewrite IH.
  destruct ds as [|d' ds]; cbn [join].
  - now rewrite app_nil_r.
  - rewrite <- !app_assoc. reflexivity.
Qed.

(* ===================================================================== *)
(** ** Properties of the parser *)
(* ===================================================================== *)

(** C2. The parse of any text returns a tree: neither the [+=] on
    [temp_dict] nor the two-target unpacking can raise. The empty text
    gives the empty tree, and so does any text none of whose lines is a
    section header. *)
Theorem convertir_a_json_total (contenido : str) :
  (exists datos, convertir_a_json contenido = Ok datos) /\
  convertir_a_json [] = Ok [] /\
  (sin_encabezados (split nl contenido) = true ->
   convertir_a_json contenido = Ok []).
Proof.
  split; [|split].
  - destruct (convertir_a_json_ok contenido) as (st & _ & _ & E). eauto.
  - reflexivity.
  - intros H. unfold convertir_a_json, analizar_lineas.
    now rewrite procesar_lineas_sin_seccion.
Qed.

Lemma convertir_a_json_total_witness :
  let contenido := join [nl] [py "Ingreso: 111"; py "texto suelto"; []] in
  sin_encabezados (split nl contenido) = true /\
  convertir_a_json contenido = Ok [].
Proof.
  split; [reflexivity|].
  apply (convertir_a_json_total
           (join [nl] [py "Ingreso: 111"; py "texto suelto"; []])).
  reflexivity.
Defined.

(** C7. Every top-level key of the parsed tree is one of the nine section
    names. *)
Theorem convertir_a_json_secciones (contenido : str) :
  exists datos,
    convertir_a_json contenido = Ok datos /\
    forall k, In k (keys datos) -> In k secciones_requeridas.
Proof.
  destruct (convertir_a_json_ok contenido) as (st & _ & I & E).
  exists (guardar_seccion st). split; [assumption|].
  apply Forall_forall. apply ok_keys. now apply guardar_seccion_ok.
Qed.

(** C6. The sample text with two colon-less lines after
    Hallazgos_operatorios parses to one section with one field whose
    value is the three pieces joined by newlines. *)
Theorem convertir_a_json_multilinea :
  convertir_a_json texto_multilinea =
    Ok [(DESCRIPCION_QUIRURGICA,
         [(Hallazgos_operatorios,
           py "a" ++ [nl] ++ py "line2" ++ [nl] ++ py "line3")])] /\
  (exists datos, convertir_a_json texto_multilinea = Ok datos /\
     campo datos DESCRIPCION_QUIRURGICA Hallazgos_operatorios =
       Some (py "a" ++ [nl] ++ py "line2" ++ [nl] ++ py "line3")).
Proof.
  split; [vm_compute; reflexivity|].
  eexists. split; vm_compute; reflexivity.
Qed.






(** C5, as the claim states it, fails on an indented line: the text
    appended to the open field is the line without its leading and
    trailing whitespace. It also fails on a page footer, which contains a
    colon but is skipped before any field is looked at. *)
Lemma linea_original_no_anexada :
  convertir_a_json (texto_hallazgos_abiertos ++ [nl] ++ py "  Complicaciones: ninguna") =
    Ok [(DESCRIPCION_QUIRURGICA,
         [(Hallazgos_operatorios, py "a" ++ [nl] ++ py "Complicaciones: ninguna")])] /\
  py "a" ++ [nl] ++ py "Complicaciones: ninguna" <>
  py "a" ++ [nl] ++ py "  Complicaciones: ninguna" /\
  convertir_a_json (texto_hallazgos_abiertos ++ [nl] ++ py "Impreso el: 2024-01-01") =
    Ok [(DESCRIPCION_QUIRURGICA, [(Hallazgos_operatorios, py "a")])].
Proof. repeat split; vm_compute; try reflexivity. discriminate. Qed.

(** C5, amended. Wherever in a text a line that is not skipped as blank
    or as a page header or footer, and that splits at its first colon
    into a key without either multiline marker, is read while a multiline
    field is open: the section is DESCRIPCION_QUIRURGICA, the line
    creates no field, and the whole line, stripped of leading and
    trailing whitespace (not just the value), is appended after a newline
    to the open field; when the line ends the text the tree returned
    holds that section. *)
Theorem continuacion_con_dos_puntos (contenido : str) (previo resto : list str)
    (st : estado) (linea0 sub clave valor : str) :
  split nl contenido = previo ++ linea0 :: resto ->
  procesar_lineas inicial previo = Ok st ->
  subseccion_actual st = Some sub ->
  omitida (strip linea0) = false ->
  List.map strip (split1 colon (strip linea0)) = [clave; valor] ->
  contiene Hallazgos_operatorios clave = false ->
  contiene Detalle_quirurgico clave = false ->
  exists anterior st',
    seccion_actual st = Some DESCRIPCION_QUIRURGICA /\
    dict_get sub (temp_dict st) = Some anterior /\
    procesar_linea st linea0 = Ok st' /\
    procesar_lineas inicial (previo ++ [linea0]) = Ok st' /\
    temp_dict st' =
      dict_set sub (anterior ++ [nl] ++ strip linea0) (temp_dict st) /\
    dict_get sub (temp_dict st') = Some (anterior ++ [nl] ++ strip linea0) /\
    keys (temp_dict st') = keys (temp_dict st) /\
    subseccion_actual st' = Some sub /\
    (resto = [] ->
     exists datos,
       convertir_a_json contenido = Ok datos /\
       dict_get DESCRIPCION_QUIRURGICA datos = Some (temp_dict st')).
Proof.
  intros Hl Hst Hsub Ho Hp Hh Hd.
  assert (I : Inv st) by (eapply Inv_lineas; [apply Inv_inicial | eassumption]).
  destruct (continuacion_paso st linea0 sub clave valor I Hsub Ho Hp Hh Hd)
    as (ant & Hg & Hstep).
  destruct (inv_sub st I sub Hsub) as (Hs & _ & Hin).
  assert (Hrun : procesar_lineas inicial (previo ++ [linea0]) =
                 Ok (con_temp st (dict_set sub (ant ++ nl :: strip linea0)
                                           (temp_dict st)))).
  { rewrite procesar_lineas_app, Hst. simpl. now rewrite Hstep. }
  exists ant. eexists. split; [assumption|]. split; [assumption|].
  split; [exact Hstep|]. split; [exact Hrun|]. simpl. split; [reflexivity|].
  split; [apply dict_get_set_eq|]. split; [now apply keys_set_present|].
  split; [assumption|].
  intros ->. eexists. split.
  - unfold convertir_a_json, analizar_lineas. rewrite Hl, Hrun. simpl.
    reflexivity.
  - unfold guardar_seccion. simpl. rewrite Hs.
    rewrite dict_set_no_vacio. simpl. apply dict_get_set_eq.
Qed.

Lemma continuacion_con_dos_puntos_witness :
  let contenido := texto_hallazgos_abiertos ++ [nl] ++ py "  Complicaciones: ninguna" in
  let previo := [DESCRIPCION_QUIRURGICA; py "Hallazgos_operatorios: a"] in
  let linea0 := py "  Complicaciones: ninguna" in
  let st := mkEstado [] (Some DESCRIPCION_QUIRURGICA) (Some Hallazgos_operatorios)
                     [(Hallazgos_operatorios, py "a")] in
  (split nl contenido = previo ++ linea0 :: [] /\
   procesar_lineas inicial previo = Ok st /\
   subseccion_actual st = Some Hallazgos_operatorios /\
   omitida (strip linea0) = false /\
   List.map strip (split1 colon (strip linea0)) = [py "Complicaciones"; py "ninguna"] /\
   contiene Hallazgos_operatorios (py "Complicaciones") = false /\
   contiene Detalle_quirurgico (py "Complicaciones") = false) /\
  exists anterior st',
    seccion_actual st = Some DESCRIPCION_QUIRURGICA /\
    dict_get Hallazgos_operatorios (temp_dict st) = Some anterior /\
    procesar_linea st linea0 = Ok st' /\
    procesar_lineas inicial (previo ++ [linea0]) = Ok st' /\
    temp_dict st' =
      dict_set Hallazgos_operatorios (anterior ++ [nl] ++ strip linea0) (temp_dict st) /\
    dict_get Hallazgos_operatorios (temp_dict st') =
      Some (anterior ++ [nl] ++ strip linea0) /\
    keys (temp_dict st') = keys (temp_dict st) /\
    subseccion_actual st' = Some Hallazgos_operatorios /\
    (@nil str = [] ->
     exists datos,
       convertir_a_json contenido = Ok datos /\
       dict_get DESCRIPCION_QUIRURGICA datos = Some (temp_dict st')).
Proof.
  split; [repeat split|].
  apply (continuacion_con_dos_puntos
           (texto_hallazgos_abiertos ++ [nl] ++ py "  Complicaciones: ninguna")
           [DESCRIPCION_QUIRURGICA; py "Hallazgos_operatorios: a"] []
           (mkEstado [] (Some DESCRIPCION_QUIRURGICA) (Some Hallazgos_operatorios)
                     [(Hallazgos_operatorios, py "a")])
           (py "  Complicaciones: ninguna") Hallazgos_operatorios
           (py "Complicaciones") (py "ninguna")); reflexivity.
Defined.

(* ===================================================================== *)
(** ** Stripping *)
(* ===================================================================== *)

Lemma lstrip_length (s : str) : (List.length (lstrip s) <= List.length s)%nat.
Proof.
  induction s as [|c s IH]; simpl; [lia|]. destruct (isspace c); simpl; lia.
Qed.

(** A string that [lstrip] leaves alone is empty or starts with a
    non-space. *)
Lemma lstrip_fijo (c : char) (s : str) :
  lstrip (c :: s) = c :: s <-> isspace c = false.
Proof.
  simpl. destruct (isspace c) eqn:E; split; try congruence; try reflexivity.
  intros H. pose proof (lstrip_length s) as L. rewrite H in L. simpl in L. lia.
Qed.

Lemma lstrip_idem (s : str) : lstrip (lstrip s) = lstrip s.
Proof.
  induction s as [|c s IH]; simpl; [reflexivity|].
  destruct (isspace c) eqn:E; [assumption|]. simpl. now rewrite E.
Qed.

Lemma lstrip_app (a b : str) :
  lstrip (a ++ b) = if forallb isspace a then lstrip b else lstrip a ++ b.
Proof.
  induction a as [|c a IH]; simpl; [reflexivity|].
  destruct (isspace c); simpl; [assumption | reflexivity].
Qed.

(** [rstrip] keeps a leading non-space in place. *)
Lemma rstrip_cons (c : char) (s : str) :
  isspace c = false -> rstrip (c :: s) = c :: rstrip s.
Proof.
  intros E. unfold rstrip. simpl. rewrite lstrip_app.
  destruct (forallb isspace (rev s)) eqn:F.
  - simpl. rewrite E. simpl.
    assert (L : lstrip (rev s) = []).
    { clear -F. induction (rev s) as [|x r IH]; simpl in *; [reflexivity|].
      apply andb_true_iff in F as [-> F]. now apply IH. }
    now rewrite L.
  - rewrite rev_app_distr. reflexivity.
Qed.

(** Stripping twice is stripping once. *)
Lemma strip_idem (s : str) : strip (strip s) = strip s.
Proof.
  unfold strip. set (t := lstrip s).
  assert (Ht : lstrip t = t) by apply lstrip_idem.
  assert (L : lstrip (rstrip t) = rstrip t).
  { destruct t as [|c t']; [reflexivity|].
    apply lstrip_fijo in Ht. rewrite rstrip_cons by assumption.
    now apply lstrip_fijo. }
  rewrite L. unfold rstrip. now rewrite rev_involutive, lstrip_idem.
Qed.

(** A string whose first and last characters are not spaces is its own
    strip. *)
Lemma strip_limpia (s : str) :
  lstrip s = s -> lstrip (rev s) = rev s -> strip s = s.
Proof.
  intros A B. unfold strip, rstrip. now rewrite A, B, rev_involutive.
Qed.

Lemma strip_es_limpia (s : str) :
  strip s = s -> lstrip s = s /\ lstrip (rev s) = rev s.
Proof.
  intros H. split.
  - destruct s as [|c s']; [reflexivity|]. apply lstrip_fijo.
    destruct (isspace c) eqn:E; [|reflexivity]. exfalso.
    assert (L : (List.length (strip (c :: s')) <= List.length s')%nat).
    { unfold strip, rstrip. simpl. rewrite E, length_rev.
      etransitivity; [apply lstrip_length|]. rewrite length_rev.
      apply lstrip_length. }
    rewrite H in L. simpl in L. lia.
  - rewrite <- H at 2. unfold strip, rstrip. rewrite rev_involutive.
    rewrite <- H at 1. unfold strip, rstrip. rewrite rev_involutive.
    apply lstrip_idem.
Qed.

Lemma strip_espacio (s : str) : strip (32 :: s) = strip s.
Proof. reflexivity. Qed.

Lemma procesar_linea_strip (st : estado) (linea0 : str) :
  procesar_linea st (strip linea0) = procesar_linea st linea0.
Proof. unfold procesar_linea. now rewrite strip_idem. Qed.

(* ===================================================================== *)
(** ** The cases of one iteration *)
(* ===================================================================== *)

Lemma procesar_linea_forma (st : estado) (linea0 : str) :
  Inv st ->
  exists st', procesar_linea st linea0 = Ok st' /\ forma_paso st linea0 st'.
Proof.
  intros I. unfold procesar_linea.
  destruct (es_seccion (strip linea0)) eqn:Es.
  { pose proof Es as Es'. apply es_seccion_in, seccion_no_omitida in Es'.
    rewrite Es'. eexists. split; [reflexivity|]. now constructor. }
  destruct (omitida (strip linea0)) eqn:Eo.
  { eexists. split; [reflexivity|]. now constructor. }
  destruct (verdadero (seccion_actual st) && contiene [colon] (strip linea0)) eqn:Ec.
  { apply andb_true_iff in Ec as [Ev Ec].
    destruct (unpack_linea _ Ec) as (a & b & Hsp & _ & ->). simpl.
    assert (Hp : List.map strip (split1 colon (strip linea0)) = [strip a; strip b])
      by now rewrite Hsp.
    destruct (seccion_actual st) as [s|] eqn:Hs; [|discriminate].
    destruct (str_eqb s DESCRIPCION_QUIRURGICA) eqn:Ed.
    - apply str_eqb_eq in Ed. subst s.
      destruct (contiene Hallazgos_operatorios (strip a)) eqn:Eh.
      { eexists. split; [reflexivity|].
        assert (T : tiene_marcador (strip a) = true)
          by (unfold tiene_marcador; now rewrite Eh).
        pose proof (fp_abrir st linea0 (strip a) (strip b) Es Eo Hs Hp T) as F.
        unfold marcador_de in F. now rewrite Eh in F. }
      destruct (contiene Detalle_quirurgico (strip a)) eqn:Edq.
      { eexists. split; [reflexivity|].
        assert (T : tiene_marcador (strip a) = true)
          by (unfold tiene_marcador; now rewrite Eh, Edq).
        pose proof (fp_abrir st linea0 (strip a) (strip b) Es Eo Hs Hp T) as F.
        unfold marcador_de in F. now rewrite Eh in F. }
      destruct (subseccion_actual st) as [sub|] eqn:Hsub.
      + destruct (inv_sub st I sub Hsub) as (_ & Hk & _).
        assert (Hnv : no_vacia sub = true) by (destruct Hk; subst; reflexivity).
        rewrite Hnv.
        destruct (acumular_ok st sub (strip linea0) I Hsub) as (ant & Hg & ->).
        eexists. split; [reflexivity|]. eapply fp_acumular; eauto.
      + eexists. split; [reflexivity|]. eapply fp_campo; eauto.
        right. split; [assumption|]. unfold tiene_marcador. now rewrite Eh, Edq.
    - eexists. split; [reflexivity|]. eapply fp_campo; eauto.
      left. now apply str_eqb_neq. }
  destruct (verdadero (seccion_actual st) && verdadero (subseccion_actual st)
            && no_vacia (strip linea0));
    [|eexists; split; [reflexivity | now constructor]].
  destruct (subseccion_actual st) as [sub|] eqn:Hsub;
    [|eexists; split; [reflexivity | now constructor]].
  destruct (acumular_ok st sub (strip linea0) I Hsub) as (ant & Hg & ->).
  eexists. split; [reflexivity|]. eapply fp_acumular; eauto.
Qed.

(** An induction principle for reachable states: what holds initially and
    is kept by every case of an iteration holds after any lines. *)
Lemma alcanzable_ind (P : estado -> Prop) :
  P inicial ->
  (forall st linea0 st', Inv st -> P st -> forma_paso st linea0 st' -> P st') ->
  forall lineas st, procesar_lineas inicial lineas = Ok st -> P st.
Proof.
  intros P0 Pstep.
  assert (G : forall lineas st0 st, Inv st0 -> P st0 ->
              procesar_lineas st0 lineas = Ok st -> P st).
  { induction lineas as [|l ls IH]; intros st0 st I0 H0; simpl.
    - now intros [= <-].
    - destruct (procesar_linea_forma st0 l I0) as (st1 & E1 & F1).
      rewrite E1. simpl.
      destruct (procesar_linea_inv st0 l I0) as (st1' & E1' & I1).
      assert (st1' = st1) by congruence. subst st1'.
      intros Hr. apply (IH st1 st I1); [|exact Hr].
      apply (Pstep st0 l st1 I0 H0 F1). }
  intros lineas st. apply G; [apply Inv_inicial | assumption].
Qed.

(* ===================================================================== *)
(** ** The keys of DESCRIPCION_QUIRURGICA *)
(* ===================================================================== *)

Lemma startswith_refl (p : str) : startswith p p = true.
Proof. induction p as [|c p IH]; simpl; [reflexivity|]. now rewrite N.eqb_refl. Qed.

Lemma contiene_refl (p : str) : contiene p p = true.
Proof. destruct p; simpl; [reflexivity|]. now rewrite N.eqb_refl, startswith_refl. Qed.

Lemma es_marcador_eq (k : str) :
  es_marcador k = true <-> k = Hallazgos_operatorios \/ k = Detalle_quirurgico.
Proof. unfold es_marcador. now rewrite orb_true_iff, !str_eqb_eq. Qed.

Lemma es_marcador_tiene (k : str) : es_marcador k = true -> tiene_marcador k = true.
Proof.
  intros H. apply es_marcador_eq in H as [->| ->]; unfold tiene_marcador;
    rewrite contiene_refl; [reflexivity | apply orb_true_r].
Qed.

Lemma marcador_de_es (clave : str) : es_marcador (marcador_de clave) = true.
Proof. unfold marcador_de. now destruct (contiene Hallazgos_operatorios clave). Qed.

Lemma forma_dq_sin (ks : list str) :
  forallb sin_marcador ks = true -> forma_dq ks = true.
Proof.
  induction ks as [|k r IH]; simpl; [reflexivity|]. intros H.
  apply andb_true_iff in H as [Hk Hr].
  destruct (es_marcador k) eqn:E.
  - apply es_marcador_tiene in E. unfold sin_marcador in Hk. now rewrite E in Hk.
  - rewrite Hk. now apply IH.
Qed.

Lemma forma_dq_snoc (ks : list str) (m : str) :
  forma_dq ks = true -> es_marcador m = true -> forma_dq (ks ++ [m]) = true.
Proof.
  intros H Hm. induction ks as [|k r IH]; simpl in *.
  - now rewrite Hm.
  - destruct (es_marcador k).
    + rewrite forallb_app, H. simpl. now rewrite Hm.
    + apply andb_true_iff in H as [-> Hr]. now apply IH.
Qed.

Lemma forma_dq_set_marcador (m v : str) (t : dict str) :
  forma_dq (keys t) = true -> es_marcador m = true ->
  forma_dq (keys (dict_set m v t)) = true.
Proof.
  intros H Hm. destruct (in_dec (list_eq_dec N.eq_dec) m (keys t)) as [I|I].
  - now rewrite keys_set_present.
  - rewrite keys_set_absent by assumption. now apply forma_dq_snoc.
Qed.

Lemma sin_marcador_set (k v : str) (t : dict str) :
  forallb sin_marcador (keys t) = true -> sin_marcador k = true ->
  forallb sin_marcador (keys (dict_set k v t)) = true.
Proof.
  intros H Hk. destruct (in_dec (list_eq_dec N.eq_dec) k (keys t)) as [I|I].
  - now rewrite keys_set_present.
  - rewrite keys_set_absent, forallb_app, H by assumption. simpl. now rewrite Hk.
Qed.

(** Read as a statement about positions in the key list. *)
Lemma forma_dq_spec (ks : list str) :
  forma_dq ks = true ->
  (forall k, In k ks -> tiene_marcador k = true -> es_marcador k = true) /\
  (forall pre k post, ks = pre ++ k :: post -> es_marcador k = true ->
     forall k', In k' post -> es_marcador k' = true).
Proof.
  induction ks as [|k0 r IH]; simpl; intros H.
  - split; [tauto|]. intros [|] ? ? ?; discriminate.
  - destruct (es_marcador k0) eqn:E.
    + rewrite forallb_forall in H. split.
      * intros k [<-|Hk] _; auto.
      * intros [|p pre] k post Heq Hk k' Hin; injection Heq as -> ->.
        -- auto.
        -- apply H. apply in_or_app. right. now right.
    + apply andb_true_iff in H as [Hs Hr]. destruct (IH Hr) as [A B]. split.
      * intros k [<-|Hk] T; [|auto]. unfold sin_marcador in Hs.
        now rewrite T in Hs.
      * intros [|p pre] k post Heq Hk k' Hin; injection Heq as -> ->.
        -- congruence.
        -- eapply B; eauto.
Qed.

Lemma dict_get_guardar (st : estado) (k : str) :
  dict_get k (guardar_seccion st) =
  match seccion_actual st with
  | Some s =>
      if no_vacia s && no_vacio (temp_dict st) && str_eqb k s
      then Some (temp_dict st) else dict_get k (datos_json st)
  | None => dict_get k (datos_json st)
  end.
Proof.
  unfold guardar_seccion. destruct (seccion_actual st) as [s|]; [|reflexivity].
  destruct (no_vacia s && no_vacio (temp_dict st)); simpl; [|reflexivity].
  apply dict_get_set.
Qed.

Lemma InvDQ_guardar (st : estado) (campos : dict str) :
  InvDQ st ->
  dict_get DESCRIPCION_QUIRURGICA (guardar_seccion st) = Some campos ->
  forma_dq (keys campos) = true.
Proof.
  intros [A B C]. rewrite dict_get_guardar.
  destruct (seccion_actual st) as [s|]; [|apply C].
  destruct (no_vacia s && no_vacio (temp_dict st)
            && str_eqb DESCRIPCION_QUIRURGICA s) eqn:E; [|apply C].
  apply andb_true_iff in E as [_ E]. apply str_eqb_eq in E. subst s.
  intros [= <-]. now apply A.
Qed.

Lemma InvDQ_alcanzable (lineas : list str) (st : estado) :
  procesar_lineas inicial lineas = Ok st -> InvDQ st.
Proof.
  apply alcanzable_ind.
  - split; simpl; discriminate.
  - intros st0 l st1 I [A B C] F. inversion F; subst; clear F.
    + now split.
    + split; simpl; try reflexivity.
      intros campos. now apply InvDQ_guardar.
    + split; simpl; auto.
      * intros _. apply forma_dq_set_marcador; [auto | apply marcador_de_es].
      * discriminate.
    + split; [intros Hs | intros Hs Hn | exact C];
        unfold con_temp in *; cbn [temp_dict seccion_actual subseccion_actual] in *;
        rewrite keys_set_present by (eapply dict_get_in; eauto); auto.
    + match goal with H : _ \/ _ |- _ => rename H into Hc end.
      split; [intros Hs | intros Hs Hn | exact C];
        unfold con_temp in *; cbn [temp_dict seccion_actual subseccion_actual] in *;
        (destruct Hc as [N|[Hn' Hm]]; [congruence|]).
      * apply forma_dq_sin. apply sin_marcador_set; [auto|].
        unfold sin_marcador. now rewrite Hm.
      * apply sin_marcador_set; [auto|]. unfold sin_marcador. now rewrite Hm.
Qed.

(* ===================================================================== *)
(** ** Skipped lines and the lines of a batch file *)
(* ===================================================================== *)

Lemma procesar_linea_omitida (st : estado) (linea0 : str) :
  omitida (strip linea0) = true -> procesar_linea st linea0 = Ok st.
Proof. intros H. unfold procesar_linea. now rewrite H. Qed.

Lemma procesar_lineas_quitar (lineas : list str) (st : estado) :
  procesar_lineas st (quitar_omitidas lineas) = procesar_lineas st lineas.
Proof.
  revert st. induction lineas as [|l ls IH]; intros st; simpl; [reflexivity|].
  destruct (omitida (strip l)) eqn:E; simpl.
  - rewrite procesar_linea_omitida by assumption. simpl. apply IH.
  - destruct (procesar_linea st l); simpl; [apply IH | reflexivity].
Qed.

Lemma split_sin_sep (sep : char) (s : str) : ~ In sep s -> split sep s = [s].
Proof.
  induction s as [|c s IH]; simpl; [reflexivity|]. intros H.
  destruct (c =? sep) eqn:E; [apply N.eqb_eq in E; tauto|].
  rewrite IH by tauto. reflexivity.
Qed.

(** The lines of the file written for a batch: the lines of every
    document, a blank line after each, and a last blank line when the
    batch is not empty. *)
Lemma split_guardar_en_txt (datos : list str) :
  quitar_omitidas (split nl (guardar_en_txt datos)) =
  quitar_omitidas (flat_map (split nl) datos).
Proof.
  unfold guardar_en_txt. rewrite guardar_en_txt_desde. simpl.
  unfold quitar_omitidas.
  induction datos as [|d ds IH]; [reflexivity|].
  cbn [List.map List.concat flat_map].
  replace ((d ++ [nl; nl]) ++ List.concat (List.map (fun dato => dato ++ [nl; nl]) ds))
    with (d ++ nl :: nl :: List.concat (List.map (fun dato => dato ++ [nl; nl]) ds))
    by now rewrite <- app_assoc.
  rewrite split_app, !filter_app. f_equal.
  cbn [split]. rewrite N.eqb_refl. cbn [filter].
  change (omitida (strip [])) with true. cbn [negb]. exact IH.
Qed.

(* ===================================================================== *)
(** ** The fields of a section *)
(* ===================================================================== *)

Lemma con_temp_mismo (st : estado) : con_temp st (temp_dict st) = st.
Proof. now destruct st. Qed.

(** In a section other than DESCRIPCION_QUIRURGICA, lines up to the next
    header only assign fields. *)
Lemma procesar_seccion_simple (lineas : list str) (st : estado) (s : str) :
  seccion_actual st = Some s -> no_vacia s = true ->
  s <> DESCRIPCION_QUIRURGICA -> subseccion_actual st = None ->
  sin_encabezados lineas = true ->
  procesar_lineas st lineas =
    Ok (con_temp st (campos_de_lineas lineas (temp_dict st))).
Proof.
  intros Hs Hnv Hd. revert st Hs.
  induction lineas as [|l ls IH]; intros st Hs Hsub Hh; simpl.
  - now rewrite con_temp_mismo.
  - apply andb_true_iff in Hh as [Hl Hls]. apply negb_true_iff in Hl.
    assert (E : procesar_linea st l =
                Ok (con_temp st (match campo_de_linea l with
                                 | Some (clave, valor) => dict_set clave valor (temp_dict st)
                                 | None => temp_dict st
                                 end))).
    { unfold procesar_linea, campo_de_linea. rewrite Hl, Hs, Hsub. simpl.
      rewrite Hnv. simpl.
      destruct (omitida (strip l)); [now rewrite con_temp_mismo|].
      destruct (contiene [colon] (strip l)) eqn:Ec; [|now rewrite con_temp_mismo].
      destruct (unpack_linea _ Ec) as (a & b & Hsp & _ & ->). rewrite Hsp. simpl.
      apply str_eqb_neq in Hd. now rewrite Hd. }
    rewrite E. simpl. rewrite IH; auto.
Qed.

(* ===================================================================== *)
(** ** Writing a tree in the labelled format and reading it back *)
(* ===================================================================== *)

Lemma tiene_In (c : char) (s : str) : tiene c s = true <-> In c s.
Proof.
  unfold tiene. rewrite existsb_exists. split.
  - intros (x & Hx & E). apply N.eqb_eq in E. now subst.
  - intros H. exists c. split; [assumption | apply N.eqb_refl].
Qed.

Lemma tiene_false (c : char) (s : str) : tiene c s = false <-> ~ In c s.
Proof.
  rewrite <- tiene_In. destruct (tiene c s); split; congruence.
Qed.

Lemma distintas_NoDup (ks : list str) : distintas ks = true -> NoDup ks.
Proof.
  induction ks as [|k r IH]; simpl; [constructor|]. intros H.
  apply andb_true_iff in H as [Hk Hr]. constructor; [|now apply IH].
  intros I. apply negb_true_iff in Hk.
  assert (existsb (str_eqb k) r = true); [|congruence].
  apply existsb_exists. exists k. split; [assumption | apply str_eqb_refl].
Qed.

Lemma split1_app (sep : char) (a b : str) :
  ~ In sep a -> split1 sep (a ++ sep :: b) = [a; b].
Proof.
  induction a as [|c a IH]; simpl; intros H.
  - now rewrite N.eqb_refl.
  - destruct (c =? sep) eqn:E; [apply N.eqb_eq in E; tauto|].
    rewrite IH by tauto. reflexivity.
Qed.

Lemma lstrip_no_vacia_app (a b : str) :
  a <> [] -> lstrip a = a -> lstrip (a ++ b) = a ++ b.
Proof.
  destruct a as [|c a]; [congruence|]. intros _ H.
  apply lstrip_fijo in H. simpl. now rewrite H.
Qed.

(** A well-formed field line reads back as its key and value. *)
Lemma campo_de_linea_de (kv : str * str) :
  campo_ok kv = true -> campo_de_linea (linea_de kv) = Some kv.
Proof.
  destruct kv as [k v]. unfold campo_ok. cbn [fst snd].
  rewrite !andb_true_iff, !negb_true_iff, !str_eqb_eq, !tiene_false.
  intros ((((((((Hk & Hv) & Sk) & Sv) & Ck) & Nk) & Nv) & Pg) & Im).
  assert (Kne : k <> []) by (destruct k; [discriminate | congruence]).
  assert (Vne : v <> []) by (destruct v; [discriminate | congruence]).
  destruct (strip_es_limpia k Sk) as [Lk _].
  destruct (strip_es_limpia v Sv) as [_ Rv].
  assert (Rne : rev v <> []).
  { intros E. apply (f_equal (@rev char)) in E.
    rewrite rev_involutive in E. now apply Vne. }
  assert (St : strip (linea_de (k, v)) = linea_de (k, v)).
  { apply strip_limpia; unfold linea_de; cbn [fst snd].
    - now apply lstrip_no_vacia_app.
    - rewrite !rev_app_distr, <- !app_assoc. now apply lstrip_no_vacia_app. }
  unfold campo_de_linea. rewrite St. unfold omitida. rewrite Pg, Im.
  assert (Hne : no_vacia (linea_de (k, v)) = true).
  { unfold linea_de. cbn [fst snd]. destruct k; [discriminate | reflexivity]. }
  rewrite Hne. cbn [negb orb].
  assert (Hc : contiene [colon] (linea_de (k, v)) = true).
  { apply contiene_char. unfold linea_de. cbn [fst snd].
    apply in_or_app. right. now left. }
  rewrite Hc. unfold linea_de. cbn [fst snd app].
  rewrite split1_app by assumption. cbn [List.map].
  now rewrite strip_espacio, Sk, Sv.
Qed.

Lemma dict_set_absent {V} (k : str) (v : V) (t : dict V) :
  ~ In k (keys t) -> dict_set k v t = t ++ [(k, v)].
Proof.
  induction t as [|[k' v'] t IH]; simpl; intros H; [reflexivity|].
  destruct (str_eqb k k') eqn:E.
  - apply str_eqb_eq in E. subst. tauto.
  - rewrite IH by tauto. reflexivity.
Qed.

Lemma campos_de_lineas_app (a b : list str) (t : dict str) :
  campos_de_lineas (a ++ b) t = campos_de_lineas b (campos_de_lineas a t).
Proof. unfold campos_de_lineas. apply fold_left_app. Qed.

(** Reading the field lines of distinct well-formed fields appends them
    in order. *)
Lemma campos_de_lineas_de (d t : dict str) :
  forallb campo_ok d = true -> NoDup (keys t ++ keys d) ->
  campos_de_lineas (List.map linea_de d) t = t ++ d.
Proof.
  revert t. induction d as [|[k v] d IH]; intros t Hok Hnd; simpl.
  - now rewrite app_nil_r.
  - apply andb_true_iff in Hok as [Hkv Hd].
    unfold campos_de_lineas in *. simpl. rewrite campo_de_linea_de by assumption.
    simpl in Hnd. pose proof (NoDup_remove_2 _ _ _ Hnd) as Hk.
    rewrite dict_set_absent by (intros I; apply Hk; apply in_or_app; now left).
    rewrite IH; [now rewrite <- app_assoc | assumption |].
    unfold keys. rewrite map_app. simpl. rewrite <- app_assoc. exact Hnd.
Qed.

Lemma linea_de_no_encabezado (kv : str * str) :
  campo_ok kv = true -> es_seccion (strip (linea_de kv)) = false.
Proof.
  intros H. pose proof (campo_de_linea_de kv H) as E.
  unfold campo_de_linea in E.
  destruct (es_seccion (strip (linea_de kv))) eqn:Es; [|reflexivity].
  apply es_seccion_in in Es. rewrite (seccion_no_omitida _ Es) in E.
  now rewrite (seccion_sin_colon _ Es) in E.
Qed.

Lemma seccion_strip (s : str) : In s secciones_requeridas -> strip s = s.
Proof. intros H. por_seccion H. Qed.

Lemma seccion_sin_nl (s : str) : In s secciones_requeridas -> tiene nl s = false.
Proof. intros H. por_seccion H. Qed.

(** Reading one section in the labelled format commits what was open and
    leaves that section open with exactly its fields. *)
Lemma procesar_bloque (st : estado) (e : str * dict str) :
  seccion_ok e = true ->
  procesar_lineas st (bloque e) =
    Ok (mkEstado (guardar_seccion st) (Some (fst e)) None (snd e)).
Proof.
  destruct e as [s d]. unfold seccion_ok, bloque. cbn [fst snd].
  rewrite !andb_true_iff, negb_true_iff, str_eqb_neq.
  intros ((((Hs & Hd) & Hne) & Hnd) & Hok).
  pose proof Hs as Hin. apply es_seccion_in in Hin.
  cbn [procesar_lineas].
  rewrite procesar_encabezado by now rewrite (seccion_strip _ Hin).
  rewrite (seccion_strip _ Hin). cbn [bind].
  rewrite (procesar_seccion_simple _ _ s); try reflexivity.
  - cbn [temp_dict]. rewrite campos_de_lineas_app.
    rewrite campos_de_lineas_de; [reflexivity | assumption |].
    simpl. now apply distintas_NoDup.
  - now apply seccion_no_vacia.
  - assumption.
  - unfold sin_encabezados. rewrite forallb_app. apply andb_true_iff. split.
    + rewrite forallb_forall in *. intros l Hl.
      apply in_map_iff in Hl as (kv & <- & Hkv).
      apply negb_true_iff. apply linea_de_no_encabezado. now apply Hok.
    + reflexivity.
Qed.

Lemma guardar_seccion_nueva (datos : dict (dict str)) (s : str) (d : dict str) :
  no_vacia s = true -> no_vacio d = true -> ~ In s (keys datos) ->
  guardar_seccion (mkEstado datos (Some s) None d) = datos ++ [(s, d)].
Proof.
  intros Hs Hd Hn. unfold guardar_seccion. simpl. rewrite Hs, Hd. simpl.
  now apply dict_set_absent.
Qed.

Lemma procesar_bloques (r : dict (dict str)) (st : estado) :
  forallb seccion_ok r = true ->
  NoDup (keys (guardar_seccion st) ++ keys r) ->
  exists st', procesar_lineas st (flat_map bloque r) = Ok st' /\
              guardar_seccion st' = guardar_seccion st ++ r.
Proof.
  revert st. induction r as [|[s d] r IH]; intros st Hok Hnd.
  - exists st. simpl. now rewrite app_nil_r.
  - cbn [forallb] in Hok. apply andb_true_iff in Hok as [He Hr].
    cbn [flat_map].
    rewrite procesar_lineas_app, procesar_bloque by assumption. cbn [bind fst snd].
    pose proof He as He'. unfold seccion_ok in He'. cbn [fst snd] in He'.
    rewrite !andb_true_iff in He'. destruct He' as ((((Hs & _) & Hne) & _) & _).
    apply es_seccion_in in Hs.
    assert (G : guardar_seccion (mkEstado (guardar_seccion st) (Some s) None d)
                = guardar_seccion st ++ [(s, d)]).
    { apply guardar_seccion_nueva; [now apply seccion_no_vacia | assumption |].
      simpl in Hnd. apply NoDup_remove_2 in Hnd. intros I. apply Hnd.
      apply in_or_app. now left. }
    destruct (IH (mkEstado (guardar_seccion st) (Some s) None d) Hr)
      as (st' & E & G').
    + rewrite G. unfold keys. rewrite map_app. simpl. rewrite <- app_assoc.
      exact Hnd.
    + exists st'. split; [assumption|]. rewrite G', G. now rewrite <- app_assoc.
Qed.

Lemma split_join (lineas : list str) :
  lineas <> [] -> forallb (fun l => negb (tiene nl l)) lineas = true ->
  split nl (join [nl] lineas) = lineas.
Proof.
  induction lineas as [|l ls IH]; [congruence|]. intros _ H. simpl in H.
  apply andb_true_iff in H as [Hl Hls]. apply negb_true_iff, tiene_false in Hl.
  destruct ls as [|l' ls].
  - simpl. now apply split_sin_sep.
  - change (join [nl] (l :: l' :: ls)) with (l ++ nl :: join [nl] (l' :: ls)).
    rewrite split_app, split_sin_sep by assumption.
    rewrite IH; [reflexivity | discriminate | assumption].
Qed.

Lemma bloque_sin_nl (e : str * dict str) :
  seccion_ok e = true ->
  forallb (fun l => negb (tiene nl l)) (bloque e) = true.
Proof.
  destruct e as [s d]. unfold seccion_ok, bloque. cbn [fst snd].
  rewrite !andb_true_iff. intros ((((Hs & _) & _) & _) & Hok).
  apply es_seccion_in in Hs. cbn [forallb].
  rewrite (seccion_sin_nl _ Hs). cbn [negb andb].
  rewrite forallb_app. apply andb_true_iff. split; [|reflexivity].
  rewrite forallb_forall in *. intros l Hl.
  apply in_map_iff in Hl as ([k v] & <- & Hkv). specialize (Hok _ Hkv).
  unfold campo_ok in Hok. cbn [fst snd] in Hok.
  rewrite !andb_true_iff, !negb_true_iff in Hok.
  destruct Hok as ((((((((_ & _) & _) & _) & _) & Nk) & Nv) & _) & _).
  apply negb_true_iff, tiene_false. unfold linea_de. cbn [fst snd].
  apply tiene_false in Nk, Nv. intros I.
  apply in_app_or in I as [I|I]; [tauto|]. simpl in I.
  destruct I as [I|[I|I]]; [discriminate | discriminate | tauto].
Qed.

(* ===================================================================== *)
(** ** The validator, section by section *)
(* ===================================================================== *)

Lemma validar_secciones_app (datos : dict (dict str)) (a b : list str)
    (log : list aviso) :
  validar_secciones datos (a ++ b) log =
  luego (validar_secciones datos a) (fun _ => validar_secciones datos b) log.
Proof.
  revert log. induction a as [|s a IH]; intros log; simpl.
  - reflexivity.
  - unfold luego. destruct (validar_seccion datos s log) as [log' [[]|e]].
    + rewrite IH. reflexivity.
    + reflexivity.
Qed.

Lemma validar_seccion_otra (datos : dict (dict str)) (s : str) (log : list aviso) :
  s <> DESCRIPCION_QUIRURGICA ->
  validar_seccion datos s log = (log ++ faltante datos s, Ok tt).
Proof.
  intros N. unfold validar_seccion, faltante.
  destruct (dict_in s datos); simpl; [|reflexivity].
  apply str_eqb_neq in N. rewrite N. unfold devolver. now rewrite app_nil_r.
Qed.

Lemma validar_secciones_otras (datos : dict (dict str)) (secciones : list str)
    (log : list aviso) :
  ~ In DESCRIPCION_QUIRURGICA secciones ->
  validar_secciones datos secciones log =
    (log ++ flat_map (faltante datos) secciones, Ok tt).
Proof.
  revert log. induction secciones as [|s ss IH]; intros log N; simpl.
  - unfold devolver. now rewrite app_nil_r.
  - unfold luego. rewrite validar_seccion_otra by (simpl in N; intuition congruence).
    rewrite IH by (simpl in N; tauto). now rewrite app_assoc.
Qed.

(** The three outcomes of the check of DESCRIPCION_QUIRURGICA. *)
Lemma validar_seccion_dq (datos : dict (dict str)) (log : list aviso) :
  validar_seccion datos DESCRIPCION_QUIRURGICA log =
  match dict_get DESCRIPCION_QUIRURGICA datos with
  | None => (log ++ [SeccionFaltante DESCRIPCION_QUIRURGICA], Ok tt)
  | Some campos =>
      match dict_get Hallazgos_operatorios campos with
      | None => (log ++ [HallazgosFaltantes], Raise (KeyError Hallazgos_operatorios))
      | Some hallazgos => (log ++ incompleto hallazgos, Ok tt)
      end
  end.
Proof.
  unfold validar_seccion, dict_in.
  destruct (dict_get DESCRIPCION_QUIRURGICA datos) as [campos|] eqn:E; simpl;
    [|reflexivity].
  unfold luego, evaluar, dict_index, cuando, dict_in. rewrite E.
  destruct (dict_get Hallazgos_operatorios campos) as [h|]; simpl.
  - unfold incompleto. destruct (Nat.ltb (List.length h) 50);
      unfold warning, devolver; [reflexivity | now rewrite app_nil_r].
  - reflexivity.
Qed.

Lemma secciones_partidas :
  secciones_requeridas = antes_dq ++ DESCRIPCION_QUIRURGICA :: despues_dq.
Proof. reflexivity. Qed.

Lemma antes_sin_dq : ~ In DESCRIPCION_QUIRURGICA antes_dq.
Proof.
  unfold antes_dq. simpl. intros H.
  repeat (destruct H as [H|H]; [vm_compute in H; discriminate|]). exact H.
Qed.

Lemma despues_sin_dq : ~ In DESCRIPCION_QUIRURGICA despues_dq.
Proof.
  unfold despues_dq. simpl. intros H.
  repeat (destruct H as [H|H]; [vm_compute in H; discriminate|]). exact H.
Qed.

(** The whole run of the validator, by what DESCRIPCION_QUIRURGICA
    holds. *)
Lemma validar_datos_casos (datos : dict (dict str)) :
  validar_datos datos =
  match dict_get DESCRIPCION_QUIRURGICA datos with
  | None =>
      (flat_map (faltante datos) antes_dq
         ++ [SeccionFaltante DESCRIPCION_QUIRURGICA]
         ++ flat_map (faltante datos) despues_dq, Ok tt)
  | Some campos =>
      match dict_get Hallazgos_operatorios campos with
      | None =>
          (flat_map (faltante datos) antes_dq ++ [HallazgosFaltantes],
           Raise (KeyError Hallazgos_operatorios))
      | Some hallazgos =>
          (flat_map (faltante datos) antes_dq ++ incompleto hallazgos
             ++ flat_map (faltante datos) despues_dq, Ok tt)
      end
  end.
Proof.
  unfold validar_datos. rewrite secciones_partidas, validar_secciones_app.
  unfold luego at 1. rewrite validar_secciones_otras by apply antes_sin_dq.
  cbn [app validar_secciones]. unfold luego at 1. rewrite validar_seccion_dq.
  destruct (dict_get DESCRIPCION_QUIRURGICA datos) as [campos|].
  - destruct (dict_get Hallazgos_operatorios campos) as [h|]; [|reflexivity].
    rewrite validar_secciones_otras by apply despues_sin_dq.
    now rewrite <- app_assoc.
  - rewrite validar_secciones_otras by apply despues_sin_dq.
    now rewrite <- app_assoc.
Qed.

(* ===================================================================== *)
(** ** Further properties of the parser *)
(* ===================================================================== *)

Lemma procesar_lineas_strip (lineas : list str) (st : estado) :
  procesar_lineas st (List.map strip lineas) = procesar_lineas st lineas.
Proof.
  revert st. induction lineas as [|l ls IH]; intros st; simpl; [reflexivity|].
  rewrite procesar_linea_strip.
  destruct (procesar_linea st l); simpl; [apply IH | reflexivity].
Qed.

Lemma analizar_lineas_utiles (contenido : str) :
  convertir_a_json contenido = analizar_lineas (lineas_utiles contenido).
Proof.
  unfold convertir_a_json, analizar_lineas, lineas_utiles.
  now rewrite procesar_lineas_quitar, procesar_lineas_strip.
Qed.

(** X1. The parse of a text depends only on its lines taken without
    leading and trailing whitespace and without the blank and page
    header/footer lines: two texts that agree on those parse alike. *)
Theorem convertir_a_json_lineas_utiles (contenido contenido' : str) :
  lineas_utiles contenido = lineas_utiles contenido' ->
  convertir_a_json contenido = convertir_a_json contenido'.
Proof. intros H. now rewrite !analizar_lineas_utiles, H. Qed.

Lemma convertir_a_json_lineas_utiles_witness :
  let contenido := join [nl] [py "  DATOS_BASICOS  "; []; py "   Ingreso: 111";
                              py "P" ++ [225] ++ py "gina 1 de 2"] in
  let contenido' := join [nl] [DATOS_BASICOS; py "Ingreso: 111"] in
  lineas_utiles contenido = lineas_utiles contenido' /\
  convertir_a_json contenido = convertir_a_json contenido'.
Proof.
  split; [reflexivity|].
  apply (convertir_a_json_lineas_utiles
           (join [nl] [py "  DATOS_BASICOS  "; []; py "   Ingreso: 111";
                       py "P" ++ [225] ++ py "gina 1 de 2"])
           (join [nl] [DATOS_BASICOS; py "Ingreso: 111"])).
  reflexivity.
Defined.

(** X2. Whatever comes before the first section header is discarded: a
    text parses as the text that starts at any line up to which there
    was no header. *)
Theorem convertir_a_json_previo (contenido contenido' : str) (previo : list str) :
  split nl contenido = previo ++ split nl contenido' ->
  sin_encabezados previo = true ->
  convertir_a_json contenido = convertir_a_json contenido'.
Proof.
  intros Hl Hp. unfold convertir_a_json, analizar_lineas.
  rewrite Hl, procesar_lineas_app.
  now rewrite (procesar_lineas_sin_seccion previo inicial eq_refl Hp).
Qed.

Lemma convertir_a_json_previo_witness :
  let contenido := join [nl] [py "Informe: 42"; py "nota: x"; DATOS_BASICOS;
                              py "Ingreso: 111"] in
  let contenido' := join [nl] [DATOS_BASICOS; py "Ingreso: 111"] in
  (split nl contenido = [py "Informe: 42"; py "nota: x"] ++ split nl contenido' /\
   sin_encabezados [py "Informe: 42"; py "nota: x"] = true) /\
  convertir_a_json contenido = convertir_a_json contenido'.
Proof.
  split; [split; reflexivity|].
  apply (convertir_a_json_previo
           (join [nl] [py "Informe: 42"; py "nota: x"; DATOS_BASICOS;
                       py "Ingreso: 111"])
           (join [nl] [DATOS_BASICOS; py "Ingreso: 111"])
           [py "Informe: 42"; py "nota: x"]); reflexivity.
Defined.

(** X3. In DESCRIPCION_QUIRURGICA the two multiline field names are
    matched by containment, and the field stored is named by the marker:
    in every parsed tree, a key of that section that contains
    "Hallazgos_operatorios" or "Detalle_quirúrgico" is exactly one of
    the two. *)
Theorem dq_claves_con_marcador (contenido : str) :
  exists datos,
    convertir_a_json contenido = Ok datos /\
    forall campos k,
      dict_get DESCRIPCION_QUIRURGICA datos = Some campos ->
      In k (keys campos) -> tiene_marcador k = true ->
      k = Hallazgos_operatorios \/ k = Detalle_quirurgico.
Proof.
  destruct (convertir_a_json_ok contenido) as (st & Hst & _ & E).
  exists (guardar_seccion st). split; [assumption|].
  intros campos k G Hk T. apply es_marcador_eq.
  pose proof (InvDQ_guardar st campos (InvDQ_alcanzable _ _ Hst) G) as F.
  now apply (proj1 (forma_dq_spec _ F)).
Qed.

(** X4. In DESCRIPCION_QUIRURGICA, once a multiline field has been
    opened no other field is ever stored: in every parsed tree, each key
    of that section that comes after "Hallazgos_operatorios" or
    "Detalle_quirúrgico" in insertion order is one of those two. *)
Theorem dq_solo_marcadores_despues (contenido : str) :
  exists datos,
    convertir_a_json contenido = Ok datos /\
    forall campos antes k despues k',
      dict_get DESCRIPCION_QUIRURGICA datos = Some campos ->
      keys campos = antes ++ k :: despues ->
      k = Hallazgos_operatorios \/ k = Detalle_quirurgico ->
      In k' despues ->
      k' = Hallazgos_operatorios \/ k' = Detalle_quirurgico.
Proof.
  destruct (convertir_a_json_ok contenido) as (st & Hst & _ & E).
  exists (guardar_seccion st). split; [assumption|].
  intros campos antes k despues k' G Hk Hm Hin. apply es_marcador_eq.
  pose proof (InvDQ_guardar st campos (InvDQ_alcanzable _ _ Hst) G) as F.
  apply es_marcador_eq in Hm.
  exact (proj2 (forma_dq_spec _ F) antes k despues Hk Hm k' Hin).
Qed.

(** X5. The last section of a text, when it is not
    DESCRIPCION_QUIRURGICA: its mapping is the result of assigning, in
    line order, the key and value of every line not skipped that has a
    colon; lines without a colon are ignored; the section is committed
    over what came before when that mapping is not empty, and dropped
    otherwise. *)
Theorem ultima_seccion_simple (contenido : str) (previo cuerpo : list str)
    (encabezado : str) :
  split nl contenido = previo ++ encabezado :: cuerpo ->
  es_seccion (strip encabezado) = true ->
  strip encabezado <> DESCRIPCION_QUIRURGICA ->
  sin_encabezados cuerpo = true ->
  exists anteriores,
    analizar_lineas previo = Ok anteriores /\
    convertir_a_json contenido =
      Ok (if no_vacio (campos_de_lineas cuerpo [])
          then dict_set (strip encabezado) (campos_de_lineas cuerpo []) anteriores
          else anteriores).
Proof.
  intros Hl He Hd Hc.
  destruct (procesar_lineas_inv previo inicial Inv_inicial) as (st & Hst & _).
  exists (guardar_seccion st). split.
  { unfold analizar_lineas. now rewrite Hst. }
  unfold convertir_a_json, analizar_lineas.
  rewrite Hl, procesar_lineas_app, Hst. cbn [bind procesar_lineas].
  rewrite procesar_encabezado by assumption. cbn [bind].
  pose proof He as Hin. apply es_seccion_in, seccion_no_vacia in Hin.
  rewrite (procesar_seccion_simple cuerpo _ (strip encabezado)); auto.
  cbn [bind]. unfold guardar_seccion. simpl. rewrite Hin. reflexivity.
Qed.

Lemma ultima_seccion_simple_witness :
  let contenido := join [nl] [DATOS_BASICOS; py "Ingreso: 111"; IDENTIFICACION;
                              py "Nombres: Ana"; py "sin dos puntos";
                              py "Edad: 40"; py "Nombres: Ana Luisa"] in
  let previo := [DATOS_BASICOS; py "Ingreso: 111"] in
  let cuerpo := [py "Nombres: Ana"; py "sin dos puntos"; py "Edad: 40";
                 py "Nombres: Ana Luisa"] in
  (split nl contenido = previo ++ IDENTIFICACION :: cuerpo /\
   es_seccion (strip IDENTIFICACION) = true /\
   strip IDENTIFICACION <> DESCRIPCION_QUIRURGICA /\
   sin_encabezados cuerpo = true) /\
  exists anteriores,
    analizar_lineas previo = Ok anteriores /\
    convertir_a_json contenido =
      Ok (if no_vacio (campos_de_lineas cuerpo [])
          then dict_set (strip IDENTIFICACION) (campos_de_lineas cuerpo []) anteriores
          else anteriores).
Proof.
  assert (N : strip IDENTIFICACION <> DESCRIPCION_QUIRURGICA)
    by (vm_compute; discriminate).
  split; [repeat split; exact N|].
  apply (ultima_seccion_simple
           (join [nl] [DATOS_BASICOS; py "Ingreso: 111"; IDENTIFICACION;
                       py "Nombres: Ana"; py "sin dos puntos";
                       py "Edad: 40"; py "Nombres: Ana Luisa"])
           [DATOS_BASICOS; py "Ingreso: 111"]
           [py "Nombres: Ana"; py "sin dos puntos"; py "Edad: 40";
            py "Nombres: Ana Luisa"] IDENTIFICACION);
    try reflexivity. exact N.
Defined.

(** X6. Round trip through the labelled format. A tree with distinct
    section names among the nine other than DESCRIPCION_QUIRURGICA, each
    with at least one field, distinct keys and well-formed keys and
    values, written as name, [Label: value] lines and a blank line per
    section, parses back to itself, order included. *)
Theorem convertir_a_json_formatear (r : dict (dict str)) :
  registro_ok r = true -> convertir_a_json (formatear r) = Ok r.
Proof.
  unfold registro_ok. rewrite andb_true_iff. intros [Hd Hok].
  destruct r as [|e r]; [reflexivity|].
  unfold convertir_a_json, formatear. rewrite split_join.
  - destruct (procesar_bloques (e :: r) inicial Hok) as (st & E & G).
    { simpl. apply distintas_NoDup in Hd. exact Hd. }
    unfold analizar_lineas. rewrite E. simpl. now rewrite G.
  - destruct e as [s d]. discriminate.
  - clear Hd. induction (e :: r) as [|e' r' IH]; [reflexivity|].
    cbn [flat_map forallb] in *. apply andb_true_iff in Hok as [He Hr].
    rewrite forallb_app, (bloque_sin_nl _ He). now apply IH.
Qed.

Lemma convertir_a_json_formatear_witness :
  let r := [(IDENTIFICACION, [(py "Nombres", py "Ana"); (py "Edad", py "40")]);
            (DATOS_BASICOS, [(Ingreso, py "111")])] in
  registro_ok r = true /\ convertir_a_json (formatear r) = Ok r.
Proof.
  split; [reflexivity|].
  apply (convertir_a_json_formatear
           [(IDENTIFICACION, [(py "Nombres", py "Ana"); (py "Edad", py "40")]);
            (DATOS_BASICOS, [(Ingreso, py "111")])]).
  reflexivity.
Defined.

(* ===================================================================== *)
(** ** Further properties of the batch file and its parse *)
(* ===================================================================== *)

Lemma split_join_docs (datos : list str) :
  datos <> [] -> split nl (join [nl] datos) = flat_map (split nl) datos.
Proof.
  induction datos as [|d ds IH]; [congruence|]. intros _.
  destruct ds as [|d' ds].
  - simpl. now rewrite app_nil_r.
  - change (join [nl] (d :: d' :: ds)) with (d ++ nl :: join [nl] (d' :: ds)).
    rewrite split_app, IH by discriminate. reflexivity.
Qed.

Lemma convertir_guardar (datos : list str) :
  convertir_a_json (guardar_en_txt datos) =
  analizar_lineas (flat_map (split nl) datos).
Proof.
  unfold convertir_a_json, analizar_lineas.
  rewrite <- procesar_lineas_quitar, split_guardar_en_txt.
  now rewrite procesar_lineas_quitar.
Qed.

(** X7. The blank lines [guardar_en_txt] puts after every document are
    invisible to the parser: the file of a batch parses as the documents
    joined by single newlines, that is, as one document made of all their
    lines. *)
Theorem convertir_a_json_guardar_en_txt (datos : list str) :
  convertir_a_json (guardar_en_txt datos) = convertir_a_json (join [nl] datos).
Proof.
  rewrite convertir_guardar. destruct datos as [|d ds]; [reflexivity|].
  unfold convertir_a_json. now rewrite split_join_docs.
Qed.

(** X8. Last writer wins, for any batch and any section: every section
    the last document yields when parsed alone is, unchanged, a section
    of the tree parsed from the file of the whole batch. *)
Theorem ultimo_documento_del_lote (previos : list str) (d : str)
    (r : dict (dict str)) :
  convertir_a_json d = Ok r ->
  exists r',
    convertir_a_json (guardar_en_txt (previos ++ [d])) = Ok r' /\
    forall s campos, dict_get s r = Some campos -> dict_get s r' = Some campos.
Proof.
  intros Hd. rewrite convertir_guardar, flat_map_app. simpl. rewrite app_nil_r.
  destruct (procesar_lineas_inv (flat_map (split nl) previos) inicial Inv_inicial)
    as (b & Hb & I).
  destruct (ultimo_gana (split nl d) b r I Hd) as (b' & Hb' & _ & Hi).
  exists (guardar_seccion b'). split; [|exact Hi].
  unfold analizar_lineas. rewrite procesar_lineas_app, Hb. simpl. now rewrite Hb'.
Qed.

Lemma ultimo_documento_del_lote_witness :
  let r := [(DATOS_BASICOS, [(Ingreso, py "222")])] in
  convertir_a_json doc_dos = Ok r /\
  exists r',
    convertir_a_json (guardar_en_txt ([doc_uno; texto_multilinea] ++ [doc_dos])) = Ok r' /\
    forall s campos, dict_get s r = Some campos -> dict_get s r' = Some campos.
Proof.
  split; [reflexivity|].
  apply (ultimo_documento_del_lote [doc_uno; texto_multilinea] doc_dos
           [(DATOS_BASICOS, [(Ingreso, py "222")])]).
  reflexivity.
Defined.

(** X9. However many documents a batch holds, the tree parsed from its
    file has distinct section names and at most nine sections. *)
Theorem convertir_a_json_nueve (datos : list str) :
  exists r,
    convertir_a_json (guardar_en_txt datos) = Ok r /\
    NoDup (keys r) /\ (List.length r <= 9)%nat.
Proof.
  destruct (convertir_a_json_ok (guardar_en_txt datos)) as (st & _ & I & E).
  exists (guardar_seccion st). split; [assumption|].
  pose proof (guardar_seccion_ok st I) as [K _ N _]. split; [assumption|].
  change 9%nat with (List.length secciones_requeridas).
  replace (List.length (guardar_seccion st))
    with (List.length (keys (guardar_seccion st)))
    by (unfold keys; apply length_map).
  apply NoDup_incl_length; [assumption|].
  intros k Hk. rewrite Forall_forall in K. now apply K.
Qed.

(* ===================================================================== *)
(** ** Further properties of the validator *)
(* ===================================================================== *)

(** X10. [validar_datos] can end in one exception only, the [KeyError]
    for "Hallazgos_operatorios", and it does so exactly when
    DESCRIPCION_QUIRURGICA is present without that field; in every other
    case it runs to its end. *)
Theorem validar_datos_unica_excepcion (datos : dict (dict str)) :
  exists log r,
    validar_datos datos = (log, r) /\
    (r = Ok tt \/ r = Raise (KeyError Hallazgos_operatorios)) /\
    (r = Raise (KeyError Hallazgos_operatorios) <->
     exists campos, dict_get DESCRIPCION_QUIRURGICA datos = Some campos /\
                    dict_get Hallazgos_operatorios campos = None).
Proof.
  rewrite validar_datos_casos.
  destruct (dict_get DESCRIPCION_QUIRURGICA datos) as [campos|].
  - destruct (dict_get Hallazgos_operatorios campos) as [h|] eqn:E.
    + eexists. exists (Ok tt). split; [reflexivity|]. split; [now left|].
      split; [discriminate|]. intros (c & [= <-] & G). congruence.
    + eexists. eexists. split; [reflexivity|]. split; [now right|].
      split; [|reflexivity]. intros _. eauto.
  - eexists. exists (Ok tt). split; [reflexivity|]. split; [now left|].
    split; [discriminate|]. intros (c & G & _). discriminate.
Qed.

(** X11. When the run ends in the [KeyError], the two sections checked
    after DESCRIPCION_QUIRURGICA are never looked at: the log holds the
    missing-section warnings of the six sections before it, in order,
    then the missing-field warning, and nothing about CONTEO_MATERIAL or
    DATOS_PROFESIONAL whether they are there or not. *)
Theorem validar_datos_interrumpido (datos : dict (dict str)) (campos : dict str) :
  dict_get DESCRIPCION_QUIRURGICA datos = Some campos ->
  dict_get Hallazgos_operatorios campos = None ->
  validar_datos datos =
    (flat_map (faltante datos) antes_dq ++ [HallazgosFaltantes],
     Raise (KeyError Hallazgos_operatorios)) /\
  ~ In (SeccionFaltante CONTEO_MATERIAL) (fst (validar_datos datos)) /\
  ~ In (SeccionFaltante DATOS_PROFESIONAL) (fst (validar_datos datos)).
Proof.
  intros Hs Hc. rewrite validar_datos_casos, Hs, Hc. split; [reflexivity|].
  cbn [fst].
  assert (A : forall s, In (SeccionFaltante s)
                (flat_map (faltante datos) antes_dq ++ [HallazgosFaltantes]) ->
              In s antes_dq).
  { intros s H. apply in_app_or in H as [H|[H|[]]]; [|discriminate].
    apply in_flat_map in H as (x & Hx & H). unfold faltante in H.
    destruct (dict_in x datos); [contradiction|].
    destruct H as [[= <-]|[]]. assumption. }
  split; intros H; apply A in H; unfold antes_dq in H; simpl in H;
    repeat (destruct H as [H|H]; [vm_compute in H; discriminate|]); exact H.
Qed.

Lemma validar_datos_interrumpido_witness :
  let datos := [(DESCRIPCION_QUIRURGICA, [(py "Complicaciones", py "ninguna")])] in
  let campos := [(py "Complicaciones", py "ninguna")] in
  (dict_get DESCRIPCION_QUIRURGICA datos = Some campos /\
   dict_get Hallazgos_operatorios campos = None) /\
  validar_datos datos =
    (flat_map (faltante datos) antes_dq ++ [HallazgosFaltantes],
     Raise (KeyError Hallazgos_operatorios)) /\
  ~ In (SeccionFaltante CONTEO_MATERIAL) (fst (validar_datos datos)) /\
  ~ In (SeccionFaltante DATOS_PROFESIONAL) (fst (validar_datos datos)).
Proof.
  split; [split; reflexivity|].
  apply (validar_datos_interrumpido
           [(DESCRIPCION_QUIRURGICA, [(py "Complicaciones", py "ninguna")])]
           [(py "Complicaciones", py "ninguna")]); reflexivity.
Defined.

Lemma In_faltante (datos : dict (dict str)) (secciones : list str) (w : aviso) :
  In w (flat_map (faltante datos) secciones) <->
  exists s, w = SeccionFaltante s /\ In s secciones /\ dict_get s datos = None.
Proof.
  rewrite in_flat_map. unfold faltante, dict_in. split.
  - intros (s & Hs & H). destruct (dict_get s datos) eqn:E; [contradiction|].
    destruct H as [<-|[]]. eauto.
  - intros (s & -> & Hs & E). exists s. split; [assumption|]. rewrite E. now left.
Qed.

Lemma In_tres {A} (w : A) (a b c : list A) :
  In w (a ++ b ++ c) <-> In w a \/ In w b \/ In w c.
Proof. now rewrite !in_app_iff. Qed.

(** X12. When the run reaches its end, a missing-section warning is
    logged for exactly the required sections absent from the tree, the
    missing-field warning is never logged, and the "possibly incomplete"
    warning is logged exactly when Hallazgos_operatorios is there with
    fewer than 50 characters. *)
Theorem validar_datos_completo (datos : dict (dict str)) (log : list aviso) :
  validar_datos datos = (log, Ok tt) ->
  (forall s, In (SeccionFaltante s) log <->
             In s secciones_requeridas /\ dict_get s datos = None) /\
  ~ In HallazgosFaltantes log /\
  (In HallazgosIncompletos log <->
   exists campos hallazgos,
     dict_get DESCRIPCION_QUIRURGICA datos = Some campos /\
     dict_get Hallazgos_operatorios campos = Some hallazgos /\
     (List.length hallazgos < 50)%nat).
Proof.
  rewrite validar_datos_casos, secciones_partidas.
  assert (P : forall s, In s (antes_dq ++ DESCRIPCION_QUIRURGICA :: despues_dq) <->
              In s antes_dq \/ s = DESCRIPCION_QUIRURGICA \/ In s despues_dq).
  { intros s. rewrite in_app_iff. simpl. intuition. }
  pose proof (In_faltante datos antes_dq) as HA.
  pose proof (In_faltante datos despues_dq) as HB.
  set (La := flat_map (faltante datos) antes_dq) in *.
  set (Lb := flat_map (faltante datos) despues_dq) in *. clearbody La Lb.
  destruct (dict_get DESCRIPCION_QUIRURGICA datos) as [campos|] eqn:Hs.
  - destruct (dict_get Hallazgos_operatorios campos) as [h|] eqn:Hc;
      [|discriminate].
    intros [= <-]. unfold incompleto.
    split; [|split].
    + intros s. rewrite P, In_tres, HA, HB. split.
      * intros [(s' & [= <-] & A & B)|[H|(s' & [= <-] & A & B)]]; auto.
        destruct (Nat.ltb _ _); [destruct H as [H|[]]; discriminate | destruct H].
      * intros [[A|[->|A]] B]; [left; eauto | congruence | right; right; eauto].
    + rewrite In_tres, HA, HB.
      intros [(s' & [=] & _)|[H|(s' & [=] & _)]].
      destruct (Nat.ltb _ _); [destruct H as [H|[]]; discriminate | destruct H].
    + rewrite In_tres, HA, HB. split.
      * intros [(s' & [=] & _)|[H|(s' & [=] & _)]].
        destruct (Nat.ltb_spec (List.length h) 50); [|destruct H].
        exists campos, h. auto.
      * intros (c & h' & [= <-] & G & L). assert (h' = h) by congruence. subst.
        right. left. apply Nat.ltb_lt in L. rewrite L. now left.
  - intros [= <-]. split; [|split].
    + intros s. rewrite P, in_app_iff. cbn [app In]. rewrite HA, HB. split.
      * intros [(s' & [= <-] & A & B)|[[= <-]|(s' & [= <-] & A & B)]]; auto.
      * intros [[A|[->|A]] B]; [left; eauto | right; now left
                                | right; right; eauto].
    + rewrite in_app_iff. cbn [app In]. rewrite HA, HB.
      intros [(s' & [=] & _)|[[=]|(s' & [=] & _)]].
    + rewrite in_app_iff. cbn [app In]. rewrite HA, HB. split.
      * intros [(s' & [=] & _)|[[=]|(s' & [=] & _)]].
      * intros (c & h & [=] & _).
Qed.

Lemma validar_datos_completo_witness :
  let datos := [(DATOS_BASICOS, [(Ingreso, py "111")]);
                (DESCRIPCION_QUIRURGICA, [(Hallazgos_operatorios, py "sin novedad")])] in
  let log := [SeccionFaltante IDENTIFICACION; SeccionFaltante EQUIPO_QUIRURGICO;
              SeccionFaltante DIAGNOSTICOS; SeccionFaltante INTERVENCION;
              SeccionFaltante PROCEDIMIENTOS; HallazgosIncompletos;
              SeccionFaltante CONTEO_MATERIAL; SeccionFaltante DATOS_PROFESIONAL] in
  validar_datos datos = (log, Ok tt) /\
  (forall s, In (SeccionFaltante s) log <->
             In s secciones_requeridas /\ dict_get s datos = None) /\
  ~ In HallazgosFaltantes log /\
  (In HallazgosIncompletos log <->
   exists campos hallazgos,
     dict_get DESCRIPCION_QUIRURGICA datos = Some campos /\
     dict_get Hallazgos_operatorios campos = Some hallazgos /\
     (List.length hallazgos < 50)%nat).
Proof.
  split; [reflexivity|].
  apply (validar_datos_completo
           [(DATOS_BASICOS, [(Ingreso, py "111")]);
            (DESCRIPCION_QUIRURGICA, [(Hallazgos_operatorios, py "sin novedad")])]).
  reflexivity.
Defined.


Module SubidaFacts.
Import Subida.

Lemma cuerpo_forma (o : observacion) :
  (exists e, cuerpo o = ([], inl e) /\ subible o = false) \/
  (exists e, cuerpo o = ([Sube], inl e) /\ subible o = true) \/
  (exists file, cuerpo o = ([Sube], inr file) /\ subible o = true /\
     es_verdadero file = true /\ presente (display_name file) = true /\
     presente (uri file) = true).
Proof.
  unfold cuerpo, subible. destruct (obs_existe o); simpl; [|left; eauto].
  destruct (obs_tamano o) as [e|n]; [left; eauto|].
  destruct (limite <? n); simpl; [left; eauto|]. right.
  destruct (obs_subida o) as [e|file]; [left; eauto|].
  destruct (es_verdadero file) eqn:V; simpl; [|left; eauto].
  destruct (presente (display_name file)) eqn:D; simpl; [|left; eauto].
  destruct (presente (uri file)) eqn:U; [|left; eauto].
  right. exists file. auto.
Qed.

(** One unfolding of the loop, at each of the three values [retry_count]
    takes. *)
Lemma bucle_0 (fuel : nat) (mundo : N -> observacion) (timeout : Q) :
  bucle (S fuel) mundo timeout 0 =
  match cuerpo (mundo 0) with
  | (evs, inr file) => (evs, Some (Devuelve file))
  | (evs, inl e) =>
      if Qlt_le_dec timeout (obs_transcurrido (mundo 0))
      then (evs, Some (Lanza TimeoutError))
      else let '(evs', r) := bucle fuel mundo timeout 1 in
           (evs ++ Duerme 2 :: evs', r)
  end.
Proof. reflexivity. Qed.

Lemma bucle_1 (fuel : nat) (mundo : N -> observacion) (timeout : Q) :
  bucle (S fuel) mundo timeout 1 =
  match cuerpo (mundo 1) with
  | (evs, inr file) => (evs, Some (Devuelve file))
  | (evs, inl e) =>
      if Qlt_le_dec timeout (obs_transcurrido (mundo 1))
      then (evs, Some (Lanza TimeoutError))
      else let '(evs', r) := bucle fuel mundo timeout 2 in
           (evs ++ Duerme 4 :: evs', r)
  end.
Proof. reflexivity. Qed.

Lemma bucle_2 (fuel : nat) (mundo : N -> observacion) (timeout : Q) :
  bucle (S fuel) mundo timeout 2 =
  match cuerpo (mundo 2) with
  | (evs, inr file) => (evs, Some (Devuelve file))
  | (evs, inl e) =>
      if Qlt_le_dec timeout (obs_transcurrido (mundo 2))
      then (evs, Some (Lanza TimeoutError))
      else (evs, Some (Lanza e))
  end.
Proof. reflexivity. Qed.

Lemma subidas_app (a b : list evento) : subidas (a ++ b) = (subidas a + subidas b)%nat.
Proof. unfold subidas. now rewrite filter_app, length_app. Qed.

Lemma esperas_app (a b : list evento) : esperas (a ++ b) = esperas a ++ esperas b.
Proof. unfold esperas. apply flat_map_app. Qed.

End SubidaFacts.

Module SubidaProps.
Import Subida SubidaFacts.

(** The loop written out for its three passes. *)
Lemma upload_tres (fuel : nat) (mundo : N -> observacion) (timeout : Q) :
  upload_to_gemini (S (S (S fuel))) mundo timeout =
  match cuerpo (mundo 0) with
  | (ev0, inr file) => (ev0, Some (Devuelve file))
  | (ev0, inl e0) =>
    if Qlt_le_dec timeout (obs_transcurrido (mundo 0))
    then (ev0, Some (Lanza TimeoutError))
    else
      match cuerpo (mundo 1) with
      | (ev1, inr file) => (ev0 ++ Duerme 2 :: ev1, Some (Devuelve file))
      | (ev1, inl e1) =>
        if Qlt_le_dec timeout (obs_transcurrido (mundo 1))
        then (ev0 ++ Duerme 2 :: ev1, Some (Lanza TimeoutError))
        else
          match cuerpo (mundo 2) with
          | (ev2, inr file) =>
              (ev0 ++ Duerme 2 :: ev1 ++ Duerme 4 :: ev2, Some (Devuelve file))
          | (ev2, inl e2) =>
            if Qlt_le_dec timeout (obs_transcurrido (mundo 2))
            then (ev0 ++ Duerme 2 :: ev1 ++ Duerme 4 :: ev2, Some (Lanza TimeoutError))
            else (ev0 ++ Duerme 2 :: ev1 ++ Duerme 4 :: ev2, Some (Lanza e2))
          end
      end
  end.
Proof.
  unfold upload_to_gemini. rewrite bucle_0.
  destruct (cuerpo (mundo 0)) as [ev0 [e0|f0]]; [|reflexivity].
  destruct (Qlt_le_dec timeout (obs_transcurrido (mundo 0))); [reflexivity|].
  rewrite bucle_1.
  destruct (cuerpo (mundo 1)) as [ev1 [e1|f1]]; [|reflexivity].
  destruct (Qlt_le_dec timeout (obs_transcurrido (mundo 1))); [reflexivity|].
  rewrite bucle_2.
  destruct (cuerpo (mundo 2)) as [ev2 [e2|f2]]; [|reflexivity].
  destruct (Qlt_le_dec timeout (obs_transcurrido (mundo 2))); reflexivity.
Qed.

Lemma subidas_cuerpo (o : observacion) : (subidas (fst (cuerpo o)) <= 1)%nat.
Proof.
  destruct (cuerpo_forma o) as [(e & -> & _)|[(e & -> & _)|(f & -> & _)]];
    simpl; unfold subidas; simpl; lia.
Qed.

Lemma esperas_cuerpo (o : observacion) : esperas (fst (cuerpo o)) = [].
Proof.
  destruct (cuerpo_forma o) as [(e & -> & _)|[(e & -> & _)|(f & -> & _)]];
    reflexivity.
Qed.

Lemma cuerpo_valido (o : observacion) (evs : list evento) (file : objeto) :
  cuerpo o = (evs, inr file) ->
  es_verdadero file = true /\ presente (display_name file) = true /\
  presente (uri file) = true.
Proof.
  destruct (cuerpo_forma o) as [(e & -> & _)|[(e & -> & _)|(f & -> & _ & V)]];
    try discriminate.
  now intros [= _ <-].
Qed.

(** X13. Three unfoldings of the loop are enough and more change
    nothing. The function never reaches the [return None] of line 72: it
    returns an object that is truthy and has [display_name] and [uri], or
    an exception leaves it. It calls [genai.upload_file] at most three
    times. *)
Theorem upload_to_gemini_termina (fuel : nat) (mundo : N -> observacion)
    (timeout : Q) :
  (3 <= fuel)%nat ->
  exists evs r,
    upload_to_gemini fuel mundo timeout = (evs, Some r) /\
    upload_to_gemini 3 mundo timeout = (evs, Some r) /\
    r <> DevuelveNone /\
    (subidas evs <= 3)%nat /\
    (forall file, r = Devuelve file ->
       es_verdadero file = true /\ presente (display_name file) = true /\
       presente (uri file) = true).
Proof.
  intros Hf. destruct fuel as [|[|[|fuel]]]; try lia.
  rewrite !upload_tres.
  pose proof (subidas_cuerpo (mundo 0)) as S0.
  pose proof (subidas_cuerpo (mundo 1)) as S1.
  pose proof (subidas_cuerpo (mundo 2)) as S2.
  pose proof (cuerpo_valido (mundo 0)) as V0.
  pose proof (cuerpo_valido (mundo 1)) as V1.
  pose proof (cuerpo_valido (mundo 2)) as V2.
  assert (A2 : forall a b : list evento,
             (subidas a <= 1 -> subidas b <= 1 ->
              subidas (a ++ Duerme 2 :: b) <= 3)%nat).
  { intros a b. rewrite subidas_app. unfold subidas. simpl. lia. }
  assert (A3 : forall a b c : list evento,
             (subidas a <= 1 -> subidas b <= 1 -> subidas c <= 1 ->
              subidas (a ++ Duerme 2 :: b ++ Duerme 4 :: c) <= 3)%nat).
  { intros a b c. rewrite subidas_app. unfold subidas. simpl.
    rewrite filter_app, length_app. simpl. lia. }
  destruct (cuerpo (mundo 0)) as [ev0 [e0|f0]]; cbn [fst] in S0.
  2:{ do 2 eexists. split; [reflexivity|]. split; [reflexivity|].
      split; [discriminate|]. split; [lia|].
      intros x [= <-]. eapply V0; reflexivity. }
  destruct (Qlt_le_dec timeout (obs_transcurrido (mundo 0))).
  { do 2 eexists. split; [reflexivity|]. split; [reflexivity|].
    split; [discriminate|]. split; [lia|]. intros x [=]. }
  destruct (cuerpo (mundo 1)) as [ev1 [e1|f1]]; cbn [fst] in S1.
  2:{ do 2 eexists. split; [reflexivity|]. split; [reflexivity|].
      split; [discriminate|]. split; [now apply A2|].
      intros x [= <-]. eapply V1; reflexivity. }
  destruct (Qlt_le_dec timeout (obs_transcurrido (mundo 1))).
  { do 2 eexists. split; [reflexivity|]. split; [reflexivity|].
    split; [discriminate|]. split; [now apply A2|]. intros x [=]. }
  destruct (cuerpo (mundo 2)) as [ev2 [e2|f2]]; cbn [fst] in S2.
  2:{ do 2 eexists. split; [reflexivity|]. split; [reflexivity|].
      split; [discriminate|]. split; [now apply A3|].
      intros x [= <-]. eapply V2; reflexivity. }
  destruct (Qlt_le_dec timeout (obs_transcurrido (mundo 2)));
    do 2 eexists; (split; [reflexivity|]); (split; [reflexivity|]);
    (split; [discriminate|]); (split; [now apply A3|]); intros x [=].
Qed.

Lemma upload_to_gemini_termina_witness :
  (3 <= 5)%nat /\
  exists evs r,
    upload_to_gemini 5 mundo_tercera 30 = (evs, Some r) /\
    upload_to_gemini 3 mundo_tercera 30 = (evs, Some r) /\
    r <> DevuelveNone /\
    (subidas evs <= 3)%nat /\
    (forall file, r = Devuelve file ->
       es_verdadero file = true /\ presente (display_name file) = true /\
       presente (uri file) = true).
Proof.
  split; [lia|]. apply (upload_to_gemini_termina 5 mundo_tercera 30). lia.
Defined.

(** X14. The function sleeps at most twice, 2 seconds and then 4: the
    sleeps of any run are [], [2] or [2; 4], so the cap of 10 seconds in
    line 68 is never the value used and a run sleeps 6 seconds at most. *)
Theorem upload_to_gemini_esperas (mundo : N -> observacion) (timeout : Q) :
  let evs := fst (upload_to_gemini 3 mundo timeout) in
  (esperas evs = [] \/ esperas evs = [2] \/ esperas evs = [2; 4]) /\
  fold_right N.add 0 (esperas evs) <= 6.
Proof.
  cbn zeta. rewrite upload_tres.
  pose proof (esperas_cuerpo (mundo 0)) as E0.
  pose proof (esperas_cuerpo (mundo 1)) as E1.
  pose proof (esperas_cuerpo (mundo 2)) as E2.
  assert (A2 : forall a b : list evento, esperas a = [] -> esperas b = [] ->
                 esperas (a ++ Duerme 2 :: b) = [2]).
  { intros a b Ha Hb. rewrite esperas_app, Ha. unfold esperas in *. simpl.
    now rewrite Hb. }
  assert (A3 : forall a b c : list evento,
                 esperas a = [] -> esperas b = [] -> esperas c = [] ->
                 esperas (a ++ Duerme 2 :: b ++ Duerme 4 :: c) = [2; 4]).
  { intros a b c Ha Hb Hc. rewrite esperas_app, Ha. unfold esperas in *. simpl.
    rewrite flat_map_app, Hb. simpl. now rewrite Hc. }
  destruct (cuerpo (mundo 0)) as [ev0 [e0|f0]]; cbn [fst] in *.
  2:{ rewrite E0. split; [now left | discriminate]. }
  destruct (Qlt_le_dec timeout (obs_transcurrido (mundo 0))); cbn [fst].
  { rewrite E0. split; [now left | discriminate]. }
  destruct (cuerpo (mundo 1)) as [ev1 [e1|f1]]; cbn [fst] in *.
  2:{ rewrite A2 by assumption. split; [right; now left | discriminate]. }
  destruct (Qlt_le_dec timeout (obs_transcurrido (mundo 1))); cbn [fst].
  { rewrite A2 by assumption. split; [right; now left | discriminate]. }
  destruct (cuerpo (mundo 2)) as [ev2 [e2|f2]]; cbn [fst] in *.
  2:{ rewrite A3 by assumption. split; [right; now right | discriminate]. }
  destruct (Qlt_le_dec timeout (obs_transcurrido (mundo 2))); cbn [fst];
    rewrite A3 by assumption; (split; [right; now right | discriminate]).
Qed.

(** X15. A file that is missing, or whose size cannot be read or exceeds
    20 MB, is never sent: when that holds at every pass,
    [genai.upload_file] is not called and the function ends in an
    exception. The check is nonetheless repeated at every pass, with the
    sleeps in between. *)
Theorem upload_to_gemini_no_subible (mundo : N -> observacion) (timeout : Q) :
  (forall k, k < 3 -> subible (mundo k) = false) ->
  subidas (fst (upload_to_gemini 3 mundo timeout)) = 0%nat /\
  exists e, snd (upload_to_gemini 3 mundo timeout) = Some (Lanza e).
Proof.
  intros H. rewrite upload_tres.
  assert (C : forall k, k < 3 -> exists e, cuerpo (mundo k) = ([], inl e)).
  { intros k Hk. specialize (H k Hk).
    destruct (cuerpo_forma (mundo k)) as [(e & E & _)|[(e & _ & S)|(f & _ & S & _)]];
      [eauto | congruence | congruence]. }
  destruct (C 0 eq_refl) as (e0 & ->).
  destruct (C 1 eq_refl) as (e1 & ->).
  destruct (C 2 eq_refl) as (e2 & ->).
  destruct (Qlt_le_dec timeout (obs_transcurrido (mundo 0))); [simpl; eauto|].
  destruct (Qlt_le_dec timeout (obs_transcurrido (mundo 1))); [simpl; eauto|].
  destruct (Qlt_le_dec timeout (obs_transcurrido (mundo 2))); simpl; eauto.
Qed.

Lemma upload_to_gemini_no_subible_witness :
  (forall k, k < 3 -> subible (mundo_sin_archivo k) = false) /\
  subidas (fst (upload_to_gemini 3 mundo_sin_archivo 30)) = 0%nat /\
  exists e, snd (upload_to_gemini 3 mundo_sin_archivo 30) = Some (Lanza e).
Proof.
  split; [reflexivity|].
  apply (upload_to_gemini_no_subible mundo_sin_archivo 30). reflexivity.
Defined.

Lemma exitosa_cuerpo (o : observacion) (file : objeto) :
  exitosa o = Some file <-> exists evs, cuerpo o = (evs, inr file).
Proof.
  unfold exitosa. destruct (cuerpo o) as [evs [e|f]]; split.
  - discriminate.
  - intros (x & [=]).
  - intros [= ->]. eauto.
  - intros (x & [= _ ->]). reflexivity.
Qed.

(** X16. The function returns a file exactly when some pass among the
    three succeeds and, at each pass before it, the elapsed time read
    after the failure did not exceed the timeout. The clock is never read
    on a pass that succeeds: the timeout does not bound the upload
    itself. *)
Theorem upload_to_gemini_exito (mundo : N -> observacion) (timeout : Q)
    (file : objeto) :
  snd (upload_to_gemini 3 mundo timeout) = Some (Devuelve file) <->
  exists k, k < 3 /\ exitosa (mundo k) = Some file /\
    forall j, j < k ->
      exitosa (mundo j) = None /\
      ~ (timeout < obs_transcurrido (mundo j))%Q.
Proof.
  rewrite upload_tres. unfold exitosa.
  assert (L1 : forall j : N, j < 1 -> j = 0) by lia.
  assert (L2 : forall j : N, j < 2 -> j = 0 \/ j = 1) by lia.
  assert (L3 : forall k : N, k < 3 -> k = 0 \/ k = 1 \/ k = 2) by lia.
  destruct (cuerpo (mundo 0)) as [ev0 [e0|f0]] eqn:C0.
  2:{ cbn [snd]. split.
      - intros [= ->]. exists 0. rewrite C0. repeat split; lia.
      - intros (k & Hk & Ek & Hj). destruct (N.eq_dec k 0) as [->|Nk].
        + rewrite C0 in Ek. congruence.
        + destruct (Hj 0 ltac:(lia)) as [X _]. rewrite C0 in X. discriminate. }
  destruct (Qlt_le_dec timeout (obs_transcurrido (mundo 0))) as [T0|T0].
  { cbn [snd]. split; [discriminate|].
    intros (k & Hk & Ek & Hj). destruct (N.eq_dec k 0) as [->|Nk].
    - rewrite C0 in Ek. discriminate.
    - destruct (Hj 0 ltac:(lia)) as [_ X]. contradiction. }
  apply Qle_not_lt in T0.
  destruct (cuerpo (mundo 1)) as [ev1 [e1|f1]] eqn:C1.
  2:{ cbn [snd]. split.
      - intros [= ->]. exists 1. rewrite C1. split; [reflexivity|].
        split; [reflexivity|]. intros j Hj. apply L1 in Hj. subst j.
        rewrite C0. auto.
      - intros (k & Hk & Ek & Hj). destruct (L3 k Hk) as [->|[->| ->]].
        + rewrite C0 in Ek. discriminate.
        + rewrite C1 in Ek. congruence.
        + destruct (Hj 1 eq_refl) as [X _]. rewrite C1 in X. discriminate. }
  destruct (Qlt_le_dec timeout (obs_transcurrido (mundo 1))) as [T1|T1].
  { cbn [snd]. split; [discriminate|].
    intros (k & Hk & Ek & Hj). destruct (L3 k Hk) as [->|[->| ->]].
    - rewrite C0 in Ek. discriminate.
    - rewrite C1 in Ek. discriminate.
    - destruct (Hj 1 eq_refl) as [_ X]. contradiction. }
  apply Qle_not_lt in T1.
  destruct (cuerpo (mundo 2)) as [ev2 [e2|f2]] eqn:C2.
  2:{ cbn [snd]. split.
      - intros [= ->]. exists 2. rewrite C2. split; [reflexivity|].
        split; [reflexivity|]. intros j Hj.
        destruct (L2 j Hj) as [->| ->]; [rewrite C0 | rewrite C1]; auto.
      - intros (k & Hk & Ek & Hj). destruct (L3 k Hk) as [->|[->| ->]].
        + rewrite C0 in Ek. discriminate.
        + rewrite C1 in Ek. discriminate.
        + rewrite C2 in Ek. congruence. }
  assert (F : snd (if Qlt_le_dec timeout (obs_transcurrido (mundo 2))
                   then (ev0 ++ Duerme 2 :: ev1 ++ Duerme 4 :: ev2,
                         Some (Lanza TimeoutError))
                   else (ev0 ++ Duerme 2 :: ev1 ++ Duerme 4 :: ev2,
                         Some (Lanza e2))) <> Some (Devuelve file)).
  { destruct (Qlt_le_dec timeout (obs_transcurrido (mundo 2))); discriminate. }
  split; [intros X; now apply F in X|].
  intros (k & Hk & Ek & Hj). destruct (L3 k Hk) as [->|[->| ->]].
  - rewrite C0 in Ek. discriminate.
  - rewrite C1 in Ek. discriminate.
  - rewrite C2 in Ek. discriminate.
Qed.

(** X17. The timeout is looked at only after a failed pass, and it comes
    first: when the passes up to number [k] all fail and the elapsed time
    first exceeds the timeout at pass [k], the function raises
    [TimeoutError] there, having slept [k] times, whatever the exception
    of that pass was and even if it was the last pass allowed. *)
Theorem upload_to_gemini_timeout (mundo : N -> observacion) (timeout : Q) (k : N) :
  k < 3 ->
  (forall j, j <= k -> exitosa (mundo j) = None) ->
  (forall j, j < k -> ~ (timeout < obs_transcurrido (mundo j))%Q) ->
  (timeout < obs_transcurrido (mundo k))%Q ->
  snd (upload_to_gemini 3 mundo timeout) = Some (Lanza TimeoutError) /\
  List.length (esperas (fst (upload_to_gemini 3 mundo timeout))) = N.to_nat k.
Proof.
  intros Hk Hf Ht Hv. rewrite upload_tres.
  pose proof (esperas_cuerpo (mundo 0)) as E0.
  pose proof (esperas_cuerpo (mundo 1)) as E1.
  pose proof (esperas_cuerpo (mundo 2)) as E2.
  assert (F : forall j, j <= k -> exists evs e, cuerpo (mundo j) = (evs, inl e)).
  { intros j Hj. specialize (Hf j Hj). unfold exitosa in Hf.
    destruct (cuerpo (mundo j)) as [evs [e|f]]; [eauto | discriminate]. }
  assert (L3 : k = 0 \/ k = 1 \/ k = 2) by lia.
  destruct (F 0 ltac:(lia)) as (ev0 & e0 & C0). rewrite C0 in *. cbn [fst] in E0.
  destruct (Qlt_le_dec timeout (obs_transcurrido (mundo 0))) as [T0|T0].
  { destruct (N.eq_dec k 0) as [->|Nk].
    - cbn [fst snd]. rewrite E0. auto.
    - exfalso. apply (Ht 0); [lia | assumption]. }
  destruct L3 as [->|L3]; [exfalso; now apply Qle_not_lt in T0|].
  destruct (F 1 ltac:(lia)) as (ev1 & e1 & C1). rewrite C1 in *. cbn [fst] in E1.
  destruct (Qlt_le_dec timeout (obs_transcurrido (mundo 1))) as [T1|T1].
  { destruct (N.eq_dec k 1) as [->|Nk].
    - cbn [fst snd]. rewrite esperas_app, E0. unfold esperas in *. simpl.
      rewrite E1. auto.
    - exfalso. apply (Ht 1); [lia | assumption]. }
  destruct L3 as [->| ->]; [exfalso; now apply Qle_not_lt in T1|].
  destruct (F 2 ltac:(lia)) as (ev2 & e2 & C2). rewrite C2 in *. cbn [fst] in E2.
  destruct (Qlt_le_dec timeout (obs_transcurrido (mundo 2))) as [T2|T2];
    [|exfalso; now apply Qle_not_lt in T2].
  cbn [fst snd]. rewrite esperas_app, E0. unfold esperas in *. simpl.
  rewrite flat_map_app, E1. simpl. rewrite E2. auto.
Qed.

Lemma upload_to_gemini_timeout_witness :
  (1 < 3 /\
   (forall j, j <= 1 -> exitosa (mundo_lento j) = None) /\
   (forall j, j < 1 -> ~ (30 < obs_transcurrido (mundo_lento j))%Q) /\
   (30 < obs_transcurrido (mundo_lento 1))%Q) /\
  snd (upload_to_gemini 3 mundo_lento 30) = Some (Lanza TimeoutError) /\
  List.length (esperas (fst (upload_to_gemini 3 mundo_lento 30))) = N.to_nat 1.
Proof.
  assert (A : forall j, j <= 1 -> exitosa (mundo_lento j) = None)
    by (intros j _; reflexivity).
  assert (B : forall j, j < 1 -> ~ (30 < obs_transcurrido (mundo_lento j))%Q).
  { intros j Hj. assert (j = 0) by lia. subst j. vm_compute. discriminate. }
  assert (C : (30 < obs_transcurrido (mundo_lento 1))%Q) by reflexivity.
  split; [repeat split; assumption|].
  apply (upload_to_gemini_timeout mundo_lento 30 1 eq_refl A B C).
Defined.

End SubidaProps.


Module EsperaProps.
Import Espera.

Lemma sondear_resultado (i : nat) (rs : list respuesta) :
  snd (sondear i rs) =
  match definitiva rs with
  | None => None
  | Some (Estado name) => Some (str_eqb name ACTIVE)
  | Some Falla => Some false
  end.
Proof.
  induction rs as [|[name|] rs IH]; simpl; try reflexivity.
  destruct (str_eqb name PROCESSING); [|reflexivity].
  destruct (sondear i rs) as [evs r]. exact IH.
Qed.

Lemma sondear_dormidas (i : nat) (rs : list respuesta) :
  dormidas (fst (sondear i rs)) = procesando rs.
Proof.
  induction rs as [|[name|] rs IH]; simpl; try reflexivity.
  destruct (str_eqb name PROCESSING); [|reflexivity].
  destruct (sondear i rs) as [evs r]. unfold dormidas in *. simpl in *. lia.
Qed.

Lemma sondear_activo (i : nat) (rs : list respuesta) :
  snd (sondear i rs) = Some true <-> definitiva rs = Some (Estado ACTIVE).
Proof.
  rewrite sondear_resultado. destruct (definitiva rs) as [[name|]|]; split;
    try discriminate.
  - intros [= E]. apply str_eqb_eq in E. now subst.
  - intros [= ->]. reflexivity.
Qed.

Lemma esperar_desde_verdadero (files : list archivo) (i : nat) :
  snd (esperar_desde i files) = Some true <-> Forall activo files.
Proof.
  revert i. induction files as [|[rs|] files IH]; intros i; simpl.
  - split; [constructor | reflexivity].
  - pose proof (sondear_activo i rs) as A.
    destruct (sondear i rs) as [evs [[|]|]]; cbn [snd] in A.
    + specialize (IH (S i)). destruct (esperar_desde (S i) files) as [evs' r].
      cbn [snd] in *. rewrite IH. split.
      * intros H. constructor; [now apply A | assumption].
      * intros H. now inversion H.
    + split; [discriminate|]. intros H. inversion H; subst.
      apply A in H2. discriminate.
    + split; [discriminate|]. intros H. inversion H; subst.
      apply A in H2. discriminate.
  - rewrite IH. split.
    + intros H. now constructor.
    + intros H. now inversion H.
Qed.

(** X18. [wait_for_files_active] returns [True] exactly when every entry
    of [files] is falsy or is answered "ACTIVE" after nothing but
    "PROCESSING" answers. *)
Theorem wait_for_files_active_verdadero (files : list archivo) :
  snd (wait_for_files_active files) = Some true <-> Forall activo files.
Proof. apply esperar_desde_verdadero. Qed.

Lemma esperar_desde_fallo (antes despues : list archivo) (rs : list respuesta)
    (r : respuesta) (i : nat) :
  Forall activo antes -> definitiva rs = Some r -> r <> Estado ACTIVE ->
  esperar_desde i (antes ++ Some rs :: despues) =
    esperar_desde i (antes ++ [Some rs]) /\
  snd (esperar_desde i (antes ++ Some rs :: despues)) = Some false.
Proof.
  intros Ha Hd Hr. revert i.
  induction Ha as [|[rs0|] antes H0 Ha IH]; intros i; simpl.
  - pose proof (sondear_resultado i rs) as R. rewrite Hd in R.
    destruct (sondear i rs) as [evs o]. cbn [snd] in R. subst o.
    destruct r as [name|]; [|auto].
    destruct (str_eqb name ACTIVE) eqn:E; [|auto].
    apply str_eqb_eq in E. subst. contradiction.
  - apply (sondear_activo i) in H0.
    destruct (sondear i rs0) as [evs o0]. cbn [snd] in H0. subst o0.
    destruct (IH (S i)) as [E F]. rewrite E in *.
    destruct (esperar_desde (S i) (antes ++ [Some rs])) as [evs' o].
    cbn [snd] in *. auto.
  - apply IH.
Qed.

(** X19. The function stops at the first file that fails: when the files
    before it all become active and its first answer other than
    "PROCESSING" is an exception or a state other than "ACTIVE", the
    result is [False] and the run, calls and sleeps included, is the
    same whatever files come after it: they are never looked at. *)
Theorem wait_for_files_active_fallo (antes despues : list archivo)
    (rs : list respuesta) (r : respuesta) :
  Forall activo antes -> definitiva rs = Some r -> r <> Estado ACTIVE ->
  wait_for_files_active (antes ++ Some rs :: despues) =
    wait_for_files_active (antes ++ [Some rs]) /\
  snd (wait_for_files_active (antes ++ Some rs :: despues)) = Some false.
Proof. apply esperar_desde_fallo. Qed.

Lemma wait_for_files_active_fallo_witness :
  let antes := [None; Some [Estado PROCESSING; Estado ACTIVE]] in
  let rs := [Estado PROCESSING; Estado PROCESSING; Estado (py "FAILED")] in
  let despues := [Some [Estado ACTIVE]; Some []] in
  (Forall activo antes /\ definitiva rs = Some (Estado (py "FAILED")) /\
   Estado (py "FAILED") <> Estado ACTIVE) /\
  wait_for_files_active (antes ++ Some rs :: despues) =
    wait_for_files_active (antes ++ [Some rs]) /\
  snd (wait_for_files_active (antes ++ Some rs :: despues)) = Some false.
Proof.
  assert (A : Forall activo [None; Some [Estado PROCESSING; Estado ACTIVE]])
    by (repeat constructor).
  assert (N : Estado (py "FAILED") <> Estado ACTIVE) by (vm_compute; discriminate).
  split; [split; [exact A | split; [reflexivity | exact N]]|].
  apply (wait_for_files_active_fallo
           [None; Some [Estado PROCESSING; Estado ACTIVE]]
           [Some [Estado ACTIVE]; Some []]
           [Estado PROCESSING; Estado PROCESSING; Estado (py "FAILED")]
           (Estado (py "FAILED")) A eq_refl N).
Defined.

Lemma esperar_desde_responde (files : list archivo) (i : nat) :
  Forall (fun f => match f with
                   | Some rs => definitiva rs <> None
                   | None => True
                   end) files ->
  exists b, snd (esperar_desde i files) = Some b /\
    (b = true ->
     dormidas (fst (esperar_desde i files)) =
     list_sum (List.map (fun f => match f with
                                  | Some rs => procesando rs
                                  | None => O
                                  end) files)).
Proof.
  intros H. revert i. induction H as [|[rs|] files Hd Hf IH]; intros i; simpl.
  - exists true. auto.
  - pose proof (sondear_resultado i rs) as R.
    pose proof (sondear_dormidas i rs) as D.
    destruct (sondear i rs) as [evs o]. cbn [fst snd] in *.
    destruct (definitiva rs) as [r|]; [|congruence].
    assert (Ho : exists b, o = Some b) by (destruct r; rewrite R; eauto).
    destruct Ho as ([|] & ->).
    + destruct (IH (S i)) as (b & Hb & Hs).
      destruct (esperar_desde (S i) files) as [evs' o']. cbn [fst snd] in *.
      exists b. split; [assumption|]. intros E. unfold dormidas in *.
      rewrite filter_app, length_app, D, Hs by assumption. reflexivity.
    + exists false. split; [reflexivity | discriminate].
  - apply IH.
Qed.

(** X20. When the service gives, for every file, an answer other than
    "PROCESSING" at some point, the function returns; and when it returns
    [True] it has slept once, ten seconds, for every "PROCESSING" answer
    it received. *)
Theorem wait_for_files_active_responde (files : list archivo) :
  Forall (fun f => match f with
                   | Some rs => definitiva rs <> None
                   | None => True
                   end) files ->
  exists b, snd (wait_for_files_active files) = Some b /\
    (b = true ->
     dormidas (fst (wait_for_files_active files)) =
     list_sum (List.map (fun f => match f with
                                  | Some rs => procesando rs
                                  | None => O
                                  end) files)).
Proof. apply esperar_desde_responde. Qed.

Lemma wait_for_files_active_responde_witness :
  let files := [Some [Estado PROCESSING; Estado PROCESSING; Estado ACTIVE];
                None; Some [Estado ACTIVE]] in
  Forall (fun f => match f with
                   | Some rs => definitiva rs <> None
                   | None => True
                   end) files /\
  exists b, snd (wait_for_files_active files) = Some b /\
    (b = true ->
     dormidas (fst (wait_for_files_active files)) =
     list_sum (List.map (fun f => match f with
                                  | Some rs => procesando rs
                                  | None => O
                                  end) files)).
Proof.
  assert (A : Forall (fun f : archivo => match f with
                   | Some rs => definitiva rs <> None
                   | None => True
                   end)
                [Some [Estado PROCESSING; Estado PROCESSING; Estado ACTIVE];
                 None; Some [Estado ACTIVE]]).
  { repeat constructor; vm_compute; discriminate. }
  split; [exact A|].
  apply (wait_for_files_active_responde
           [Some [Estado PROCESSING; Estado PROCESSING; Estado ACTIVE];
            None; Some [Estado ACTIVE]] A).
Defined.

End EsperaProps.

(* ===================================================================== *)
(** ** What the stored keys and values are made of *)
(* ===================================================================== *)

Lemma lstrip_incl (c : char) (s : str) : In c (lstrip s) -> In c s.
Proof.
  induction s as [|x s IH]; simpl; [tauto|].
  destruct (isspace x); simpl; tauto.
Qed.

Lemma strip_incl (c : char) (s : str) : In c (strip s) -> In c s.
Proof.
  unfold strip, rstrip. intros H. apply in_rev, lstrip_incl in H.
  apply in_rev in H. now apply lstrip_incl.
Qed.

(** The cut of [split(sep, 1)] is at the first separator. *)
Lemma split1_primero (sep : char) (s a b : str) :
  split1 sep s = [a; b] -> s = a ++ sep :: b /\ ~ In sep a.
Proof.
  revert a b. induction s as [|c s IH]; intros a b; simpl; [discriminate|].
  destruct (c =? sep) eqn:E.
  - apply N.eqb_eq in E. subst. intros [= <- <-]. split; [reflexivity | tauto].
  - destruct (split1 sep s) as [|l [|l' [|x r]]] eqn:S; try discriminate.
    intros [= <- <-]. destruct (IH l l' eq_refl) as [-> Hn]. split; [reflexivity|].
    simpl. intros [->|H]; [now rewrite N.eqb_refl in E | contradiction].
Qed.

Lemma partes_de_linea (linea clave valor : str) :
  List.map strip (split1 colon linea) = [clave; valor] ->
  (~ In colon clave /\ strip clave = clave) /\
  (forall c, In c valor -> In c linea).
Proof.
  destruct (split1 colon linea) as [|a [|b [|x r]]] eqn:S; try discriminate.
  intros [= <- <-]. destruct (split1_primero _ _ _ _ S) as [-> Hn]. split.
  - split; [|apply strip_idem]. intros H. apply strip_incl in H. contradiction.
  - intros c H. apply strip_incl in H. apply in_or_app. right. now right.
Qed.

Lemma In_dict_set {V} (k k' : str) (v v' : V) (t : dict V) :
  In (k', v') (dict_set k v t) -> (k' = k /\ v' = v) \/ In (k', v') t.
Proof.
  induction t as [|[k0 v0] t IH]; simpl.
  - intros [[= <- <-]|[]]. now left.
  - destruct (str_eqb k k0) eqn:E; simpl.
    + apply str_eqb_eq in E. subst. intros [[= <- <-]|H]; auto.
    + intros [H|H]; [auto|]. destruct (IH H); auto.
Qed.

Lemma claves_limpias_set (k v : str) (t : dict str) :
  claves_limpias t -> ~ In colon k -> strip k = k ->
  claves_limpias (dict_set k v t).
Proof.
  intros H Hc Hs k' Hk. apply keys_set_in in Hk as [->|Hk]; auto.
Qed.

Lemma marcador_limpio (m : str) :
  es_marcador m = true -> ~ In colon m /\ strip m = m.
Proof.
  intros H. apply es_marcador_eq in H as [->| ->]; split;
    try (vm_compute; reflexivity);
    apply tiene_false; vm_compute; reflexivity.
Qed.

Lemma In_guardar_seccion (st : estado) (s : str) (campos : dict str) :
  In (s, campos) (guardar_seccion st) ->
  In (s, campos) (datos_json st) \/
  (seccion_actual st = Some s /\ campos = temp_dict st).
Proof.
  unfold guardar_seccion. destruct (seccion_actual st) as [s0|]; [|auto].
  destruct (no_vacia s0 && no_vacio (temp_dict st)); [|auto].
  intros H. apply In_dict_set in H as [[-> ->]|H]; auto.
Qed.

Lemma InvTexto_guardar (st : estado) :
  InvTexto st ->
  (forall s campos, In (s, campos) (guardar_seccion st) -> claves_limpias campos) /\
  (forall s campos k v,
     In (s, campos) (guardar_seccion st) -> In (k, v) campos -> In nl v ->
     s = DESCRIPCION_QUIRURGICA /\ es_marcador k = true).
Proof.
  intros [A B C D]. split.
  - intros s campos H. apply In_guardar_seccion in H as [H|[_ ->]]; eauto.
  - intros s campos k v H Hk Hn.
    apply In_guardar_seccion in H as [H|[Hs ->]]; [eauto|].
    destruct (C k v Hk Hn) as [E M]. split; [congruence | assumption].
Qed.

(** The invariant holds along any run over lines without newlines. *)
Lemma InvTexto_lineas (lineas : list str) (st0 st : estado) :
  Forall (fun l => ~ In nl l) lineas -> Inv st0 -> InvTexto st0 ->
  procesar_lineas st0 lineas = Ok st -> InvTexto st.
Proof.
  intros Hq. revert st0. induction Hq as [|l ls Hl Hls IH]; intros st0 I0 T0; simpl.
  { now intros [= <-]. }
  destruct (procesar_linea_forma st0 l I0) as (st1 & E1 & F).
  destruct (procesar_linea_inv st0 l I0) as (st1' & E1' & I1).
  assert (st1' = st1) by congruence. subst st1'. rewrite E1. simpl.
  apply IH; [assumption|]. clear IH E1 E1' I1.
  pose proof T0 as [A B C D].
  inversion F; subst; clear F.
  - assumption.
  - destruct (InvTexto_guardar st0 T0) as [G1 G2].
    split; simpl; auto; try contradiction. intros k [].
  - match goal with H : List.map strip _ = _ |- _ =>
      destruct (partes_de_linea _ _ _ H) as [_ Hv] end.
    pose proof (marcador_de_es clave) as M.
    split; simpl; auto.
    + destruct (marcador_limpio _ M). now apply claves_limpias_set.
    + intros k v Hkv Hn. apply In_dict_set in Hkv as [[-> ->]|Hkv]; [auto|].
      destruct (C k v Hkv Hn). auto.
  - match goal with H : subseccion_actual st0 = Some _ |- _ =>
      destruct (inv_sub st0 I0 _ H) as (Hs & Hm & Hin) end.
    apply es_marcador_eq in Hm. destruct (marcador_limpio _ Hm).
    split; simpl; auto.
    + now apply claves_limpias_set.
    + intros k v Hkv Hn. apply In_dict_set in Hkv as [[-> ->]|Hkv]; [auto|].
      destruct (C k v Hkv Hn). auto.
  - match goal with H : List.map strip _ = _ |- _ =>
      destruct (partes_de_linea _ _ _ H) as [[Hc Hs] Hv] end.
    split; simpl; auto.
    + now apply claves_limpias_set.
    + intros k v Hkv Hn. apply In_dict_set in Hkv as [[-> ->]|Hkv];
        [|exact (C k v Hkv Hn)].
      exfalso. apply Hl. apply strip_incl. now apply Hv.
Qed.

Lemma split_sin_nl (s : str) : Forall (fun l => ~ In nl l) (split nl s).
Proof.
  induction s as [|c s IH]; simpl.
  - constructor; [tauto | constructor].
  - destruct (c =? nl) eqn:E.
    + constructor; [tauto | assumption].
    + destruct (split nl s) as [|l ls]; inversion IH; subst.
      * constructor; [|constructor]. simpl. intros [->|[]].
        now rewrite N.eqb_refl in E.
      * constructor; [|assumption]. simpl. intros [->|H]; [|contradiction].
        now rewrite N.eqb_refl in E.
Qed.

Lemma InvTexto_inicial : InvTexto inicial.
Proof. split; simpl; try contradiction. intros k []. Qed.

(** X21. Field names are clean: in every parsed tree, no key of any
    section contains a colon, and none has leading or trailing
    whitespace. *)
Theorem convertir_a_json_claves_limpias (contenido : str) :
  exists datos,
    convertir_a_json contenido = Ok datos /\
    forall s campos k,
      dict_get s datos = Some campos -> In k (keys campos) ->
      ~ In colon k /\ strip k = k.
Proof.
  destruct (convertir_a_json_ok contenido) as (st & Hst & _ & E).
  exists (guardar_seccion st). split; [assumption|].
  pose proof (InvTexto_lineas _ _ _ (split_sin_nl contenido) Inv_inicial
                InvTexto_inicial Hst) as T.
  destruct (InvTexto_guardar st T) as [G _].
  intros s campos k Hs Hk. apply (G s campos); [|assumption].
  clear -Hs. induction (guardar_seccion st) as [|[s0 c0] r IH]; simpl in *;
    [discriminate|].
  destruct (str_eqb s s0) eqn:Eq.
  - apply str_eqb_eq in Eq. injection Hs as ->. subst. now left.
  - right. now apply IH.
Qed.

(** X22. Only the two multiline fields span lines: in every parsed tree,
    a value that contains a newline is the value of
    "Hallazgos_operatorios" or "Detalle_quirúrgico" in
    DESCRIPCION_QUIRURGICA; every other value is a piece of one line. *)
Theorem convertir_a_json_saltos (contenido : str) :
  exists datos,
    convertir_a_json contenido = Ok datos /\
    forall s campos k v,
      dict_get s datos = Some campos -> dict_get k campos = Some v ->
      In nl v ->
      s = DESCRIPCION_QUIRURGICA /\
      (k = Hallazgos_operatorios \/ k = Detalle_quirurgico).
Proof.
  destruct (convertir_a_json_ok contenido) as (st & Hst & _ & E).
  exists (guardar_seccion st). split; [assumption|].
  pose proof (InvTexto_lineas _ _ _ (split_sin_nl contenido) Inv_inicial
                InvTexto_inicial Hst) as T.
  destruct (InvTexto_guardar st T) as [_ G].
  assert (L : forall V (d : dict V) k v, dict_get k d = Some v -> In (k, v) d).
  { intros V d k v. induction d as [|[k0 v0] r IH]; simpl; [discriminate|].
    destruct (str_eqb k k0) eqn:Eq.
    - apply str_eqb_eq in Eq. intros [= ->]. subst. now left.
    - intros H. right. now apply IH. }
  intros s campos k v Hs Hk Hn.
  destruct (G s campos k v (L _ _ _ _ Hs) (L _ _ _ _ Hk) Hn) as [-> M].
  split; [reflexivity|]. now apply es_marcador_eq.
Qed.

(* ===================================================================== *)
(** ** Repeated field names *)
(* ===================================================================== *)

Lemma split1_sin_sep (sep : char) (s : str) : ~ In sep s -> split1 sep s = [s].
Proof.
  induction s as [|c s IH]; simpl; [reflexivity|]. intros H.
  destruct (c =? sep) eqn:E; [apply N.eqb_eq in E; tauto|].
  rewrite IH by tauto. reflexivity.
Qed.

(** A line that the loop unpacks into key and value is read the same way
    as a field line. *)
Lemma campo_de_linea_partes (linea0 clave valor : str) :
  omitida (strip linea0) = false ->
  List.map strip (split1 colon (strip linea0)) = [clave; valor] ->
  campo_de_linea linea0 = Some (clave, valor).
Proof.
  intros Ho Hp. unfold campo_de_linea. rewrite Ho.
  destruct (contiene [colon] (strip linea0)) eqn:E; [now rewrite Hp|].
  exfalso. assert (N : ~ In colon (strip linea0)).
  { intros I. apply contiene_char in I. congruence. }
  rewrite split1_sin_sep in Hp by assumption. discriminate.
Qed.

(** A line that is not a header and does not carry the key [k] leaves
    the value under [k] alone, [k] not being a multiline field of
    DESCRIPCION_QUIRURGICA. *)
Lemma forma_paso_conserva (st st' : estado) (linea0 k v : str) :
  Inv st -> forma_paso st linea0 st' ->
  es_seccion (strip linea0) = false ->
  match campo_de_linea linea0 with
  | Some (clave, _) => str_eqb clave k = false
  | None => True
  end ->
  (seccion_actual st = Some DESCRIPCION_QUIRURGICA -> es_marcador k = false) ->
  dict_get k (temp_dict st) = Some v ->
  dict_get k (temp_dict st') = Some v.
Proof.
  intros I F He Hr Hm Hg. inversion F; subst; clear F.
  - assumption.
  - congruence.
  - simpl. rewrite dict_get_set.
    destruct (str_eqb k (marcador_de clave)) eqn:E; [|assumption].
    apply str_eqb_eq in E. subst k.
    match goal with H : seccion_actual st = Some _ |- _ => apply Hm in H end.
    rewrite marcador_de_es in *. discriminate.
  - match goal with H : subseccion_actual st = Some _ |- _ =>
      destruct (inv_sub st I _ H) as (Hs & Hk & _) end.
    simpl. rewrite dict_get_set.
    destruct (str_eqb k sub) eqn:E; [|assumption].
    apply str_eqb_eq in E. subst k. apply es_marcador_eq in Hk.
    rewrite (Hm Hs) in Hk. discriminate.
  - match goal with
    | Ho : omitida _ = false, Hp : List.map strip _ = _ |- _ =>
        rewrite (campo_de_linea_partes _ _ _ Ho Hp) in Hr
    end.
    simpl. rewrite dict_get_set.
    destruct (str_eqb k clave) eqn:E; [|assumption].
    apply str_eqb_eq in E. subst k. rewrite str_eqb_refl in Hr. discriminate.
Qed.

(** Up to the next header, lines that do not carry the key [k] leave the
    value under [k] and the section alone. *)
Lemma cola_conserva (cola : list str) (st st' : estado) (k v : str) :
  Inv st -> procesar_lineas st cola = Ok st' ->
  sin_encabezados cola = true -> no_reasigna k cola = true ->
  (seccion_actual st = Some DESCRIPCION_QUIRURGICA -> es_marcador k = false) ->
  dict_get k (temp_dict st) = Some v ->
  dict_get k (temp_dict st') = Some v /\
  seccion_actual st' = seccion_actual st.
Proof.
  revert st. induction cola as [|l ls IH]; intros st I Hrun Hh Hn Hm Hg.
  - simpl in Hrun. injection Hrun as <-. auto.
  - simpl in Hrun, Hh, Hn.
    apply andb_true_iff in Hh as [Hl Hls]. apply negb_true_iff in Hl.
    apply andb_true_iff in Hn as [Hnl Hnls].
    destruct (procesar_linea_forma st l I) as (st1 & E1 & F).
    destruct (procesar_linea_inv st l I) as (st1' & E1' & I1).
    assert (st1' = st1) by congruence. subst st1'.
    rewrite E1 in Hrun. simpl in Hrun.
    destruct (procesar_campo_forma st st1 l Hl E1) as (_ & Hs & _).
    assert (G1 : dict_get k (temp_dict st1) = Some v).
    { apply (forma_paso_conserva st st1 l k v I F Hl); [|assumption|assumption].
      destruct (campo_de_linea l) as [[clave valor]|]; [|exact Logic.I].
      now apply negb_true_iff. }
    destruct (IH st1 I1 Hrun Hls Hnls) as [A B]; [now rewrite Hs | assumption|].
    split; [assumption | congruence].
Qed.

Lemma dict_get_guardar_otra (st : estado) (s : str) :
  seccion_actual st <> Some s ->
  dict_get s (guardar_seccion st) = dict_get s (datos_json st).
Proof.
  intros N. rewrite dict_get_guardar.
  destruct (seccion_actual st) as [s0|]; [|reflexivity].
  destruct (str_eqb s s0) eqn:E.
  - apply str_eqb_eq in E. subst. congruence.
  - now rewrite andb_false_r.
Qed.

(** Lines none of which is the header [s], read while another section is
    open, leave the entry of [s] alone. *)
Lemma conserva_seccion (lineas : list str) (st st' : estado) (s : str) :
  procesar_lineas st lineas = Ok st' ->
  seccion_actual st <> Some s -> sin_nombre s lineas = true ->
  dict_get s (guardar_seccion st') = dict_get s (datos_json st).
Proof.
  revert st. induction lineas as [|l ls IH]; intros st Hrun N Hn.
  - simpl in Hrun. injection Hrun as <-. now apply dict_get_guardar_otra.
  - simpl in Hrun, Hn. apply andb_true_iff in Hn as [Hl Hls].
    apply negb_true_iff, str_eqb_neq in Hl.
    destruct (procesar_linea st l) as [st1|] eqn:E1; simpl in Hrun; [|discriminate].
    destruct (es_seccion (strip l)) eqn:He.
    + rewrite procesar_encabezado in E1 by assumption. injection E1 as <-.
      rewrite (IH _ Hrun); [|simpl; congruence | assumption].
      simpl. now apply dict_get_guardar_otra.
    + destruct (procesar_campo_forma st st1 l He E1) as (Hd & Hs & _).
      rewrite (IH _ Hrun); [congruence | congruence | assumption].
Qed.

(** C10, as the claim states it, fails when the later of the two lines is
    one the loop skips as a page header or footer: both lines carry the
    key "Ingreso", neither opens a multiline field nor is absorbed, and
    the section keeps the value of the earlier one. *)
Lemma campo_repetido_omitido :
  let contenido := join [nl] [DATOS_BASICOS; py "Ingreso: 111";
                              py "Ingreso: Impreso el lunes"] in
  List.map strip (split1 colon (strip (py "Ingreso: 111"))) =
    [Ingreso; py "111"] /\
  List.map strip (split1 colon (strip (py "Ingreso: Impreso el lunes"))) =
    [Ingreso; py "Impreso el lunes"] /\
  convertir_a_json contenido = Ok [(DATOS_BASICOS, [(Ingreso, py "111")])] /\
  py "111" <> py "Impreso el lunes".
Proof. repeat split; try (vm_compute; reflexivity). vm_compute. discriminate. Qed.

(** C10, amended. Every section of a parsed tree has one entry per field
    name. When two lines of the same section, neither skipped as blank
    or as a page header or footer, are stored as fields under the same
    key (neither opens a multiline field nor is absorbed as a
    continuation), with no header between them, the second assignment
    replaces the value where the key already is: the key set is
    unchanged, the key occurs once and holds the second value. When no
    later line of that section carries the key, the section is committed,
    at the next header or at the end of the text, with one entry under
    the key holding that last value; and the tree returned holds the
    section so committed when its name heads no later line. *)
Theorem campo_repetido_ultimo_valor :
  (forall contenido, exists datos,
     convertir_a_json contenido = Ok datos /\
     forall s campos, dict_get s datos = Some campos -> NoDup (keys campos)) /\
  (forall contenido previo medio cola resto l1 l2 s k v1 v2 st0 st2,
     split nl contenido = previo ++ l1 :: medio ++ l2 :: cola ++ resto ->
     procesar_lineas inicial previo = Ok st0 ->
     seccion_actual st0 = Some s ->
     campo_simple st0 l1 = Some (k, v1) ->
     procesar_lineas st0 (l1 :: medio) = Ok st2 ->
     sin_encabezados medio = true ->
     campo_simple st2 l2 = Some (k, v2) ->
     sin_encabezados cola = true ->
     no_reasigna k cola = true ->
     empieza_encabezado resto = true ->
     exists st3 st4,
       procesar_linea st2 l2 = Ok st3 /\
       procesar_lineas inicial (previo ++ l1 :: medio ++ [l2]) = Ok st3 /\
       seccion_actual st3 = Some s /\
       temp_dict st3 = dict_set k v2 (temp_dict st2) /\
       keys (temp_dict st3) = keys (temp_dict st2) /\
       dict_get k (temp_dict st3) = Some v2 /\
       count_occ (list_eq_dec N.eq_dec) (keys (temp_dict st3)) k = 1%nat /\
       procesar_lineas inicial (previo ++ l1 :: medio ++ l2 :: cola) = Ok st4 /\
       seccion_actual st4 = Some s /\
       dict_get k (temp_dict st4) = Some v2 /\
       count_occ (list_eq_dec N.eq_dec) (keys (temp_dict st4)) k = 1%nat /\
       dict_get s (guardar_seccion st4) = Some (temp_dict st4) /\
       (sin_nombre s resto = true ->
        exists datos campos,
          convertir_a_json contenido = Ok datos /\
          dict_get s datos = Some campos /\
          dict_get k campos = Some v2 /\
          count_occ (list_eq_dec N.eq_dec) (keys campos) k = 1%nat)).
Proof.
  split.
  - intros contenido.
    destruct (convertir_a_json_ok contenido) as (st & _ & I & E).
    exists (guardar_seccion st). split; [assumption|].
    intros s campos G.
    apply (dict_get_Forall _ s campos _
             (ok_campos_nodup _ (guardar_seccion_ok st I)) G).
  - intros contenido previo medio cola resto l1 l2 s k v1 v2 st0 st2
      Hl H0 Hs0 C1 H2 Hm C2 Hc Hnr Hr.
    assert (I0 : Inv st0) by (eapply Inv_lineas; [apply Inv_inicial | eassumption]).
    assert (I2 : Inv st2) by (eapply Inv_lineas; eassumption).
    destruct (campo_simple_seccion _ _ _ C1) as (s' & Hs0' & Hnv).
    assert (s' = s) by congruence. subst s'.
    destruct (campo_simple_paso _ _ _ _ C1) as (_ & P1).
    destruct (campo_simple_paso _ _ _ _ C2) as (_ & P2).
    set (st3 := con_temp st2 (dict_set k v2 (temp_dict st2))) in *.
    assert (Hrun3 : procesar_lineas inicial (previo ++ l1 :: medio ++ [l2]) = Ok st3).
    { rewrite procesar_lineas_app, H0. cbn [bind].
      change (l1 :: medio ++ [l2]) with ((l1 :: medio) ++ [l2]).
      rewrite procesar_lineas_app, H2. simpl. now rewrite P2. }
    assert (I3 : Inv st3) by (eapply Inv_lineas; [apply Inv_inicial | eassumption]).
    pose proof H2 as H2'. simpl in H2'. rewrite P1 in H2'. simpl in H2'.
    destruct (sin_encabezados_lineas _ _ _ Hm H2') as (Hs2 & _ & Hk).
    simpl in Hs2.
    assert (Hs3 : seccion_actual st3 = Some s) by (simpl; congruence).
    assert (Kin : In k (keys (temp_dict st2))).
    { apply Hk. simpl. apply keys_set_in. now left. }
    assert (Kset : keys (dict_set k v2 (temp_dict st2)) = keys (temp_dict st2))
      by now apply keys_set_present.
    assert (G3 : dict_get k (temp_dict st3) = Some v2) by apply dict_get_set_eq.
    (* the key is not a multiline field name of DESCRIPCION_QUIRURGICA *)
    assert (Hmk : seccion_actual st3 = Some DESCRIPCION_QUIRURGICA ->
                  es_marcador k = false).
    { intros Hd. destruct (es_marcador k) eqn:Em; [|reflexivity].
      apply es_marcador_tiene in Em. exfalso. revert C2. unfold campo_simple.
      assert (Hs2' : seccion_actual st2 = Some DESCRIPCION_QUIRURGICA)
        by (simpl in Hd; exact Hd).
      destruct (omitida (strip l2) || es_seccion (strip l2)); [discriminate|].
      destruct (verdadero (seccion_actual st2) && contiene [colon] (strip l2));
        [|discriminate].
      destruct (List.map strip (split1 colon (strip l2))) as [|a [|b [|c r]]];
        try discriminate; rewrite Hs2'; try discriminate.
      rewrite str_eqb_refl.
      destruct (contiene Hallazgos_operatorios a
                || contiene Detalle_quirurgico a
                || verdadero (subseccion_actual st2)) eqn:X; [discriminate|].
      intros [= -> _]. unfold tiene_marcador in Em.
      rewrite Em in X. discriminate. }
    destruct (procesar_lineas_inv cola st3 I3) as (st4 & Hrun4 & I4).
    destruct (cola_conserva cola st3 st4 k v2 I3 Hrun4 Hc Hnr Hmk G3) as [G4 Hs4].
    rewrite Hs3 in Hs4.
    assert (Hrun4' : procesar_lineas inicial (previo ++ l1 :: medio ++ l2 :: cola)
                     = Ok st4).
    { replace (previo ++ l1 :: medio ++ l2 :: cola)
        with ((previo ++ l1 :: medio ++ [l2]) ++ cola)
        by (rewrite <- !app_assoc; simpl; rewrite <- app_assoc; reflexivity).
      now rewrite procesar_lineas_app, Hrun3. }
    assert (C4 : count_occ (list_eq_dec N.eq_dec) (keys (temp_dict st4)) k = 1%nat).
    { apply count_key_one; [apply (inv_temp_nodup _ I4) |].
      eapply dict_get_in; eauto. }
    assert (Hne : no_vacio (temp_dict st4) = true).
    { destruct (temp_dict st4); [discriminate | reflexivity]. }
    assert (Gs : dict_get s (guardar_seccion st4) = Some (temp_dict st4)).
    { rewrite dict_get_guardar, Hs4, Hnv, Hne, str_eqb_refl. reflexivity. }
    exists st3, st4. split; [exact P2|]. split; [exact Hrun3|].
    split; [exact Hs3|]. split; [reflexivity|]. split; [exact Kset|].
    split; [exact G3|]. split.
    { simpl. rewrite Kset.
      apply count_key_one; [apply (inv_temp_nodup _ I2) | assumption]. }
    split; [exact Hrun4'|]. split; [exact Hs4|]. split; [exact G4|].
    split; [exact C4|]. split; [exact Gs|].
    intros Hsn.
    destruct (procesar_lineas_inv resto st4 I4) as (st5 & Hrun5 & _).
    exists (guardar_seccion st5), (temp_dict st4).
    split.
    { unfold convertir_a_json, analizar_lineas. rewrite Hl.
      replace (previo ++ l1 :: medio ++ l2 :: cola ++ resto)
        with ((previo ++ l1 :: medio ++ l2 :: cola) ++ resto)
        by (rewrite <- !app_assoc; simpl; rewrite <- app_assoc; reflexivity).
      rewrite procesar_lineas_app, Hrun4'. cbn [bind]. now rewrite Hrun5. }
    split; [|split; assumption].
    destruct resto as [|h resto'].
    + simpl in Hrun5. injection Hrun5 as <-. exact Gs.
    + simpl in Hr, Hsn, Hrun5. apply andb_true_iff in Hsn as [Hh Hsn].
      apply negb_true_iff, str_eqb_neq in Hh.
      rewrite procesar_encabezado in Hrun5 by assumption. simpl in Hrun5.
      rewrite (conserva_seccion _ _ _ s Hrun5); [exact Gs | | assumption].
      simpl. congruence.
Qed.

Lemma campo_repetido_ultimo_valor_witness :
  let contenido := join [nl] [DATOS_BASICOS; py "Ingreso: 111";
                              py "Ubicaci" ++ [243] ++ py "n: sala 2";
                              py "Ingreso: 222"; py "Folio: 7";
                              IDENTIFICACION; py "Nombres: Ana"] in
  let previo := [DATOS_BASICOS] in
  let l1 := py "Ingreso: 111" in
  let medio := [py "Ubicaci" ++ [243] ++ py "n: sala 2"] in
  let l2 := py "Ingreso: 222" in
  let cola := [py "Folio: 7"] in
  let resto := [IDENTIFICACION; py "Nombres: Ana"] in
  let st0 := mkEstado [] (Some DATOS_BASICOS) None [] in
  let st2 := mkEstado [] (Some DATOS_BASICOS) None
               [(Ingreso, py "111"); (py "Ubicaci" ++ [243] ++ py "n", py "sala 2")] in
  (split nl contenido = previo ++ l1 :: medio ++ l2 :: cola ++ resto /\
   procesar_lineas inicial previo = Ok st0 /\
   seccion_actual st0 = Some DATOS_BASICOS /\
   campo_simple st0 l1 = Some (Ingreso, py "111") /\
   procesar_lineas st0 (l1 :: medio) = Ok st2 /\
   sin_encabezados medio = true /\
   campo_simple st2 l2 = Some (Ingreso, py "222") /\
   sin_encabezados cola = true /\
   no_reasigna Ingreso cola = true /\
   empieza_encabezado resto = true /\
   sin_nombre DATOS_BASICOS resto = true) /\
  exists datos campos,
    convertir_a_json contenido = Ok datos /\
    dict_get DATOS_BASICOS datos = Some campos /\
    dict_get Ingreso campos = Some (py "222") /\
    count_occ (list_eq_dec N.eq_dec) (keys campos) Ingreso = 1%nat.
Proof.
  split; [repeat split|].
  destruct (proj2 campo_repetido_ultimo_valor
              (join [nl] [DATOS_BASICOS; py "Ingreso: 111";
                          py "Ubicaci" ++ [243] ++ py "n: sala 2";
                          py "Ingreso: 222"; py "Folio: 7";
                          IDENTIFICACION; py "Nombres: Ana"])
              [DATOS_BASICOS] [py "Ubicaci" ++ [243] ++ py "n: sala 2"]
              [py "Folio: 7"] [IDENTIFICACION; py "Nombres: Ana"]
              (py "Ingreso: 111") (py "Ingreso: 222")
              DATOS_BASICOS Ingreso (py "111") (py "222")
              (mkEstado [] (Some DATOS_BASICOS) None [])
              (mkEstado [] (Some DATOS_BASICOS) None
                 [(Ingreso, py "111");
                  (py "Ubicaci" ++ [243] ++ py "n", py "sala 2")])
              eq_refl eq_refl eq_refl eq_refl eq_refl eq_refl eq_refl
              eq_refl eq_refl eq_refl)
    as (st3 & st4 & H).
  repeat (destruct H as [_ H]). exact (H eq_refl).
Defined.
